(** * pypinfo: query construction and result shaping ([pypinfo/core.py])

    A shallow embedding of the pure part of [core.py]: the date
    normaliser and validator, [build_query], [add_percentages],
    [get_download_total], [add_download_total], [tabulate] and
    [format_json], together with the Python built-ins they call.

    Conventions of the embedding.
    - A Python [str] is a [string]; a character is the code point of the
      same number, so the embedding covers the code points 0..255.
    - A Python [int] is a [Z]; the interpreter's limit on the number of
      digits accepted by [int()] is not modelled.
    - A Python [float] is a [spec_float] at binary64 precision.
    - A call that may raise returns a [result]; [try]/[except] is
      [try_except].  The message of an exception raised by a built-in is
      kept up to the text that quotes its argument.
    - A table is a list of rows whose row objects are pairwise distinct
      (as [parse_query_result] builds them); the list [right_align] of
      [tabulate], whose rows are one shared object, is modelled with an
      explicit store. *)

From Stdlib Require Import ZArith Lia Bool Ascii String DecimalString.
From Stdlib Require Import DecimalPos DecimalN DecimalZ SpecFloat.
From stdpp Require Import base tactics option list gmap strings.

Local Open Scope Z_scope.

(** ** Exceptions and results *)

Inductive exn :=
| ValueError (msg : string)
| AttributeError
| IndexError
| OverflowError
| ZeroDivisionError.

Inductive result (A : Type) :=
| Ok (a : A)
| Raise (e : exn).
Arguments Ok {A} a.
Arguments Raise {A} e.

#[global] Instance result_ret : MRet result := fun A a => Ok a.
#[global] Instance result_bind : MBind result := fun A B k m =>
  match m with
  | Ok a => k a
  | Raise e => Raise e
  end.

(** Exception classes, as the [except] clauses name them. *)
Inductive exn_class := ValueError_ | AttributeError_.

Definition instance_of (e : exn) (c : exn_class) : bool :=
  match e, c with
  | ValueError _, ValueError_ => true
  | AttributeError, AttributeError_ => true
  | _, _ => false
  end.

(** [try: body  except (classes): handler] *)
Definition try_except {A} (body : result A) (classes : list exn_class)
    (handler : result A) : result A :=
  match body with
  | Ok a => Ok a
  | Raise e => if existsb (instance_of e) classes then handler else Raise e
  end.

(** [for i, x in enumerate(l): st = body(i, x, st)], counting from [i]. *)
Fixpoint for_each {A St} (body : nat → A → St → result St) (i : nat) (l : list A)
    (st : St) : result St :=
  match l with
  | [] => Ok st
  | x :: l' => st' ← body i x st; for_each body (S i) l' st'
  end.

(** ** Python built-ins *)

Module Py.

Definition nl : string := String (ascii_of_nat 10) EmptyString.
Definition dquote : string := String (ascii_of_nat 34) EmptyString.

Definition len (s : string) : Z := Z.of_nat (String.length s).

Definition ord (c : ascii) : Z := Z.of_nat (nat_of_ascii c).

(** [s * n] for a string [s]: empty when [n <= 0]. *)
Fixpoint repeat_nat (s : string) (n : nat) : string :=
  match n with
  | O => EmptyString
  | S n' => s +:+ repeat_nat s n'
  end.
Definition repeat (s : string) (n : Z) : string := repeat_nat s (Z.to_nat n).

(** [str.isspace] of one character (Unicode White_Space and the
    separators FS, GS, RS, US). *)
Definition isspace (c : ascii) : bool :=
  let n := ord c in
  ((9 <=? n) && (n <=? 13)) || ((28 <=? n) && (n <=? 32))
  || (n =? 133) || (n =? 160).

(** The characters [int()] skips around a literal: the ASCII white
    space of C, and the two further white-space characters NEL and
    NBSP, which it first rewrites to a blank. *)
Definition int_space (c : ascii) : bool :=
  let n := ord c in
  ((9 <=? n) && (n <=? 13)) || (n =? 32) || (n =? 133) || (n =? 160).

(** Value of a decimal digit (general category Nd). *)
Definition decimal_value (c : ascii) : option Z :=
  let n := ord c in
  if (48 <=? n) && (n <=? 57) then Some (n - 48) else None.

Definition isdecimal_char (c : ascii) : bool :=
  match decimal_value c with Some _ => true | None => false end.

(** [str.isdigit] of one character: the decimal digits and the
    superscripts two, three and one. *)
Definition isdigit_char (c : ascii) : bool :=
  let n := ord c in
  isdecimal_char c || (n =? 178) || (n =? 179) || (n =? 185).

Fixpoint all_chars (p : ascii → bool) (s : string) : bool :=
  match s with
  | EmptyString => true
  | String c s' => p c && all_chars p s'
  end.

(** [s.isdigit()]: non-empty and every character a digit. *)
Definition isdigit (s : string) : bool :=
  match s with
  | EmptyString => false
  | _ => all_chars isdigit_char s
  end.

Fixpoint last_char (s : string) : option ascii :=
  match s with
  | EmptyString => None
  | String c EmptyString => Some c
  | String _ s' => last_char s'
  end.

(** [s.endswith(c)] for a one-character suffix. *)
Definition endswith_char (s : string) (c : ascii) : bool :=
  match last_char s with
  | Some c' => Ascii.eqb c' c
  | None => false
  end.

(** [s.rstrip()] *)
Fixpoint rstrip (s : string) : string :=
  match s with
  | EmptyString => EmptyString
  | String c s' =>
      match rstrip s' with
      | EmptyString => if isspace c then EmptyString else String c EmptyString
      | t => String c t
      end
  end.

(** [s.split(sep)] for a one-character separator. *)
Fixpoint split (sep : ascii) (s : string) : list string :=
  match s with
  | EmptyString => [EmptyString]
  | String c s' =>
      if Ascii.eqb c sep then EmptyString :: split sep s'
      else match split sep s' with
           | [] => [String c EmptyString]
           | w :: ws => String c w :: ws
           end
  end.

(** [sep.join(l)] *)
Definition join (sep : string) (l : list string) : string := String.concat sep l.

(** *** [int(s)] *)

Fixpoint lstrip_int (s : string) : string :=
  match s with
  | EmptyString => EmptyString
  | String c s' => if int_space c then lstrip_int s' else s
  end.

(** The rest of a literal after at least one digit: digits, single
    underscores between digits, then trailing white space. *)
Fixpoint int_digits (acc : Z) (s : string) : option Z :=
  match s with
  | EmptyString => Some acc
  | String c s' =>
      match decimal_value c with
      | Some d => int_digits (10 * acc + d) s'
      | None =>
          if Ascii.eqb c "_" then
            match s' with
            | EmptyString => None
            | String c2 s'' =>
                match decimal_value c2 with
                | Some d => int_digits (10 * acc + d) s''
                | None => None
                end
            end
          else if all_chars int_space s then Some acc else None
      end
  end.

Definition int_unsigned (s : string) : option Z :=
  match s with
  | EmptyString => None
  | String c s' =>
      match decimal_value c with
      | Some d => int_digits d s'
      | None => None
      end
  end.

Definition int_literal (s : string) : option Z :=
  match lstrip_int s with
  | String "-" s' => Z.opp <$> int_unsigned s'
  | String "+" s' => int_unsigned s'
  | s' => int_unsigned s'
  end.

Definition invalid_literal : exn := ValueError "invalid literal for int() with base 10".

Definition int (s : string) : result Z :=
  match int_literal s with
  | Some n => Ok n
  | None => Raise invalid_literal
  end.

(** *** [str(n)] and the format specifications used *)

Definition str (n : Z) : string := NilEmpty.string_of_int (Z.to_int n).

(** ["%0wd" % n] for [0 <= n]. *)
Definition zero_pad (w : nat) (n : Z) : string :=
  let s := str n in
  repeat_nat "0" (w - String.length s) +:+ s.

(** The grouping of ["{:,}"]: a comma before every group of three
    digits counted from the right. *)
Fixpoint insert_commas (digits : string) : string :=
  match digits with
  | EmptyString => EmptyString
  | String c rest =>
      let k := String.length rest in
      if (0 <? k)%nat && (k mod 3 =? 0)%nat
      then String c ("," +:+ insert_commas rest)
      else String c (insert_commas rest)
  end.

(** ["{:,}".format(n)] *)
Definition format_thousands (n : Z) : string :=
  if n <? 0 then "-" +:+ insert_commas (str (- n)) else insert_commas (str n).

(** [template.format(arg)] for a template whose replacement field is
    one [{}]: the field is replaced by [arg]. *)
Fixpoint format1 (template arg : string) : string :=
  match template with
  | EmptyString => EmptyString
  | String "{" (String "}" rest) => arg +:+ rest
  | String c rest => String c (format1 rest arg)
  end.

(** *** Lists *)

(** [l.index(x)] *)
Definition index (l : list string) (x : string) : result nat :=
  match list_find (fun y => y = x) l with
  | Some (i, _) => Ok i
  | None => Raise (ValueError "x is not in list")
  end.

(** [l.insert(i, x)] for [0 <= i]: beyond the end, [x] is appended. *)
Definition insert (i : nat) (x : string) (l : list string) : list string :=
  take i l ++ x :: drop i l.

(** [l[i]] for [0 <= i] *)
Definition getitem {A} (l : list A) (i : nat) : result A :=
  match l !! i with
  | Some x => Ok x
  | None => Raise IndexError
  end.

(** [l[i] = x] for [0 <= i] *)
Definition setitem {A} (l : list A) (i : nat) (x : A) : result (list A) :=
  if decide (i < length l)%nat then Ok (<[i := x]> l) else Raise IndexError.

(** *** Floats: binary64 *)

Definition float : Type := spec_float.
Definition prec : Z := 53.
Definition emax : Z := 1024.

(** [a / b] on integers: the quotient rounded once to the nearest
    float, ties to even. *)
Definition truediv (a b : Z) : result float :=
  if b =? 0 then Raise ZeroDivisionError
  else
    let negate := xorb (a <? 0) (b <? 0) in
    if a =? 0 then Ok (S754_zero negate)
    else
      let '(q, e, l) := SFdiv_core_binary prec emax (Z.abs a) 0 (Z.abs b) 0 in
      match binary_round_aux prec emax negate q e l with
      | S754_infinity _ => Raise OverflowError
      | x => Ok x
      end.

Definition hundred : float := binary_normalize prec emax 100 0 false.

(** [n / d] rounded to an integer, ties to even, for [0 <= n], [0 < d]. *)
Definition round_half_even (n d : Z) : Z :=
  let q := n / d in
  let r := n mod d in
  match 2 * r ?= d with
  | Lt => q
  | Eq => if Z.even q then q else q + 1
  | Gt => q + 1
  end.

Definition sign_text (s : bool) : string := if s then "-" else EmptyString.

(** A positive finite float [m * 2^e] as a fraction. *)
Definition numerator (m : positive) (e : Z) : Z := Z.pos m * 2 ^ Z.max e 0.
Definition denominator (e : Z) : Z := 2 ^ Z.max (- e) 0.

(** [format(x, '.2f')]: the exact value rounded to two places, ties to
    even. *)
Definition format_fixed2 (x : float) : string :=
  match x with
  | S754_zero s => sign_text s +:+ "0.00"
  | S754_infinity s => sign_text s +:+ "inf"
  | S754_nan => "nan"
  | S754_finite s m e =>
      let h := round_half_even (100 * numerator m e) (denominator e) in
      sign_text s +:+ str (h / 100) +:+ "." +:+ zero_pad 2 (h mod 100)
  end.

(** ['{:.2%}'.format(x)] *)
Definition format_percent2 (x : float) : string :=
  format_fixed2 (SFmul prec emax x hundred) +:+ "%".

(** The position of the decimal point of a positive fraction [n / d]
    not below [10 ^ -400]: the [k] with [10^(k-1) <= n/d < 10^k]. *)
Definition decimal_point (n d : Z) : Z :=
  Z.of_nat (String.length (str (n * 10 ^ 400 / d))) - 400.

(** ['{:.2}'.format(x)]: two significant digits, trailing zeros
    removed, an exponent when the decimal point lies outside
    [-4 < k <= 1], and otherwise at least one digit after the point. *)
Definition format_general2 (x : float) : string :=
  match x with
  | S754_zero s => sign_text s +:+ "0.0"
  | S754_infinity s => sign_text s +:+ "inf"
  | S754_nan => "nan"
  | S754_finite s m e =>
      let n := numerator m e in
      let d := denominator e in
      let k := decimal_point n d in
      let r := round_half_even (n * 10 ^ Z.max (2 - k) 0) (d * 10 ^ Z.max (k - 2) 0) in
      let '(r, k) := if r =? 100 then (10, k + 1) else (r, k) in
      let d1 := str (r / 10) in
      let d2 := if r mod 10 =? 0 then EmptyString else str (r mod 10) in
      sign_text s +:+
      (if (k <=? -4) || (k >? 1) then
         d1 +:+ (if r mod 10 =? 0 then EmptyString else "." +:+ d2)
         +:+ "e" +:+ (if k - 1 <? 0 then "-" else "+") +:+ zero_pad 2 (Z.abs (k - 1))
       else if k =? 1 then
         d1 +:+ "." +:+ (if r mod 10 =? 0 then "0" else d2)
       else
         "0." +:+ repeat "0" (- k) +:+ d1 +:+ d2)
  end.

End Py.

(** ** [calendar] and [datetime] *)

Module Calendar.

(** [calendar.isleap] *)
Definition isleap (year : Z) : bool :=
  (year mod 4 =? 0) && (negb (year mod 100 =? 0) || (year mod 400 =? 0)).

(** [calendar.mdays] *)
Definition mdays : list Z := [0; 31; 28; 31; 30; 31; 30; 31; 31; 30; 31; 30; 31].

(** [calendar.monthrange(year, month)[1]] *)
Definition monthrange_ndays (year month : Z) : result Z :=
  if (1 <=? month) && (month <=? 12) then
    Ok (mdays !!! Z.to_nat month + (if (month =? 2) && isleap year then 1 else 0))
  else Raise (ValueError "bad month number; must be 1-12").

Record date := Date { year : Z; month : Z; day : Z }.

Definition c_int (n : Z) : bool := (- 2 ^ 31 <=? n) && (n <? 2 ^ 31).

(** [datetime._days_in_month] *)
Definition days_in_month (year month : Z) : Z :=
  if (month =? 2) && isleap year then 29 else mdays !!! Z.to_nat month.

(** The constructor [date(year, month, day)]. *)
Definition new_date (year month day : Z) : result date :=
  if negb (c_int year && c_int month && c_int day) then Raise OverflowError
  else if negb ((1 <=? year) && (year <=? 9999)) then
    Raise (ValueError "year is out of range")
  else if negb ((1 <=? month) && (month <=? 12)) then
    Raise (ValueError "month must be in 1..12")
  else if negb ((1 <=? day) && (day <=? days_in_month year month)) then
    Raise (ValueError "day is out of range for month")
  else Ok (Date year month day).

(** [str(d)], the ISO form [%04d-%02d-%02d]. *)
Definition isoformat (d : date) : string :=
  Py.zero_pad 4 (year d) +:+ "-" +:+ Py.zero_pad 2 (month d) +:+ "-"
  +:+ Py.zero_pad 2 (day d).

(** *** [datetime.strptime(s, '%Y-%m-%d')]

    The directive [%Y] is four decimal digits, [%m] is
    [1[0-2]|0[1-9]|[1-9]] and [%d] is
    [3[01]|[12]\d|0[1-9]|[1-9]| [1-9]]; alternatives are tried from the
    left, and the whole text has to be consumed. *)

Definition in_range (lo hi : ascii) (c : ascii) : bool :=
  (Py.ord lo <=? Py.ord c) && (Py.ord c <=? Py.ord hi).

Definition digit (c : ascii) : Z := Py.ord c - 48.

(** The ways [%m] matches a prefix, in the order the matcher tries them. *)
Definition match_month (s : string) : list (Z * string) :=
  match s with
  | String a (String b rest) =>
      (if Ascii.eqb a "1" && in_range "0" "2" b then [(10 + digit b, rest)] else [])
      ++ (if Ascii.eqb a "0" && in_range "1" "9" b then [(digit b, rest)] else [])
      ++ (if in_range "1" "9" a then [(digit a, String b rest)] else [])
  | String a EmptyString =>
      if in_range "1" "9" a then [(digit a, EmptyString)] else []
  | EmptyString => []
  end.

Definition match_day (s : string) : list (Z * string) :=
  match s with
  | String a (String b rest) =>
      (if Ascii.eqb a "3" && in_range "0" "1" b then [(30 + digit b, rest)] else [])
      ++ (if in_range "1" "2" a && Py.isdecimal_char b then [(10 * digit a + digit b, rest)] else [])
      ++ (if Ascii.eqb a "0" && in_range "1" "9" b then [(digit b, rest)] else [])
      ++ (if in_range "1" "9" a then [(digit a, String b rest)] else [])
      ++ (if Ascii.eqb a " " && in_range "1" "9" b then [(digit b, rest)] else [])
  | String a EmptyString =>
      if in_range "1" "9" a then [(digit a, EmptyString)] else []
  | EmptyString => []
  end.

(** The first complete match of [%m-%d]: month, day and what is left. *)
Definition match_month_day (s : string) : option (Z * Z * string) :=
  head (omap (fun '(m, s1) =>
                match s1 with
                | String c s2 =>
                    if Ascii.eqb c "-"
                    then (fun '(d, s3) => (m, d, s3)) <$> head (match_day s2)
                    else None
                | EmptyString => None
                end) (match_month s)).

Definition strptime_Ymd (s : string) : result date :=
  match s with
  | String y1 (String y2 (String y3 (String y4 (String c s1)))) =>
      if Py.isdecimal_char y1 && Py.isdecimal_char y2
         && Py.isdecimal_char y3 && Py.isdecimal_char y4 && Ascii.eqb c "-" then
        match match_month_day s1 with
        | Some (m, d, EmptyString) =>
            let y := 1000 * digit y1 + 100 * digit y2 + 10 * digit y3 + digit y4 in
            new_date y m d
        | Some _ => Raise (ValueError "unconverted data remains")
        | None => Raise (ValueError "time data does not match format")
        end
      else Raise (ValueError "time data does not match format")
  | _ => Raise (ValueError "time data does not match format")
  end.

End Calendar.

(** ** [core.py]: constants *)

Definition FROM : string := "FROM `bigquery-public-data.pypi.file_downloads`".
Definition DATE_ADD : string := "TIMESTAMP_ADD(CURRENT_TIMESTAMP(), INTERVAL {} DAY)".
Definition START_TIMESTAMP : string :=
  "TIMESTAMP(" +:+ Py.dquote +:+ "{} 00:00:00" +:+ Py.dquote +:+ ")".
Definition END_TIMESTAMP : string :=
  "TIMESTAMP(" +:+ Py.dquote +:+ "{} 23:59:59" +:+ Py.dquote +:+ ")".
Definition START_DATE : string := "-31".
Definition END_DATE : string := "-1".
Definition DEFAULT_LIMIT : Z := 10.

Definition Rows : Type := list (list string).

(** ** [core.py]: dates *)

Definition invalid_date : exn :=
  ValueError "Dates must be negative integers or YYYY-MM[-DD] in the past.".

Definition invalid_range : exn :=
  ValueError "End date must be greater than start date.".

(** [month_ends]: the iterator [map(int, ...)] is unpacked into two
    names, which converts at most three parts, in order. *)
Definition month_ends (yyyy_mm : string) : result (string * string) :=
  let parts := Py.split "-" yyyy_mm in
  ints ← mapM Py.int (take 3 parts);
  match ints with
  | [year; month] =>
      first ← Calendar.new_date year month 1;
      number_of_days ← Calendar.monthrange_ndays year month;
      last ← Calendar.new_date year month number_of_days;
      Ok (Calendar.isoformat first, Calendar.isoformat last)
  | [] | [_] => Raise (ValueError "not enough values to unpack (expected 2)")
  | _ => Raise (ValueError "too many values to unpack (expected 2)")
  end.

Definition normalize_dates (start_date end_date : string) : result (string * string) :=
  start_date ← try_except ('(first, _) ← month_ends start_date; Ok first)
                          [AttributeError_; ValueError_] (Ok start_date);
  end_date ← try_except ('(_, last) ← month_ends end_date; Ok last)
                        [AttributeError_; ValueError_] (Ok end_date);
  Ok (start_date, end_date).

(** [validate_date]: each [try] block either returns from the function
    ([Some]) or falls through to the next statement ([None]). *)
Definition validate_date (date_text : string) : result bool :=
  r ← try_except (n ← Py.int date_text;
                  if n <? 0 then Ok (Some true) else Ok None)
                 [ValueError_] (Ok None);
  match r with
  | Some b => Ok b
  | None =>
      r ← try_except (_ ← Calendar.strptime_Ymd date_text; Ok (Some true))
                     [ValueError_] (Ok None);
      match r with
      | Some b => Ok b
      | None => Raise invalid_date
      end
  end.

Definition format_date (date timestamp_format : string) : result string :=
  try_except (n ← Py.int date; Ok (Py.format1 DATE_ADD (Py.str n)))
             [ValueError_] (Ok (Py.format1 timestamp_format date)).

(** ** [core.py]: the query builder *)

(** Truth of an optional argument: [None], the empty string and [0]
    are false. *)
Definition truthy_str (x : option string) : option string :=
  match x with
  | Some s => if String.eqb s EmptyString then None else Some s
  | None => None
  end.

Definition truthy_int (x : option Z) : option Z :=
  match x with
  | Some n => if n =? 0 then None else Some n
  | None => None
  end.

(** [x or default] *)
Definition or_str (x : option string) (default : string) : string :=
  match truthy_str x with
  | Some s => s
  | None => default
  end.

Definition or_int (x : option Z) (default : Z) : Z :=
  match truthy_int x with
  | Some n => n
  | None => default
  end.

Section Query.

(** What [pypinfo.fields] provides: the hashable type [Field] with its
    attributes [name] and [data], the field [Downloads] and the
    collection [AGGREGATES]; and [packaging.utils.canonicalize_name]. *)
Context {Field : Type} `{Countable Field}.
Context (name data : Field → string) (Downloads : Field) (AGGREGATES : gset Field).
Context (canonicalize_name : string → string).

(** The deduplication loop: [fields] and the set [used_fields]. *)
Definition dedup_step (st : list Field * gset Field) (f : Field)
  : list Field * gset Field :=
  let '(fields, used_fields) := st in
  if decide (f ∈ used_fields) then st
  else (fields ++ [f], used_fields ∪ {[f]}).

Definition dedup_fields (all_fields : list Field) : list Field :=
  fst (foldl dedup_step ([], ∅) all_fields).

Definition select_clause (fields : list Field) : string :=
  foldl (fun query field =>
           query +:+ "  " +:+ data field +:+ " as " +:+ name field +:+ "," +:+ Py.nl)
        ("SELECT" +:+ Py.nl) fields.

Definition where_clause (start_date end_date project : string)
    (where_ : option string) (pip : bool) : string :=
  let query :=
    Py.nl +:+ "WHERE timestamp BETWEEN " +:+ start_date +:+ " AND " +:+ end_date +:+ Py.nl in
  match truthy_str where_ with
  | Some w => query +:+ "  AND " +:+ w +:+ Py.nl
  | None =>
    let conditions : list string := [] in
    let conditions :=
      if negb (String.eqb project EmptyString) then
        conditions ++ ["file.project = " +:+ Py.dquote +:+ project +:+ Py.dquote +:+ Py.nl]
      else conditions in
    let conditions :=
      if pip then
        conditions ++ ["details.installer.name = " +:+ Py.dquote +:+ "pip" +:+ Py.dquote +:+ Py.nl]
      else conditions in
    match conditions with
    | [] => query
    | _ => query +:+ "  AND " +:+ Py.join "  AND " conditions
    end
  end.

(** The names collected by the loop over [fields[:-1]]. *)
Definition non_aggregate_fields (fields : list Field) : list string :=
  foldl (fun acc field =>
           if decide (field ∉ AGGREGATES) then acc ++ [name field] else acc)
        [] (removelast fields).

Definition group_by_clause (fields : list Field) : string :=
  if Z.of_nat (length fields) >? 1 then
    let gb := "GROUP BY" +:+ Py.nl in
    let initial_length := Py.len gb in
    let gb := gb +:+ "  " in
    let gb := gb +:+ Py.join ", " (non_aggregate_fields fields) in
    let gb := gb +:+ Py.nl in
    if Py.len gb >? initial_length then gb else EmptyString
  else EmptyString.

(** The first part of the body of [build_query], on the dates of the
    request: defaults, the day count, normalisation, validation, the
    range check and the conversion to SQL. *)
Definition query_dates (start_date end_date : option string) (days : option Z)
  : result (string * string) :=
  let start_date := or_str start_date START_DATE in
  let end_date := or_str end_date END_DATE in
  start_date ← match truthy_int days with
               | Some days => e ← Py.int end_date; Ok (Py.str (e - days))
               | None => Ok start_date
               end;
  '(start_date, end_date) ← normalize_dates start_date end_date;
  _ ← validate_date start_date;
  _ ← validate_date end_date;
  _ ← try_except (s ← Py.int start_date;
                  e ← Py.int end_date;
                  if s >=? e then Raise invalid_range else Ok ())
                 [ValueError_] (Ok ());
  start_date ← format_date start_date START_TIMESTAMP;
  end_date ← format_date end_date END_TIMESTAMP;
  Ok (start_date, end_date).

Definition build_query (project : string) (all_fields : list Field)
    (start_date end_date : option string) (days limit : option Z)
    (where_ order : option string) (pip : bool) : result string :=
  let project := canonicalize_name project in
  let limit := or_int limit DEFAULT_LIMIT in
  '(start_date, end_date) ← query_dates start_date end_date days;
  let fields := dedup_fields all_fields ++ [Downloads] in
  let query := select_clause fields in
  let query := query +:+ FROM in
  let query := query +:+ where_clause start_date end_date project where_ pip in
  let query := query +:+ group_by_clause fields in
  let query :=
    query +:+ "ORDER BY" +:+ Py.nl +:+ "  " +:+ or_str order (name Downloads)
    +:+ " DESC" +:+ Py.nl in
  let query := query +:+ "LIMIT " +:+ Py.str limit in
  Ok query.

End Query.

(** ** [core.py]: the result shaper *)

Definition add_percentages (rows : Rows) (include_sign : bool) : result Rows :=
  match rows with
  | [] => Raise IndexError
  | headers :: rows =>
      index ← Py.index headers "download_count";
      let headers := Py.insert index "percent" headers in
      counts ← mapM (fun row => cell ← Py.getitem row index; Py.int cell) rows;
      let total_downloads := foldl Z.add 0 counts in
      let percent_format :=
        if include_sign then Py.format_percent2 else Py.format_general2 in
      rows ← mapM (fun row =>
                     cell ← Py.getitem row index;
                     n ← Py.int cell;
                     share ← Py.truediv n total_downloads;
                     Ok (Py.insert index (percent_format share) row)) rows;
      Ok (headers :: rows)
  end.

(** [get_download_total] and [add_download_total] change the list
    [rows] they are passed.  A call is modelled by the list as the call
    leaves it, paired with what the call returns or raises. *)
Definition get_download_total (rows : Rows) : Rows * result (Z * nat) :=
  match rows with
  | [] => (rows, Raise IndexError)
  | headers :: rows =>
      match Py.index headers "download_count" with
      | Raise e => (rows, Raise e)
      | Ok index =>
          match mapM (fun row => cell ← Py.getitem row index; Py.int cell) rows with
          | Raise e => (rows, Raise e)
          | Ok counts =>
              let total_downloads := foldl Z.add 0 counts in
              let rows := headers :: rows in
              (rows, Ok (total_downloads, index))
          end
      end
  end.

Definition add_download_total (rows : Rows) : Rows * result Rows :=
  match Py.getitem rows 0 with
  | Raise e => (rows, Raise e)
  | Ok first =>
      let total_row := replicate (length first) EmptyString in
      match Py.setitem total_row 0 "Total" with
      | Raise e => (rows, Raise e)
      | Ok total_row =>
          match get_download_total rows with
          | (rows, Raise e) => (rows, Raise e)
          | (rows, Ok (total_downloads, downloads_column)) =>
              match Py.setitem total_row downloads_column (Py.str total_downloads) with
              | Raise e => (rows, Raise e)
              | Ok total_row =>
                  let rows := rows ++ [total_row] in
                  (rows, Ok rows)
              end
          end
      end
  end.

(** *** [tabulate]

    [right_align = [[False] * n] * m] builds one list of [n] flags and a
    list of [m] references to it.  The store [flag_lists] holds the flag
    lists by address, and [right_align] holds addresses. *)

Record tabulate_state := TabulateState {
  state_rows : Rows;
  column_widths : list Z;
  flag_lists : list (list bool);
}.

(** [rows[r][i] = x] *)
Definition set_cell (rows : Rows) (r i : nat) (x : string) : result Rows :=
  row ← Py.getitem rows r;
  row ← Py.setitem row i x;
  Py.setitem rows r row.

(** [right_align[r][i] = True] *)
Definition set_flag (right_align : list nat) (flag_lists : list (list bool))
    (r i : nat) : result (list (list bool)) :=
  address ← Py.getitem right_align r;
  flags ← Py.getitem flag_lists address;
  flags ← Py.setitem flags i true;
  Py.setitem flag_lists address flags.

(** [right_align[r][i]] *)
Definition get_flag (right_align : list nat) (flag_lists : list (list bool))
    (r i : nat) : result bool :=
  address ← Py.getitem right_align r;
  flags ← Py.getitem flag_lists address;
  Py.getitem flags i.

(** The body of the first loop nest, for the cell [item] at row [r] and
    column [i]. *)
Definition measure_cell (right_align : list nat) (r i : nat) (item : string)
    (st : tabulate_state) : result tabulate_state :=
  st ← (if Py.isdigit item then
          n ← Py.int item;
          rows ← set_cell (state_rows st) r i (Py.format_thousands n);
          flag_lists ← set_flag right_align (flag_lists st) r i;
          Ok (TabulateState rows (column_widths st) flag_lists)
        else if Py.endswith_char item "%" then
          flag_lists ← set_flag right_align (flag_lists st) r i;
          Ok (TabulateState (state_rows st) (column_widths st) flag_lists)
        else Ok st);
  let length := Py.len item in
  width ← Py.getitem (column_widths st) i;
  if length >? width then
    column_widths ← Py.setitem (column_widths st) i length;
    Ok (TabulateState (state_rows st) column_widths (flag_lists st))
  else Ok st.

(** The first loop nest.  A cell is rewritten only after it has been
    read, so the loops read the table as it was passed in. *)
Definition measure (rows : Rows) : result tabulate_state :=
  header ← Py.getitem rows 0;
  let column_widths := replicate (length header) 0 in
  let flag_lists := [replicate (length header) false] in
  let right_align := replicate (length rows) 0%nat in
  for_each (fun r row => for_each (measure_cell right_align r) 0 row) 0 rows
           (TabulateState rows column_widths flag_lists).

Definition render_header_cell (column_widths : list Z) (i : nat) (item : string)
    (tabulated : string) : result string :=
  width ← Py.getitem column_widths i;
  Ok (tabulated +:+ item +:+ Py.repeat " " (width - Py.len item + 1) +:+ "| ").

Definition render_separator (column_widths : list Z) (right_align : list nat)
    (flag_lists : list (list bool)) (markdown : bool) (_ i : nat)
    (tabulated : string) : result string :=
  width ← Py.getitem column_widths i;
  let tabulated := tabulated +:+ Py.repeat "-" (width - 1) in
  flag ← get_flag right_align flag_lists 0 i;
  if flag && markdown then Ok (tabulated +:+ ": | ")
  else Ok (tabulated +:+ "- | ").

Definition render_cell (column_widths : list Z) (right_align : list nat)
    (flag_lists : list (list bool)) (r i : nat) (item : string)
    (tabulated : string) : result string :=
  width ← Py.getitem column_widths i;
  let num_spaces := width - Py.len item in
  let tabulated := tabulated +:+ "| " in
  flag ← get_flag right_align flag_lists r i;
  if (flag : bool) then Ok (tabulated +:+ Py.repeat " " num_spaces +:+ item +:+ " ")
  else Ok (tabulated +:+ item +:+ Py.repeat " " (num_spaces + 1)).

Definition tabulate (rows : Rows) (markdown : bool) : result string :=
  let right_align := replicate (length rows) 0%nat in
  st ← measure rows;
  let column_widths := column_widths st in
  let flag_lists := flag_lists st in
  let tabulated := "| " in
  match state_rows st with
  | [] => Raise IndexError
  | headers :: rows =>
      tabulated ← for_each (render_header_cell column_widths) 0 headers tabulated;
      let tabulated := Py.rstrip tabulated in
      let tabulated := tabulated +:+ Py.nl +:+ "| " in
      first ← Py.getitem rows 0;
      tabulated ← for_each (render_separator column_widths right_align flag_lists markdown)
                           0 (seq 0 (length first)) tabulated;
      let tabulated := Py.rstrip tabulated in
      let tabulated := tabulated +:+ Py.nl in
      for_each (fun r row tabulated =>
                  tabulated ← for_each (render_cell column_widths right_align flag_lists r)
                                       0 row tabulated;
                  Ok (tabulated +:+ "|" +:+ Py.nl))
               0 rows tabulated
  end.

(** ** [core.py]: [format_json] *)

(** A cell as [format_json] passes it on: the text it was, or the number
    a digit-only text stands for. *)
Inductive value :=
| Text (s : string)
| Number (n : Z).

(** The dictionary [j]: the time of the call, the rows, and the
    dictionary [query_info] as it was passed.  A row is a dictionary from
    header to cell; the order of its keys plays no part, since the text is
    written with [sort_keys=True]. *)
Record document (QueryInfo : Type) := Document {
  last_update : string;
  document_rows : list (gmap string value);
  query : QueryInfo;
}.
Arguments Document {QueryInfo} _ _ _.
Arguments last_update {QueryInfo} _.
Arguments document_rows {QueryInfo} _.
Arguments query {QueryInfo} _.

Section Json.

(** What the standard library provides: the clock as
    [datetime.utcnow().strftime('%Y-%m-%d %H:%M:%S')] reads it at the
    call, and [json.dumps] with its arguments [indent], [separators] and
    [sort_keys]. *)
Context {QueryInfo : Type}.
Context (utcnow : string).
Context (dumps : document QueryInfo → option Z → option (string * string) → bool → string).

(** The body of the loop over [range(len(headers))] for the row [d]; the
    cell is read, and rewritten in the row when it is digit-only, before
    it is stored under its header. *)
Definition json_cell (headers d : list string) (_ i : nat) (item : gmap string value)
  : result (gmap string value) :=
  cell ← Py.getitem d i;
  cell ← (if Py.isdigit cell then n ← Py.int cell; Ok (Number n) else Ok (Text cell));
  header ← Py.getitem headers i;
  Ok (<[header := cell]> item).

Definition json_item (headers d : list string) : result (gmap string value) :=
  for_each (json_cell headers d) 0 (seq 0 (length headers)) ∅.

Definition format_json (rows : Rows) (query_info : QueryInfo) (indent : option Z)
  : result string :=
  match rows with
  | [] => Raise (ValueError "not enough values to unpack (expected at least 1, got 0)")
  | headers :: data =>
      items ← mapM (json_item headers) data;
      let now := utcnow in
      let j := Document now items query_info in
      let separators :=
        match indent with
        | None => Some (",", ":")%string
        | Some _ => None
        end in
      Ok (dumps j indent separators true)
  end.

End Json.

(** ** A catalogue and a name canonicaliser to run the builder on *)

Module Sample.

(** Fields as (name, data) pairs. *)
Definition Field : Type := string * string.
Definition name (f : Field) : string := f.1.
Definition data (f : Field) : string := f.2.

Definition Downloads : Field := ("download_count", "COUNT(*)").
Definition Project : Field := ("project", "file.project").
Definition Version : Field := ("version", "file.version").
Definition Share : Field := ("share", "ROUND(100 * COUNT(*) / SUM(COUNT(*)) OVER (), 1)").

Definition AGGREGATES : gset Field := {[ Share ]}.

Definition separator (c : ascii) : bool :=
  Ascii.eqb c "-" || Ascii.eqb c "_" || Ascii.eqb c ".".

Definition lower (c : ascii) : ascii :=
  let n := Py.ord c in
  if ((65 <=? n) && (n <=? 90)) || ((192 <=? n) && (n <=? 222) && negb (n =? 215))
  then ascii_of_nat (nat_of_ascii c + 32) else c.

(** [re.sub(r"[-_.]+", "-", name).lower()] *)
Fixpoint canonicalize (in_run : bool) (s : string) : string :=
  match s with
  | EmptyString => EmptyString
  | String c s' =>
      if separator c then
        if in_run then canonicalize true s' else String "-" (canonicalize true s')
      else String (lower c) (canonicalize false s')
  end.

Definition canonicalize_name (s : string) : string := canonicalize false s.

Definition build_query := build_query name data Downloads AGGREGATES canonicalize_name.

Definition lines (l : list string) : string := Py.join Py.nl l.

End Sample.

(** ** Notions used to state the properties *)

(** The value of a digit sequence read after the prefix value [acc]. *)
Fixpoint uint_value (acc : Z) (d : Decimal.uint) : Z :=
  match d with
  | Decimal.Nil => acc
  | Decimal.D0 l => uint_value (10 * acc + 0) l
  | Decimal.D1 l => uint_value (10 * acc + 1) l
  | Decimal.D2 l => uint_value (10 * acc + 2) l
  | Decimal.D3 l => uint_value (10 * acc + 3) l
  | Decimal.D4 l => uint_value (10 * acc + 4) l
  | Decimal.D5 l => uint_value (10 * acc + 5) l
  | Decimal.D6 l => uint_value (10 * acc + 6) l
  | Decimal.D7 l => uint_value (10 * acc + 7) l
  | Decimal.D8 l => uint_value (10 * acc + 8) l
  | Decimal.D9 l => uint_value (10 * acc + 9) l
  end.

Definition leap_year (y : Z) : bool :=
  if y mod 400 =? 0 then true
  else if y mod 100 =? 0 then false
  else y mod 4 =? 0.

Definition month_length (y m : Z) : Z :=
  match m with
  | 1 | 3 | 5 | 7 | 8 | 10 | 12 => 31
  | 4 | 6 | 9 | 11 => 30
  | 2 => if leap_year y then 29 else 28
  | _ => 0
  end.

(** The text [%04d-%02d] of a year and a month. *)
Definition yyyy_mm (y m : Z) : string := Py.zero_pad 4 y +:+ "-" +:+ Py.zero_pad 2 m.

(** A text of the form YYYY-MM that names a month of the calendar: four
    decimal digits, a hyphen, two decimal digits, the year from 0001 and
    the month from 01 to 12.  The result is the year and the month. *)
Definition valid_yyyy_mm (s : string) : option (Z * Z) :=
  match s with
  | String y1 (String y2 (String y3 (String y4
      (String h (String m1 (String m2 EmptyString)))))) =>
      let y := 1000 * Calendar.digit y1 + 100 * Calendar.digit y2
               + 10 * Calendar.digit y3 + Calendar.digit y4 in
      let m := 10 * Calendar.digit m1 + Calendar.digit m2 in
      if Py.isdecimal_char y1 && Py.isdecimal_char y2 && Py.isdecimal_char y3
         && Py.isdecimal_char y4 && Ascii.eqb h "-"
         && Py.isdecimal_char m1 && Py.isdecimal_char m2
         && (1 <=? y) && (1 <=? m) && (m <=? 12)
      then Some (y, m) else None
  | _ => None
  end.

(** The character of a digit, and the checks that [%04d] and [%02d]
    print a number digit by digit. *)
Definition digit_char (d : Z) : ascii := ascii_of_nat (Z.to_nat (48 + d)).

Definition digits10 : list Z := [0; 1; 2; 3; 4; 5; 6; 7; 8; 9].

Definition year_text_ok (d1 d2 d3 d4 : Z) : bool :=
  String.eqb (Py.zero_pad 4 (1000 * d1 + 100 * d2 + 10 * d3 + d4))
    (String (digit_char d1) (String (digit_char d2)
       (String (digit_char d3) (String (digit_char d4) EmptyString)))).

Definition month_text_ok (d1 d2 : Z) : bool :=
  String.eqb (Py.zero_pad 2 (10 * d1 + d2))
    (String (digit_char d1) (String (digit_char d2) EmptyString)).

Section Spec.
Context {Field : Type} `{Countable Field}.
Context (name data : Field → string).

(** The requested fields, each kept at its first occurrence only. *)
Fixpoint first_occurrences (l : list Field) : list Field :=
  match l with
  | [] => []
  | f :: l' => f :: filter (fun g => g ≠ f) (first_occurrences l')
  end.

(** How often a field is listed. *)
Definition occurrences (f : Field) (l : list Field) : nat :=
  length (filter (fun g => g = f) l).

Definition select_line (field : Field) : string :=
  "  " +:+ data field +:+ " as " +:+ name field +:+ "," +:+ Py.nl.

(** The SELECT clause that lists [fields] in order. *)
Definition select_lines (fields : list Field) : string :=
  "SELECT" +:+ Py.nl +:+ foldr (fun field rest => select_line field +:+ rest) EmptyString fields.
End Spec.

(** A cell that asks for right alignment. *)
Definition right_cell (item : string) : bool :=
  Py.isdigit item || Py.endswith_char item "%".

(** Column [i] holds, in some row, a cell that asks for right alignment. *)
Definition column_flag (rows : Rows) (i : nat) : bool :=
  existsb (fun row => from_option right_cell false (row !! i)) rows.

(** The text shown for a cell. *)
Definition display (item : string) : string :=
  if Py.isdigit item then
    match Py.int_literal item with
    | Some n => Py.format_thousands n
    | None => item
    end
  else item.

(** The longest cell of column [i], measured on the text [measure] of each cell. *)
Definition column_max (measure : string → Z) (rows : Rows) (i : nat) : Z :=
  foldr (fun row width => Z.max (from_option measure 0 (row !! i)) width) 0 rows.

Definition concat_text (l : list string) : string := foldr String.append EmptyString l.

Definition header_cell_text (width : Z) (item : string) : string :=
  item +:+ Py.repeat " " (width - Py.len item + 1) +:+ "| ".

Definition separator_cell_text (width : Z) (right markdown : bool) : string :=
  Py.repeat "-" (width - 1) +:+ (if right && markdown then ": | " else "- | ").

(** A data cell: padded on the left when [right], on the right otherwise. *)
Definition data_cell_text (width : Z) (right : bool) (item : string) : string :=
  "| " +:+ (if right then Py.repeat " " (width - Py.len item) +:+ item +:+ " "
            else item +:+ Py.repeat " " (width - Py.len item + 1)).

(** The rendering of the table [rows], whose displayed cells are
    [headers :: data]: the alignment of a data cell is that of its column. *)
Definition tabulate_text (rows : Rows) (markdown : bool) (headers : list string)
    (data : Rows) : string :=
  let width i := column_max Py.len rows i in
  let right i := column_flag rows i in
  let line1 :=
    Py.rstrip ("| " +:+ concat_text (imap (fun i => header_cell_text (width i)) headers)) in
  let line2 :=
    Py.rstrip (line1 +:+ Py.nl +:+ "| " +:+
               concat_text ((fun i => separator_cell_text (width i) (right i) markdown)
                            <$> seq 0 (length (default [] (head data))))) in
  line2 +:+ Py.nl +:+
  concat_text ((fun row =>
                  concat_text (imap (fun i => data_cell_text (width i) (right i)) row)
                  +:+ "|" +:+ Py.nl) <$> data).

(** The text of a share, as [add_percentages] formats it. *)
Definition share_text (include_sign : bool) (share : Py.float) : string :=
  if include_sign then Py.format_percent2 share else Py.format_general2 share.

(** A cell that [tabulate] can rewrite: if it is digit-only, [int]
    reads it. *)
Definition readable_cell (item : string) : Prop :=
  Py.isdigit item = true → is_Some (Py.int_literal item).

(** Tables [tabulate] renders: a header, at least one data row, no row
    longer than the header, every cell readable. *)
Definition renderable (rows : Rows) : Prop :=
  ∃ header first data,
    rows = header :: first :: data
    ∧ Forall (fun row => (length row ≤ length header)%nat) rows
    ∧ Forall (Forall readable_cell) rows.

(** The filter of a query on the project [project]. *)
Definition project_filter (project : string) : string :=
  "  AND file.project = " +:+ Py.dquote +:+ project +:+ Py.dquote.

(** The range clause of a query between two relative offsets. *)
Definition relative_range (start_days end_days : string) : string :=
  "WHERE timestamp BETWEEN TIMESTAMP_ADD(CURRENT_TIMESTAMP(), INTERVAL " +:+ start_days
  +:+ " DAY) AND TIMESTAMP_ADD(CURRENT_TIMESTAMP(), INTERVAL " +:+ end_days +:+ " DAY)".

(** The text [%04d-%02d-%02d] of a year, a month and a day. *)
Definition date_text (y m d : Z) : string :=
  Py.zero_pad 4 y +:+ "-" +:+ Py.zero_pad 2 m +:+ "-" +:+ Py.zero_pad 2 d.

(** A day of the calendar, from the year 1. *)
Definition real_day (y m d : Z) : bool :=
  (1 <=? y) && (1 <=? m) && (m <=? 12) && (1 <=? d) && (d <=? month_length y m).

(** The text [%02d-%02d] of a month and a day from their digits, and the
    check that [strptime] reads it as it should. *)
Definition month_day_text (m1 m2 d1 d2 : Z) : string :=
  String (digit_char m1) (String (digit_char m2)
    (String "-" (String (digit_char d1) (String (digit_char d2) EmptyString)))).

Definition month_day_text_ok (m1 m2 d1 d2 : Z) : bool :=
  let m := 10 * m1 + m2 in
  let d := 10 * d1 + d2 in
  let plausible := (1 <=? m) && (m <=? 12) && (1 <=? d) && (d <=? 31) in
  match Calendar.match_month_day (month_day_text m1 m2 d1 d2) with
  | Some (m', d', EmptyString) => plausible && (m' =? m) && (d' =? d)
  | _ => negb plausible
  end.

(** The range clause of a query between two calendar days. *)
Definition absolute_range (first last : string) : string :=
  "WHERE timestamp BETWEEN TIMESTAMP(" +:+ Py.dquote +:+ first +:+ " 00:00:00" +:+ Py.dquote
  +:+ ") AND TIMESTAMP(" +:+ Py.dquote +:+ last +:+ " 23:59:59" +:+ Py.dquote +:+ ")".

(** The row [add_download_total] appends. *)
Definition total_row (width index : nat) (total : Z) : list string :=
  <[index := Py.str total]> (<[0%nat := "Total"%string]> (replicate width EmptyString)).

(** The sum of a list of numbers. *)
Definition sum_list (l : list Z) : Z := foldr Z.add 0 l.

(** The width of a line of a table with [n] columns: a bar, and for each
    column its width, two blanks and a bar. *)
Definition line_width (rows : Rows) (n : nat) : Z :=
  1 + sum_list ((fun i => column_max Py.len rows i + 3) <$> seq 0 n).

(** The lines of a text, each ended by a line break. *)
Definition unlines (lines : list string) : string :=
  concat_text ((fun line => line +:+ Py.nl) <$> lines).

(** What [format_json] stores for a cell. *)
Definition cell_value (cell : string) : value :=
  if Py.isdigit cell then
    match Py.int_literal cell with
    | Some n => Number n
    | None => Text cell
    end
  else Text cell.

(** The dictionary of a row: every header with the cell under it, a later
    column replacing an earlier one of the same name. *)
Definition row_item (headers d : list string) : gmap string value :=
  foldl (fun item p => <[p.1 := cell_value p.2]> item) ∅ (zip headers d).

(** Rows [format_json] can read: as long as the header at least, every
    cell under a header readable. *)
Definition json_row (headers d : list string) : Prop :=
  (length headers ≤ length d)%nat ∧ Forall readable_cell (take (length headers) d).

(** A clock and a stand-in for [json.dumps] to run [format_json] on: the
    stand-in writes the time of the document and the number of its rows. *)
Definition sample_utcnow : string := "2020-01-01 00:00:00".

Definition sample_dumps (j : document unit) (indent : option Z)
    (separators : option (string * string)) (sort_keys : bool) : string :=
  last_update j +:+ " " +:+ Py.str (Z.of_nat (length (document_rows j))).

(** *** Invariants of the first loop nest of [tabulate] *)

(** The state of the loops after the rows [done] and the first cells
    [pre] of the next row, in a table [rows] with [n] columns. *)
Record measured (n : nat) (rows done : Rows) (pre : list string)
    (st : tabulate_state) : Prop := Measured {
  measured_rows :
    ∃ post later, rows = done ++ (pre ++ post) :: later
    ∧ state_rows st = (map display <$> done) ++ ((display <$> pre) ++ post) :: later;
  measured_widths_length : length (column_widths st) = n;
  measured_widths j :
    (j < n)%nat → column_widths st !! j = Some (column_max Py.len (done ++ [pre]) j);
  measured_flags :
    ∃ flags, flag_lists st = [flags] ∧ length flags = n
    ∧ ∀ j, (j < n)%nat → flags !! j = Some (column_flag (done ++ [pre]) j);
}.

Record measured_rows_done (n : nat) (rows done : Rows) (st : tabulate_state)
    : Prop := MeasuredRows {
  done_rows :
    ∃ later, rows = done ++ later ∧ state_rows st = (map display <$> done) ++ later;
  done_widths_length : length (column_widths st) = n;
  done_widths j :
    (j < n)%nat → column_widths st !! j = Some (column_max Py.len done j);
  done_flags :
    ∃ flags, flag_lists st = [flags] ∧ length flags = n
    ∧ ∀ j, (j < n)%nat → flags !! j = Some (column_flag done j);
}.

(** * Properties *)

Local Arguments String.append : simpl nomatch.

(** ** Results and loops *)

Lemma bind_Raise {A B} (m : result A) (k : A → result B) e :
  m ≫= k = Raise e → m = Raise e ∨ ∃ a, m = Ok a ∧ k a = Raise e.
Proof. destruct m as [a|e']; simpl; [eauto|]. intros [= ->]. by left. Qed.

Lemma bind_Ok {A B} (m : result A) (k : A → result B) b :
  m ≫= k = Ok b → ∃ a, m = Ok a ∧ k a = Ok b.
Proof. destruct m as [a|e']; simpl; [eauto|done]. Qed.

Lemma try_except_ValueError_handled {A} (body : result A) classes a e :
  ValueError_ ∈ classes →
  try_except body classes (Ok a) = Raise e → ∀ msg, e ≠ ValueError msg.
Proof.
  intros Hin. unfold try_except. destruct body as [x|e']; [done|].
  destruct (existsb (instance_of e') classes) eqn:Hex; [done|].
  intros [= ->] msg ->.
  apply not_true_iff_false in Hex. apply Hex, existsb_exists.
  exists ValueError_. split; [by apply list_elem_of_In|done].
Qed.

Lemma mapM_cons {A B} (f : A → result B) x l :
  mapM f (x :: l) = y ← f x; k ← mapM f l; Ok (y :: k).
Proof. reflexivity. Qed.

Lemma for_each_invariant {A St} (body : nat → A → St → result St)
    (I : list A → St → Prop) l st st' :
  (∀ pre x post st st',
     l = pre ++ x :: post → I pre st → body (length pre) x st = Ok st' →
     I (pre ++ [x]) st') →
  I [] st → for_each body 0 l st = Ok st' → I l st'.
Proof.
  intros Hstep.
  assert (Hgen : ∀ post pre st,
    l = pre ++ post → I pre st → for_each body (length pre) post st = Ok st' → I l st').
  { induction post as [|x post IH]; intros pre st1 Hl Hpre Hrun; simpl in Hrun.
    - rewrite app_nil_r in Hl. by simplify_eq.
    - apply bind_Ok in Hrun as (st2 & Hbody & Hrun).
      apply (IH (pre ++ [x]) st2).
      + by rewrite <- app_assoc.
      + by eapply Hstep.
      + by rewrite length_app, Nat.add_1_r. }
  intros Hinit Hrun. by apply (Hgen l [] st).
Qed.

Lemma for_each_total {A St} (body : nat → A → St → result St)
    (I : list A → St → Prop) l st :
  (∀ pre x post st,
     l = pre ++ x :: post → I pre st →
     ∃ st', body (length pre) x st = Ok st' ∧ I (pre ++ [x]) st') →
  I [] st → ∃ st', for_each body 0 l st = Ok st' ∧ I l st'.
Proof.
  intros Hstep.
  assert (Hgen : ∀ post pre st,
    l = pre ++ post → I pre st →
    ∃ st', for_each body (length pre) post st = Ok st' ∧ I l st').
  { induction post as [|x post IH]; intros pre st1 Hl Hpre; simpl.
    - rewrite app_nil_r in Hl. subst. eauto.
    - destruct (Hstep pre x post st1 Hl Hpre) as (st2 & -> & Hst2). simpl.
      destruct (IH (pre ++ [x]) st2) as (st' & Hrun & Hst'); [by rewrite <- app_assoc|done|].
      exists st'. split; [|done]. by rewrite length_app, Nat.add_1_r in Hrun. }
  intros Hinit. by apply (Hgen l [] st).
Qed.

Lemma for_each_cells_total {A} (body : nat → A → string → result string) l t :
  (∀ i x t, l !! i = Some x → ∃ t', body i x t = Ok t') →
  ∃ t', for_each body 0 l t = Ok t'.
Proof.
  intros Hbody.
  destruct (for_each_total body (fun _ _ => True) l t) as (t' & Ht' & _); [|done|by eauto].
  intros pre x post s Hl _.
  destruct (Hbody (length pre) x s) as (s' & Hs'); [|by eauto].
  by rewrite Hl, list_lookup_middle.
Qed.

(** ** Strings and lists *)

Lemma app_assoc_string (a b c : string) : (a +:+ b) +:+ c = a +:+ b +:+ c.
Proof. induction a; simpl; [done|]. by rewrite IHa. Qed.

Lemma app_nil_r_string (s : string) : s +:+ EmptyString = s.
Proof. induction s; simpl; [done|]. by f_equal. Qed.

Lemma string_app_nonempty a b : b ≠ EmptyString → a +:+ b ≠ EmptyString.
Proof. by destruct a, b. Qed.

Lemma len_app a b : Py.len (a +:+ b) = Py.len a + Py.len b.
Proof.
  unfold Py.len. induction a as [|c a IH]; simpl String.length; [lia|].
  rewrite !Nat2Z.inj_succ. lia.
Qed.

Lemma len_nonneg a : 0 ≤ Py.len a.
Proof. unfold Py.len. lia. Qed.

Lemma all_chars_app p a b :
  Py.all_chars p (a +:+ b) = Py.all_chars p a && Py.all_chars p b.
Proof. induction a; simpl; [done|]. by rewrite IHa, andb_assoc. Qed.

Lemma all_chars_impl (p q : ascii → bool) s :
  (∀ c, p c = true → q c = true) → Py.all_chars p s = true → Py.all_chars q s = true.
Proof.
  intros Hpq. induction s as [|c s IH]; [done|]. simpl.
  intros [Hc Hs]%andb_true_iff. by rewrite Hpq, IH.
Qed.

Lemma split_no_sep sep s :
  Py.all_chars (fun c => negb (Ascii.eqb c sep)) s = true → Py.split sep s = [s].
Proof.
  induction s as [|c s IH]; [done|]. simpl. intros [Hc Hs]%andb_true_iff.
  apply negb_true_iff in Hc. by rewrite Hc, IH.
Qed.

Lemma split_app sep a b :
  Py.all_chars (fun c => negb (Ascii.eqb c sep)) a = true →
  Py.split sep (a +:+ String sep b) = a :: Py.split sep b.
Proof.
  induction a as [|c a IH]; simpl.
  - by rewrite Ascii.eqb_refl.
  - intros [Hc Ha]%andb_true_iff. apply negb_true_iff in Hc. by rewrite Hc, IH.
Qed.

Lemma concat_text_app l k : concat_text (l ++ k) = concat_text l +:+ concat_text k.
Proof.
  unfold concat_text. induction l as [|x l IH]; simpl; [done|].
  by rewrite IH, app_assoc_string.
Qed.

Lemma getitem_Ok {A} (l : list A) i x : Py.getitem l i = Ok x ↔ l !! i = Some x.
Proof. unfold Py.getitem. destruct (l !! i); split; congruence. Qed.

Lemma setitem_Ok {A} (l : list A) i x l' :
  Py.setitem l i x = Ok l' ↔ (i < length l)%nat ∧ l' = <[i := x]> l.
Proof.
  unfold Py.setitem. case_decide; split; try done.
  - by intros [= <-].
  - by intros [_ ->].
  - by intros [? _].
Qed.

Lemma insert_middle {A} (l1 l2 : list A) x y i :
  i = length l1 → <[i := y]> (l1 ++ x :: l2) = l1 ++ y :: l2.
Proof. intros ->. rewrite insert_app_r_alt by done. by rewrite Nat.sub_diag. Qed.

Lemma lookup_snoc_cell {A} (pre : list A) x j :
  (pre ++ [x]) !! j = if decide (j = length pre) then Some x else pre !! j.
Proof.
  case_decide as Hj.
  - subst. by rewrite list_lookup_middle.
  - destruct (decide (j < length pre)%nat).
    + by rewrite lookup_app_l.
    + rewrite !lookup_ge_None_2; [done|lia|rewrite length_app; simpl; lia].
Qed.

Lemma imap_ignore_index {A B} (g : A → B) l : imap (fun _ x => g x) l = g <$> l.
Proof. exact (imap_const g l). Qed.

Lemma index_Ok l x i :
  Py.index l x = Ok i → l !! i = Some x ∧ ∀ j y, l !! j = Some y → (j < i)%nat → y ≠ x.
Proof.
  unfold Py.index. destruct (list_find (fun y => y = x) l) as [[i' y]|] eqn:Hfind; [|done].
  intros [= ->]. apply list_find_Some in Hfind as (Hi & -> & Hbefore). split; [done|].
  intros j y Hj Hlt. by eapply Hbefore.
Qed.

Lemma insert_lookup (l : list string) i x :
  (i ≤ length l)%nat →
  Py.insert i x l !! i = Some x
  ∧ Py.insert i x l !! S i = l !! i
  ∧ ∀ j, (j < i)%nat → Py.insert i x l !! j = l !! j.
Proof.
  intros Hi. unfold Py.insert.
  assert (Hlen : length (take i l) = i) by (rewrite length_take; lia).
  repeat split.
  - by rewrite list_lookup_middle.
  - rewrite lookup_app_r by lia. rewrite Hlen, Nat.sub_succ_l, Nat.sub_diag by lia.
    simpl. rewrite lookup_drop. f_equal. lia.
  - intros j Hj. rewrite lookup_app_l by lia. by rewrite lookup_take_lt.
Qed.

(** ** [int] and [str] *)

Lemma int_cases s :
  (∃ n, Py.int s = Ok n) ∨ Py.int s = Raise Py.invalid_literal.
Proof. unfold Py.int. destruct (Py.int_literal s); eauto. Qed.

Lemma int_digits_uint d acc :
  Py.int_digits acc (NilEmpty.string_of_uint d) = Some (uint_value acc d).
Proof.
  revert acc. induction d; intros acc; simpl; auto.
Qed.

Lemma uint_value_pos d acc :
  uint_value (Z.pos acc) d = Z.pos (Pos.of_uint_acc d acc).
Proof.
  revert acc. induction d; intros acc; simpl; auto;
    rewrite <- IHd; f_equal; lia.
Qed.

Lemma uint_value_0 d : uint_value 0 d = Z.of_N (Pos.of_uint d).
Proof.
  induction d; simpl; auto; apply (uint_value_pos d).
Qed.

Lemma int_unsigned_uint d :
  d ≠ Decimal.Nil →
  Py.int_unsigned (NilEmpty.string_of_uint d) = Some (uint_value 0 d).
Proof.
  destruct d; intros Hd; try done; simpl; apply int_digits_uint.
Qed.

Lemma int_literal_uint d :
  d ≠ Decimal.Nil →
  Py.int_literal (NilEmpty.string_of_uint d) = Some (uint_value 0 d).
Proof.
  destruct d; intros Hd; try done; unfold Py.int_literal; simpl;
    apply int_digits_uint.
Qed.

Lemma uint_value_to_uint p : uint_value 0 (Pos.to_uint p) = Z.pos p.
Proof.
  rewrite uint_value_0, DecimalPos.Unsigned.of_to. reflexivity.
Qed.

(** [int(str(n)) == n] *)
Lemma int_str n : Py.int (Py.str n) = Ok n.
Proof.
  unfold Py.int, Py.str. destruct n as [|p|p]; simpl.
  - reflexivity.
  - rewrite int_literal_uint by apply DecimalPos.Unsigned.to_uint_nonnil.
    by rewrite uint_value_to_uint.
  - unfold Py.int_literal. simpl.
    rewrite int_unsigned_uint by apply DecimalPos.Unsigned.to_uint_nonnil.
    by rewrite uint_value_to_uint.
Qed.

Lemma decimal_char_facts c :
  Py.isdecimal_char c = true →
  Py.int_space c = false ∧ Ascii.eqb c "-" = false ∧ Ascii.eqb c "+" = false
  ∧ Py.decimal_value c = Some (Calendar.digit c).
Proof.
  destruct c as [[] [] [] [] [] [] [] []]; vm_compute; intros; try done;
    by repeat split.
Qed.

Lemma zero_char_facts : Py.decimal_value "0" = Some 0.
Proof. reflexivity. Qed.

(** A literal made of decimal digits only. *)
Lemma int_literal_digits s :
  s ≠ EmptyString → Py.all_chars Py.isdecimal_char s = true →
  Py.int_literal s = Py.int_digits 0 s.
Proof.
  destruct s as [|c s]; [done|]. intros _ [Hc Hs]%andb_true_iff.
  destruct (decimal_char_facts c Hc) as (Hsp & Hm & Hp & Hv).
  unfold Py.int_literal. cbn [Py.lstrip_int]. rewrite Hsp.
  assert (Hgo : Py.int_unsigned (String c s) = Py.int_digits 0 (String c s)).
  { cbn. rewrite Hv. done. }
  rewrite <- Hgo. clear Hgo.
  destruct c as [[] [] [] [] [] [] [] []]; try done.
Qed.

Lemma all_chars_zeros k : Py.all_chars Py.isdecimal_char (Py.repeat_nat "0" k) = true.
Proof. induction k; simpl; [done|]. exact IHk. Qed.

Lemma all_chars_uint d :
  Py.all_chars Py.isdecimal_char (NilEmpty.string_of_uint d) = true.
Proof. induction d; simpl; try done; exact IHd. Qed.

Lemma string_of_uint_nonempty d : d ≠ Decimal.Nil → NilEmpty.string_of_uint d ≠ EmptyString.
Proof. by destruct d. Qed.

Lemma str_nonneg n :
  0 ≤ n → ∃ d, Py.str n = NilEmpty.string_of_uint d ∧ d ≠ Decimal.Nil ∧ uint_value 0 d = n.
Proof.
  intros Hn. destruct n as [|p|p]; [| |lia].
  - by exists (Decimal.D0 Decimal.Nil).
  - exists (Pos.to_uint p). split; [done|].
    split; [apply DecimalPos.Unsigned.to_uint_nonnil|apply uint_value_to_uint].
Qed.

Lemma all_chars_zero_pad w n :
  0 ≤ n → Py.all_chars Py.isdecimal_char (Py.zero_pad w n) = true.
Proof.
  intros (d & Hd & _)%str_nonneg. unfold Py.zero_pad.
  by rewrite all_chars_app, all_chars_zeros, Hd, all_chars_uint.
Qed.

Lemma int_digits_zeros k acc t :
  Py.int_digits acc (Py.repeat_nat "0" k +:+ t) = Py.int_digits (10 ^ Z.of_nat k * acc) t.
Proof.
  revert acc. induction k as [|k IH]; intros acc.
  - simpl (Py.repeat_nat _ _ +:+ _). by rewrite Z.pow_0_r, Z.mul_1_l.
  - cbn [Py.repeat_nat String.app Py.int_digits]. rewrite zero_char_facts, IH.
    f_equal. rewrite Nat2Z.inj_succ, Z.pow_succ_r by lia. lia.
Qed.

(** [int("%0wd" % n) == n] *)
Lemma int_zero_pad w n : 0 ≤ n → Py.int (Py.zero_pad w n) = Ok n.
Proof.
  intros Hn. unfold Py.int.
  rewrite int_literal_digits; [|unfold Py.zero_pad|by apply all_chars_zero_pad].
  - unfold Py.zero_pad. rewrite int_digits_zeros, Z.mul_0_r.
    destruct (str_nonneg n Hn) as (d & -> & _ & <-). by rewrite int_digits_uint.
  - destruct (str_nonneg n Hn) as (d & -> & Hd & _).
    by apply string_app_nonempty, string_of_uint_nonempty.
Qed.

Lemma no_hyphen_zero_pad w n :
  0 ≤ n → Py.all_chars (fun c => negb (Ascii.eqb c "-")) (Py.zero_pad w n) = true.
Proof.
  intros Hn. eapply all_chars_impl, all_chars_zero_pad, Hn.
  intros c Hc. by destruct (decimal_char_facts c Hc) as (_ & -> & _).
Qed.

(** ** The calendar *)

Lemma ord_bounds c : 0 ≤ Py.ord c ≤ 255.
Proof.
  unfold Py.ord. pose proof (nat_ascii_bounded c). lia.
Qed.

Lemma digit_bounds c : -48 ≤ Calendar.digit c ≤ 207.
Proof. unfold Calendar.digit. pose proof (ord_bounds c). lia. Qed.

Lemma match_month_bounds s m r :
  (m, r) ∈ Calendar.match_month s → -48 ≤ m ≤ 217.
Proof.
  unfold Calendar.match_month.
  destruct s as [|a [|b s]]; [by intros ?%elem_of_nil| |];
    repeat case_match; intros Hin; set_unfold; destruct_or?; simplify_eq; try done;
    pose proof (digit_bounds a); try pose proof (digit_bounds b); lia.
Qed.

Lemma match_day_bounds s d r :
  (d, r) ∈ Calendar.match_day s → -528 ≤ d ≤ 2277.
Proof.
  unfold Calendar.match_day.
  destruct s as [|a [|b s]]; [by intros ?%elem_of_nil| |];
    repeat case_match; intros Hin; set_unfold; destruct_or?; simplify_eq; try done;
    pose proof (digit_bounds a); try pose proof (digit_bounds b); lia.
Qed.

Lemma match_month_day_bounds s m d r :
  Calendar.match_month_day s = Some (m, d, r) →
  (-48 ≤ m ≤ 217) ∧ (-528 ≤ d ≤ 2277).
Proof.
  unfold Calendar.match_month_day. intros Hh%head_Some_elem_of.
  apply list_elem_of_omap in Hh as ([m' s1] & Hm & Hd).
  destruct s1 as [|c s2]; [done|]. destruct (Ascii.eqb c "-"); [|done].
  destruct (head (Calendar.match_day s2)) as [[d' s3]|] eqn:Hday; simplify_eq/=.
  split; [by eapply match_month_bounds|].
  eapply match_day_bounds, head_Some_elem_of, Hday.
Qed.

Lemma new_date_ValueError y m d e :
  Calendar.c_int y = true → Calendar.c_int m = true → Calendar.c_int d = true →
  Calendar.new_date y m d = Raise e → ∃ msg, e = ValueError msg.
Proof.
  intros Hy Hm Hd. unfold Calendar.new_date. rewrite Hy, Hm, Hd. simpl.
  repeat case_match; intros; simplify_eq; eauto.
Qed.

(** [strptime] raises nothing but [ValueError]. *)
Lemma strptime_Ymd_ValueError s e :
  Calendar.strptime_Ymd s = Raise e → ∃ msg, e = ValueError msg.
Proof.
  unfold Calendar.strptime_Ymd.
  destruct s as [|y1 [|y2 [|y3 [|y4 [|c s1]]]]]; try (intros; simplify_eq; eauto; fail).
  case_match; [|intros; simplify_eq; eauto].
  destruct (Calendar.match_month_day s1) as [[[m d] r]|] eqn:Hmd;
    [|intros; simplify_eq; eauto].
  destruct r; [|intros; simplify_eq; eauto].
  apply match_month_day_bounds in Hmd as [Hm Hd].
  apply new_date_ValueError; unfold Calendar.c_int;
    pose proof (digit_bounds y1); pose proof (digit_bounds y2);
    pose proof (digit_bounds y3); pose proof (digit_bounds y4); lia.
Qed.

Lemma isleap_leap_year y : Calendar.isleap y = leap_year y.
Proof.
  unfold Calendar.isleap, leap_year.
  destruct (Z.eqb_spec (y mod 400) 0), (Z.eqb_spec (y mod 100) 0),
    (Z.eqb_spec (y mod 4) 0); simpl; try done; exfalso;
    Z.to_euclidean_division_equations; lia.
Qed.

Lemma month_cases m :
  1 ≤ m ≤ 12 →
  m = 1 ∨ m = 2 ∨ m = 3 ∨ m = 4 ∨ m = 5 ∨ m = 6 ∨ m = 7 ∨ m = 8 ∨ m = 9
  ∨ m = 10 ∨ m = 11 ∨ m = 12.
Proof. lia. Qed.

Lemma monthrange_month_length y m :
  1 ≤ m ≤ 12 → Calendar.monthrange_ndays y m = Ok (month_length y m).
Proof.
  intros Hm%month_cases. unfold Calendar.monthrange_ndays, month_length.
  rewrite isleap_leap_year.
  destruct_or!; subst m; simpl; try done. by destruct (leap_year y).
Qed.

Lemma days_in_month_length y m :
  1 ≤ m ≤ 12 → Calendar.days_in_month y m = month_length y m.
Proof.
  intros Hm%month_cases. unfold Calendar.days_in_month, month_length.
  rewrite isleap_leap_year.
  destruct_or!; subst m; simpl; try done.
Qed.

Lemma month_length_bounds y m : 1 ≤ m ≤ 12 → 28 ≤ month_length y m ≤ 31.
Proof.
  intros Hm%month_cases. unfold month_length.
  destruct_or!; subst m; try lia. destruct (leap_year y); lia.
Qed.

Lemma new_date_valid y m d :
  1 ≤ y ≤ 9999 → 1 ≤ m ≤ 12 → 1 ≤ d ≤ month_length y m →
  Calendar.new_date y m d = Ok (Calendar.Date y m d).
Proof.
  intros Hy Hm Hd. pose proof (month_length_bounds y m Hm).
  unfold Calendar.new_date, Calendar.c_int. rewrite days_in_month_length by done.
  repeat match goal with
    | |- context [?a <=? ?b] => rewrite (proj2 (Z.leb_le a b)) by lia
    | |- context [?a <? ?b] => rewrite (proj2 (Z.ltb_lt a b)) by lia
    end.
  done.
Qed.

(** ** The date functions *)

(** The two attempts of [validate_date], one after the other. *)
Lemma validate_date_eq s :
  validate_date s =
  let by_date :=
    match Calendar.strptime_Ymd s with
    | Ok _ => Ok true
    | Raise _ => Raise invalid_date
    end in
  match Py.int_literal s with
  | Some n => if n <? 0 then Ok true else by_date
  | None => by_date
  end.
Proof.
  assert (Hdate :
    (r ← try_except (_ ← Calendar.strptime_Ymd s; Ok (Some true)) [ValueError_] (Ok None);
     match r with Some b => Ok b | None => Raise invalid_date end)
    = match Calendar.strptime_Ymd s with
      | Ok _ => Ok true
      | Raise _ => Raise invalid_date
      end).
  { destruct (Calendar.strptime_Ymd s) as [d|e] eqn:Hs; [done|].
    apply strptime_Ymd_ValueError in Hs as [msg ->]. done. }
  unfold validate_date, Py.int.
  destruct (Py.int_literal s) as [n|]; simpl; [destruct (n <? 0); simpl|]; try done.
Qed.

Lemma validate_date_raises s e :
  validate_date s = Raise e → e = invalid_date.
Proof.
  rewrite validate_date_eq. simpl. repeat case_match; congruence.
Qed.

Lemma normalize_dates_raises start_date end_date e :
  normalize_dates start_date end_date = Raise e → ∀ msg, e ≠ ValueError msg.
Proof.
  unfold normalize_dates. intros [He|(s & _ & [He|(x & _ & He)]%bind_Raise)]%bind_Raise.
  - eapply try_except_ValueError_handled, He. set_solver.
  - eapply try_except_ValueError_handled, He. set_solver.
  - done.
Qed.

Lemma format_date_raises date timestamp_format e :
  format_date date timestamp_format = Raise e → ∀ msg, e ≠ ValueError msg.
Proof. apply try_except_ValueError_handled. set_solver. Qed.

(** C3 as stated fails: [validate_date] does not return [True] for the
    bound 0. *)
Lemma validate_date_zero_not_accepted : validate_date "0" ≠ Ok true.
Proof. by vm_compute. Qed.

(** C3, as amended.  [validate_date] rejects the bound 0: [int] reads it,
    but it is not negative, and it is not a calendar date, so the call
    raises the [ValueError] that names the accepted forms. *)
Theorem validate_date_zero_rejected :
  validate_date "0"
  = Raise (ValueError "Dates must be negative integers or YYYY-MM[-DD] in the past.").
Proof. reflexivity. Qed.

(** C7, as amended.  For every negative integer [n],
    [validate_date(str(n))] returns [True].  For every text that [int]
    does not read as a negative integer and that [strptime] does not
    accept with the format [%Y-%m-%d], [validate_date] raises a
    [ValueError] whose message names the accepted forms.  What the two
    readers accept is wider than the negative integers and the texts
    YYYY-MM-DD: [strptime] also takes months and days without their
    leading zero, and [int] takes blanks around the number. *)
Theorem validate_date_accepts_exactly :
  (∀ n : Z, n < 0 → validate_date (Py.str n) = Ok true) ∧
  (∀ s : string,
     (∀ n, Py.int s = Ok n → 0 ≤ n) →
     (∀ d, Calendar.strptime_Ymd s ≠ Ok d) →
     validate_date s
     = Raise (ValueError "Dates must be negative integers or YYYY-MM[-DD] in the past.")).
Proof.
  split.
  - intros n Hn. unfold validate_date. rewrite int_str. simpl.
    by destruct (Z.ltb_spec n 0); [|lia].
  - intros s Hint Hdate. rewrite validate_date_eq. simpl.
    assert (Hd : match Calendar.strptime_Ymd s with
                 | Ok _ => Ok true
                 | Raise _ => Raise invalid_date
                 end = Raise invalid_date).
    { destruct (Calendar.strptime_Ymd s) as [d|e] eqn:Hs; [by destruct (Hdate d)|done]. }
    rewrite Hd. unfold Py.int in Hint.
    destruct (Py.int_literal s) as [n|]; [|done].
    specialize (Hint n eq_refl). by destruct (Z.ltb_spec n 0); [lia|].
Qed.

Lemma validate_date_accepts_exactly_witness :
  validate_date (Py.str (-7)) = Ok true
  ∧ validate_date "last week"
    = Raise (ValueError "Dates must be negative integers or YYYY-MM[-DD] in the past.").
Proof.
  destruct validate_date_accepts_exactly as [Hneg Hother]. split.
  - apply Hneg. lia.
  - apply Hother.
    + intros n Hn. vm_compute in Hn. discriminate.
    + intros d Hd. vm_compute in Hd. discriminate.
Defined.

Lemma len_zero_pad w n : Z.of_nat w ≤ Py.len (Py.zero_pad w n).
Proof.
  assert (Hzeros : ∀ k, Py.len (Py.repeat_nat "0" k) = Z.of_nat k).
  { induction k as [|k IH]; [done|]. cbn [Py.repeat_nat]. rewrite len_app, IH.
    change (Py.len "0") with 1. lia. }
  unfold Py.zero_pad. cbn zeta. rewrite len_app, Hzeros. unfold Py.len. lia.
Qed.

(** A text YYYY-MM-DD has ten characters at least. *)
Lemma len_date_text y m d : 10 ≤ Py.len (date_text y m d).
Proof.
  unfold date_text. rewrite !len_app. change (Py.len "-") with 1.
  pose proof (len_zero_pad 4 y). pose proof (len_zero_pad 2 m).
  pose proof (len_zero_pad 2 d). lia.
Qed.

(** C7 as stated fails: the text [2024-1-5] is not a negative integer,
    [int] does not read it at all, and it is not a text YYYY-MM-DD of
    any year, month and day, and yet [validate_date] returns [True] for
    it, since [strptime] takes a month and a day without their leading
    zero. *)
Lemma validate_date_accepts_unpadded_date :
  validate_date "2024-1-5" = Ok true
  ∧ (∀ n, Py.int "2024-1-5" ≠ Ok n)
  ∧ (∀ y m d, "2024-1-5"%string ≠ date_text y m d).
Proof.
  split; [by vm_compute|]. split.
  - intros n Hn. vm_compute in Hn. discriminate.
  - intros y m d Heq. pose proof (len_date_text y m d) as Hlen.
    rewrite <- Heq in Hlen. vm_compute in Hlen. by apply Hlen.
Qed.

(** [month_ends] on the text [%04d-%02d] of a year and a month. *)
Lemma month_ends_canonical y m :
  1 ≤ y ≤ 9999 → 1 ≤ m ≤ 12 →
  month_ends (yyyy_mm y m)
  = Ok (yyyy_mm y m +:+ "-01",
        yyyy_mm y m +:+ "-" +:+ Py.zero_pad 2 (month_length y m))
  ∧ 28 ≤ month_length y m ≤ 31
  ∧ (m = 2 → month_length y m = if leap_year y then 29 else 28).
Proof.
  intros Hy Hm. pose proof (month_length_bounds y m Hm) as Hlen.
  split; [|split; [done|by intros ->]].
  unfold month_ends, yyyy_mm.
  change (Py.zero_pad 4 y +:+ "-" +:+ Py.zero_pad 2 m)
    with (Py.zero_pad 4 y +:+ String "-" (Py.zero_pad 2 m)) at 1.
  rewrite split_app by (apply no_hyphen_zero_pad; lia).
  rewrite split_no_sep by (apply no_hyphen_zero_pad; lia).
  cbn [take mapM]. rewrite !int_zero_pad by lia. cbn [mbind result_bind mret result_ret].
  rewrite new_date_valid, monthrange_month_length by lia. cbn [mbind result_bind].
  rewrite new_date_valid by lia. cbn [mbind result_bind].
  unfold Calendar.isoformat. cbn [Calendar.year Calendar.month Calendar.day].
  by rewrite !app_assoc_string.
Qed.

Lemma decimal_char_digit c :
  Py.isdecimal_char c = true →
  c = digit_char (Calendar.digit c) ∧ In (Calendar.digit c) digits10.
Proof.
  intros Hc.
  destruct c as [[] [] [] [] [] [] [] []]; try (vm_compute in Hc; discriminate);
    (split; [reflexivity|vm_compute; tauto]).
Qed.

Lemma year_text_all :
  forallb (fun d1 => forallb (fun d2 => forallb (fun d3 => forallb (fun d4 =>
    year_text_ok d1 d2 d3 d4) digits10) digits10) digits10) digits10 = true.
Proof. by vm_compute. Qed.

Lemma month_text_all :
  forallb (fun d1 => forallb (fun d2 => month_text_ok d1 d2) digits10) digits10 = true.
Proof. by vm_compute. Qed.

Lemma year_text y1 y2 y3 y4 :
  Py.isdecimal_char y1 = true → Py.isdecimal_char y2 = true →
  Py.isdecimal_char y3 = true → Py.isdecimal_char y4 = true →
  Py.zero_pad 4 (1000 * Calendar.digit y1 + 100 * Calendar.digit y2
                 + 10 * Calendar.digit y3 + Calendar.digit y4)
  = String y1 (String y2 (String y3 (String y4 EmptyString))).
Proof.
  intros [E1 H1]%decimal_char_digit [E2 H2]%decimal_char_digit
    [E3 H3]%decimal_char_digit [E4 H4]%decimal_char_digit.
  pose proof year_text_all as Hall.
  rewrite forallb_forall in Hall. specialize (Hall _ H1).
  rewrite forallb_forall in Hall. specialize (Hall _ H2).
  rewrite forallb_forall in Hall. specialize (Hall _ H3).
  rewrite forallb_forall in Hall. specialize (Hall _ H4).
  apply String.eqb_eq in Hall. rewrite Hall. congruence.
Qed.

Lemma month_text m1 m2 :
  Py.isdecimal_char m1 = true → Py.isdecimal_char m2 = true →
  Py.zero_pad 2 (10 * Calendar.digit m1 + Calendar.digit m2)
  = String m1 (String m2 EmptyString).
Proof.
  intros [E1 H1]%decimal_char_digit [E2 H2]%decimal_char_digit.
  pose proof month_text_all as Hall.
  rewrite forallb_forall in Hall. specialize (Hall _ H1).
  rewrite forallb_forall in Hall. specialize (Hall _ H2).
  apply String.eqb_eq in Hall. rewrite Hall. congruence.
Qed.

(** A valid text is the text that [%04d-%02d] gives for its year and
    month. *)
Lemma valid_yyyy_mm_text s y m :
  valid_yyyy_mm s = Some (y, m) →
  s = yyyy_mm y m ∧ 1 ≤ y ≤ 9999 ∧ 1 ≤ m ≤ 12.
Proof.
  unfold valid_yyyy_mm.
  destruct s as [|y1 [|y2 [|y3 [|y4 [|h [|m1 [|m2 [|]]]]]]]]; try done.
  case_match eqn:Hok; [|done]. intros [= <- <-].
  rewrite !andb_true_iff in Hok.
  destruct Hok as (((((((((Hy1 & Hy2) & Hy3) & Hy4) & Hh) & Hm1) & Hm2) & Hy) & Hm) & Hm').
  apply Ascii.eqb_eq in Hh as ->.
  split.
  - unfold yyyy_mm. rewrite year_text, month_text by done. reflexivity.
  - destruct (decimal_char_digit y1 Hy1) as [_ Hd1].
    destruct (decimal_char_digit y2 Hy2) as [_ Hd2].
    destruct (decimal_char_digit y3 Hy3) as [_ Hd3].
    destruct (decimal_char_digit y4 Hy4) as [_ Hd4].
    simpl in Hd1, Hd2, Hd3, Hd4. lia.
Qed.

(** C6.  For every valid text YYYY-MM (four digits, a hyphen, two digits;
    a year from 0001 and a month from 01 to 12), [month_ends] returns the
    first day, YYYY-MM-01, and the last day of that month, both in the
    form YYYY-MM-DD; the day of the month of the last day is the length
    of the month: between 28 and 31, and for February 29 in leap years
    and 28 otherwise. *)
Theorem month_ends_valid s y m :
  valid_yyyy_mm s = Some (y, m) →
  month_ends s
  = Ok (s +:+ "-01", s +:+ "-" +:+ Py.zero_pad 2 (month_length y m))
  ∧ 28 ≤ month_length y m ≤ 31
  ∧ (m = 2 → month_length y m = if leap_year y then 29 else 28).
Proof.
  intros (-> & Hy & Hm)%valid_yyyy_mm_text. by apply month_ends_canonical.
Qed.

Lemma month_ends_valid_witness :
  month_ends "2024-02" = Ok ("2024-02-01", "2024-02-29")%string.
Proof.
  destruct (month_ends_valid "2024-02" 2024 2) as (Hends & _); [reflexivity|exact Hends].
Defined.

(** *** Relative bounds *)

Lemma str_negative n : n < 0 → ∃ t, Py.str n = String "-" t.
Proof. destruct n as [|p|p]; try lia. intros _. by eexists. Qed.

(** A negative offset is not the text of a month. *)
Lemma month_ends_negative n : n < 0 → month_ends (Py.str n) = Raise Py.invalid_literal.
Proof.
  intros (t & ->)%str_negative. unfold month_ends. simpl Py.split.
  destruct (Py.split "-" t) as [|p [|q ps]]; reflexivity.
Qed.

Lemma normalize_dates_negative s e :
  s < 0 → e < 0 → normalize_dates (Py.str s) (Py.str e) = Ok (Py.str s, Py.str e).
Proof.
  intros Hs He. unfold normalize_dates. by rewrite !month_ends_negative.
Qed.

Lemma validate_date_negative n : n < 0 → validate_date (Py.str n) = Ok true.
Proof.
  intros Hn. unfold validate_date. rewrite int_str. simpl.
  by destruct (Z.ltb_spec n 0); [|lia].
Qed.

Lemma format_date_int n timestamp_format :
  format_date (Py.str n) timestamp_format = Ok (Py.format1 DATE_ADD (Py.str n)).
Proof. unfold format_date. by rewrite int_str. Qed.

Lemma truthy_str_negative n : n < 0 → truthy_str (Some (Py.str n)) = Some (Py.str n).
Proof. intros (t & ->)%str_negative. reflexivity. Qed.

(** Two relative bounds pass the range check whatever their order. *)
Lemma query_dates_relative s e :
  s < 0 → e < 0 →
  query_dates (Some (Py.str s)) (Some (Py.str e)) None
  = Ok (Py.format1 DATE_ADD (Py.str s), Py.format1 DATE_ADD (Py.str e)).
Proof.
  intros Hs He. unfold query_dates, or_str.
  rewrite !truthy_str_negative by done. cbn [truthy_int mbind result_bind].
  rewrite normalize_dates_negative by done. cbn [mbind result_bind].
  rewrite !validate_date_negative by done. cbn [mbind result_bind].
  rewrite !int_str. cbn [mbind result_bind].
  rewrite !format_date_int.
  by destruct (s >=? e).
Qed.

(** ** The query builder *)

Section Builder.

Context {Field : Type} `{Countable Field}.
Context (name data : Field → string) (Downloads : Field) (AGGREGATES : gset Field).
Context (canonicalize_name : string → string).

Lemma query_dates_raises start_date end_date days e :
  query_dates start_date end_date days = Raise e →
  e = Py.invalid_literal ∨ e = invalid_date ∨ ∀ msg, e ≠ ValueError msg.
Proof.
  unfold query_dates. intros [He|(sd & _ & He)]%bind_Raise.
  { left. destruct (truthy_int days); [|done].
    apply bind_Raise in He as [He|(? & _ & ?)]; [|done].
    by destruct (int_cases (or_str end_date END_DATE)) as [[n Hn]| Hn];
      rewrite Hn in He; simplify_eq. }
  apply bind_Raise in He as [He|([sd' ed'] & _ & He)].
  { right; right. by eapply normalize_dates_raises. }
  apply bind_Raise in He as [He|(? & _ & He)].
  { right; left. by eapply validate_date_raises. }
  apply bind_Raise in He as [He|(? & _ & He)].
  { right; left. by eapply validate_date_raises. }
  apply bind_Raise in He as [He|(? & _ & He)].
  { right; right. eapply try_except_ValueError_handled, He. set_solver. }
  apply bind_Raise in He as [He|(? & _ & He)].
  { right; right. by eapply format_date_raises. }
  apply bind_Raise in He as [He|(? & _ & He)]; [|done].
  right; right. by eapply format_date_raises.
Qed.

(** The error of the range check never leaves [build_query]. *)
Lemma build_query_never_invalid_range project all_fields start_date end_date
    days limit where_ order pip :
  build_query name data Downloads AGGREGATES canonicalize_name
    project all_fields start_date end_date days limit where_ order pip
  ≠ Raise invalid_range.
Proof.
  unfold build_query. intros [He|([sd ed] & _ & He)]%bind_Raise; [|done].
  apply query_dates_raises in He as [He|[He|He]]; [done|done|].
  by eapply He.
Qed.

(** The test [len(gb) > initial_length] always succeeds: with more than
    one selected field the clause is emitted, whatever it lists. *)
Lemma group_by_clause_emitted (fields : list Field) :
  (1 < length fields)%nat →
  group_by_clause name AGGREGATES fields
  = "GROUP BY" +:+ Py.nl +:+ "  "
    +:+ Py.join ", " (non_aggregate_fields name AGGREGATES fields) +:+ Py.nl.
Proof.
  intros Hlen. unfold group_by_clause.
  destruct (Z.gtb_spec (Z.of_nat (length fields)) 1) as [_|]; [|lia].
  match goal with
  | |- (if ?a >? ?b then _ else _) = _ => destruct (Z.gtb_spec a b) as [_|Hle]
  end.
  - by rewrite !app_assoc_string.
  - exfalso. rewrite !len_app in Hle.
    pose proof (len_nonneg (Py.join ", " (non_aggregate_fields name AGGREGATES fields))).
    change (Py.len "  ") with 2 in Hle. change (Py.len Py.nl) with 1 in Hle. lia.
Qed.

Lemma first_occurrences_elem_of (l : list Field) f :
  f ∈ first_occurrences l ↔ f ∈ l.
Proof.
  induction l as [|g l IH]; simpl; [done|].
  rewrite !elem_of_cons, list_elem_of_filter, IH.
  destruct (decide (f = g)); intuition congruence.
Qed.

Lemma first_occurrences_NoDup (l : list Field) : NoDup (first_occurrences l).
Proof.
  induction l as [|g l IH]; simpl; [constructor|].
  apply NoDup_cons. split; [|by apply NoDup_filter].
  rewrite list_elem_of_filter. by intros [? _].
Qed.

Lemma dedup_loop (fields : list Field) (used_fields : gset Field) l :
  (∀ f, f ∈ used_fields ↔ f ∈ fields) →
  (foldl dedup_step (fields, used_fields) l).1
  = fields ++ filter (fun g => g ∉ fields) (first_occurrences l).
Proof.
  revert fields used_fields.
  induction l as [|f l IH]; intros fields used_fields Hused; simpl.
  { by rewrite app_nil_r. }
  destruct (decide (f ∈ used_fields)) as [Hf|Hf].
  - rewrite (IH _ _ Hused). f_equal.
    rewrite filter_cons_False by (rewrite <- Hused; tauto).
    rewrite list_filter_filter. apply list_filter_iff.
    intros g. split; [|tauto]. intros Hg. split; [done|]. intros ->.
    by apply Hg, Hused.
  - rewrite (IH (fields ++ [f]) (used_fields ∪ {[f]})).
    + rewrite <- app_assoc. f_equal. simpl.
      rewrite filter_cons_True by (by rewrite <- Hused).
      f_equal. rewrite list_filter_filter. apply list_filter_iff.
      intros g. rewrite elem_of_app, list_elem_of_singleton. tauto.
    + intros g. rewrite elem_of_union, elem_of_singleton, elem_of_app,
        list_elem_of_singleton, Hused. tauto.
Qed.

(** The loop keeps each field at its first occurrence. *)
Lemma dedup_fields_first_occurrences (l : list Field) :
  dedup_fields l = first_occurrences l.
Proof.
  unfold dedup_fields. rewrite dedup_loop by set_solver. simpl.
  induction (first_occurrences l) as [|g k IH]; [done|].
  rewrite filter_cons_True by set_solver. by rewrite IH.
Qed.

Lemma select_clause_loop (fields : list Field) query :
  foldl (fun query field =>
           query +:+ "  " +:+ data field +:+ " as " +:+ name field +:+ "," +:+ Py.nl)
        query fields
  = query +:+ foldr (fun field rest => select_line name data field +:+ rest) EmptyString fields.
Proof.
  revert query. induction fields as [|f fields IH]; intros query; cbn [foldl foldr].
  - by rewrite app_nil_r_string.
  - rewrite IH. unfold select_line. by rewrite !app_assoc_string.
Qed.

Lemma select_clause_lines (fields : list Field) :
  select_clause name data fields = select_lines name data fields.
Proof.
  unfold select_clause, select_lines. rewrite select_clause_loop.
  by rewrite !app_assoc_string.
Qed.

Lemma occurrences_app f (l k : list Field) :
  occurrences f (l ++ k) = (occurrences f l + occurrences f k)%nat.
Proof. unfold occurrences. by rewrite filter_app, length_app. Qed.

Lemma occurrences_NoDup f (l : list Field) :
  NoDup l → occurrences f l = if decide (f ∈ l) then 1%nat else 0%nat.
Proof.
  unfold occurrences. induction 1 as [|g l Hg Hl IH]; [done|].
  rewrite filter_cons. destruct (decide (g = f)) as [->|Hne]; simpl.
  - rewrite IH, (decide_False (P := f ∈ l)) by done.
    by rewrite decide_True by apply list_elem_of_here.
  - rewrite IH. destruct (decide (f ∈ l)) as [Hin|Hin].
    + by rewrite decide_True by (by apply list_elem_of_further).
    + rewrite decide_False; [done|]. rewrite elem_of_cons. by intros [->|?].
Qed.

Lemma build_query_relative_bounds project all_fields s e limit where_ order pip :
  s < 0 → e < 0 →
  ∃ query,
    build_query name data Downloads AGGREGATES canonicalize_name
      project all_fields (Some (Py.str s)) (Some (Py.str e)) None limit where_ order pip
    = Ok query.
Proof.
  intros Hs He. unfold build_query. rewrite query_dates_relative by done.
  cbn [mbind result_bind]. eauto.
Qed.

Lemma non_aggregate_loop (fields : list Field) acc :
  Forall (fun f => f ∈ AGGREGATES) fields →
  foldl (fun acc field =>
           if decide (field ∉ AGGREGATES) then acc ++ [name field] else acc)
        acc fields = acc.
Proof.
  induction 1 as [|f fields Hf _ IH]; simpl; [done|].
  by rewrite decide_False by (by intros ?).
Qed.

(** With aggregates only, the clause lists nothing and is emitted all
    the same. *)
Lemma group_by_clause_aggregates_only (all_fields : list Field) :
  all_fields ≠ [] →
  Forall (fun f => f ∈ AGGREGATES) all_fields →
  group_by_clause name AGGREGATES (dedup_fields all_fields ++ [Downloads])
  = "GROUP BY" +:+ Py.nl +:+ "  " +:+ Py.nl.
Proof.
  intros Hne Hagg. rewrite dedup_fields_first_occurrences.
  rewrite group_by_clause_emitted.
  - unfold non_aggregate_fields. rewrite removelast_last, non_aggregate_loop; [done|].
    rewrite Forall_forall in Hagg. apply Forall_forall.
    intros f Hf. apply Hagg. by apply first_occurrences_elem_of.
  - rewrite length_app. simpl. destruct all_fields; [done|]. simpl. lia.
Qed.

(** C9.  When a day count is supplied ([days] is a number other than 0,
    which is what the test [if days:] asks) and the end bound, after the
    default is applied, is not an integer literal, [build_query] raises
    the [ValueError] of [int]: it arises in [int(end_date) - days], before
    the bounds are normalised or validated, and nothing catches it. *)
Theorem build_query_days_need_integer_end project all_fields start_date end_date
    days d limit where_ order pip :
  truthy_int days = Some d →
  Py.int_literal (or_str end_date END_DATE) = None →
  build_query name data Downloads AGGREGATES canonicalize_name
    project all_fields start_date end_date days limit where_ order pip
  = Raise (ValueError "invalid literal for int() with base 10").
Proof.
  intros Hdays Hend. unfold build_query, query_dates, Py.int.
  by rewrite Hdays, Hend.
Qed.

(** C5, as amended.  The SELECT clause of every query [build_query]
    returns lists the requested fields, each once and at its first
    occurrence, then [Downloads], which is always last.  [Downloads] is
    listed exactly once when it is not among the requested fields, and
    twice when it is. *)
Theorem build_query_select_fields project all_fields start_date end_date
    days limit where_ order pip query :
  build_query name data Downloads AGGREGATES canonicalize_name
    project all_fields start_date end_date days limit where_ order pip
  = Ok query →
  let selected := first_occurrences all_fields ++ [Downloads] in
  (∃ rest, query = select_lines name data selected +:+ FROM +:+ rest)
  ∧ NoDup (first_occurrences all_fields)
  ∧ (∀ f, f ∈ first_occurrences all_fields ↔ f ∈ all_fields)
  ∧ last selected = Some Downloads
  ∧ occurrences Downloads selected
    = if decide (Downloads ∈ all_fields) then 2%nat else 1%nat.
Proof.
  intros Hq selected. split; [|split; [|split; [|split]]].
  - unfold build_query in Hq. apply bind_Ok in Hq as ([sd ed] & _ & Hq).
    injection Hq as <-. rewrite dedup_fields_first_occurrences, select_clause_lines.
    fold selected. eexists. rewrite !app_assoc_string. reflexivity.
  - apply first_occurrences_NoDup.
  - apply first_occurrences_elem_of.
  - apply last_snoc.
  - unfold selected. rewrite occurrences_app.
    rewrite occurrences_NoDup by apply first_occurrences_NoDup.
    unfold occurrences. rewrite filter_cons_True by done. simpl.
    destruct (decide (Downloads ∈ all_fields)) as [Hin|Hin].
    + by rewrite decide_True by (by apply first_occurrences_elem_of).
    + by rewrite decide_False by (by rewrite first_occurrences_elem_of).
Qed.

(** C1 (the code departs from the claim).  For two relative bounds with
    start >= end, [build_query] returns the text of a query: the
    [ValueError] of the range check is raised inside the [try] whose
    [except ValueError] discards it.  So it is with start = -1 and
    end = -7. *)
Theorem build_query_reversed_range_accepted :
  (∀ project all_fields s e limit where_ order pip,
     s < 0 → e ≤ s →
     ∃ query,
       build_query name data Downloads AGGREGATES canonicalize_name
         project all_fields (Some (Py.str s)) (Some (Py.str e)) None
         limit where_ order pip
       = Ok query)
  ∧ (
    Sample.build_query "requests" [] (Some "-1") (Some "-7") None None None None false
    = Ok (Sample.lines
            ["SELECT";
             "  COUNT(*) as download_count,";
             FROM;
             relative_range "-1" "-7";
             project_filter "requests";
             "ORDER BY";
             "  download_count DESC";
             "LIMIT 10"])).
Proof.
  split; [|by vm_compute].
  intros project all_fields s e limit where_ order pip Hs He.
  apply build_query_relative_bounds; lia.
Qed.

(** C4 (the code departs from the claim).  When fields are requested and
    all of them are aggregates, the query still carries a GROUP BY
    clause, one that lists nothing: the two blanks and the line break are
    appended before the length of the clause is compared with its
    initial length.  So it is for the single aggregate of the sample
    catalogue. *)
Theorem build_query_empty_group_by :
  (∀ project all_fields start_date end_date days limit where_ order pip query,
     all_fields ≠ [] →
     Forall (fun f => f ∈ AGGREGATES) all_fields →
     build_query name data Downloads AGGREGATES canonicalize_name
       project all_fields start_date end_date days limit where_ order pip
     = Ok query →
     ∃ before after,
       query = before +:+ "GROUP BY" +:+ Py.nl +:+ "  " +:+ Py.nl +:+ after)
  ∧ (
    Sample.build_query "requests" [Sample.Share] None None None None None None false
    = Ok (Sample.lines
            ["SELECT";
             "  ROUND(100 * COUNT(*) / SUM(COUNT(*)) OVER (), 1) as share,";
             "  COUNT(*) as download_count,";
             FROM;
             relative_range "-31" "-1";
             project_filter "requests";
             "GROUP BY";
             "  ";
             "ORDER BY";
             "  download_count DESC";
             "LIMIT 10"])).
Proof.
  split; [|by vm_compute].
  intros project all_fields start_date end_date days limit where_ order pip query
    Hne Hagg Hq.
  unfold build_query in Hq. apply bind_Ok in Hq as ([sd ed] & _ & Hq).
  injection Hq as <-. rewrite group_by_clause_aggregates_only by done.
  rewrite !app_assoc_string.
  match goal with
  | |- ∃ before after, ?s +:+ ?f +:+ ?w +:+ _ +:+ _ +:+ _ +:+ _ +:+ ?rest = _ =>
      exists (s +:+ f +:+ w), rest
  end.
  by rewrite !app_assoc_string.
Qed.

End Builder.

Lemma build_query_days_need_integer_end_witness :
  Sample.build_query "requests" [Sample.Project] None (Some "2020-01-31"%string)
    (Some 7) None None None false
  = Raise (ValueError "invalid literal for int() with base 10").
Proof.
  apply (build_query_days_need_integer_end Sample.name Sample.data Sample.Downloads
           Sample.AGGREGATES Sample.canonicalize_name "requests" [Sample.Project]
           None (Some "2020-01-31"%string) (Some 7) 7); reflexivity.
Defined.

Lemma build_query_select_fields_witness :
  ∃ rest,
    Sample.lines
      ["SELECT";
       "  file.project as project,";
       "  file.version as version,";
       "  COUNT(*) as download_count,";
       FROM;
       relative_range "-31" "-1";
       "GROUP BY";
       "  project, version";
       "ORDER BY";
       "  download_count DESC";
       "LIMIT 10"]
    = select_lines Sample.name Sample.data
        (first_occurrences [Sample.Project; Sample.Version; Sample.Project]
         ++ [Sample.Downloads])
      +:+ FROM +:+ rest.
Proof.
  refine (proj1 (build_query_select_fields Sample.name Sample.data Sample.Downloads
           Sample.AGGREGATES Sample.canonicalize_name EmptyString
           [Sample.Project; Sample.Version; Sample.Project]
           None None None None None None false _ _)).
  by vm_compute.
Defined.

Lemma build_query_reversed_range_accepted_witness :
  ∃ query,
    Sample.build_query "requests" [Sample.Project] (Some (Py.str (-1)))
      (Some (Py.str (-7))) None None None None false
    = Ok query.
Proof.
  apply (proj1 (build_query_reversed_range_accepted Sample.name Sample.data
                  Sample.Downloads Sample.AGGREGATES Sample.canonicalize_name));
    lia.
Defined.

Lemma build_query_empty_group_by_witness :
  ∃ before after,
    Sample.lines
      ["SELECT";
       "  ROUND(100 * COUNT(*) / SUM(COUNT(*)) OVER (), 1) as share,";
       "  COUNT(*) as download_count,";
       FROM;
       relative_range "-31" "-1";
       "GROUP BY";
       "  ";
       "ORDER BY";
       "  download_count DESC";
       "LIMIT 10"]
    = before +:+ "GROUP BY" +:+ Py.nl +:+ "  " +:+ Py.nl +:+ after.
Proof.
  apply (proj1 (build_query_empty_group_by Sample.name Sample.data Sample.Downloads
                  Sample.AGGREGATES Sample.canonicalize_name)
           EmptyString [Sample.Share; Sample.Share] None None None None None None false).
  - done.
  - repeat constructor; by apply elem_of_singleton.
  - by vm_compute.
Defined.

(** C5 as stated fails: when [Downloads] itself is requested, the SELECT
    clause lists it twice. *)
Lemma build_query_downloads_listed_twice :
  occurrences Sample.Downloads (dedup_fields [Sample.Downloads] ++ [Sample.Downloads])
  = 2%nat
  ∧ Sample.build_query "requests" [Sample.Downloads] None None None None None None false
  = Ok (Sample.lines
          ["SELECT";
           "  COUNT(*) as download_count,";
           "  COUNT(*) as download_count,";
           FROM;
           relative_range "-31" "-1";
           project_filter "requests";
           "GROUP BY";
           "  download_count";
           "ORDER BY";
           "  download_count DESC";
           "LIMIT 10"]).
Proof. by vm_compute. Qed.

(** ** [add_percentages] *)

Lemma add_percentages_rows index total include_sign data counts shares :
  mapM (fun row => cell ← Py.getitem row index; Py.int cell) data = Ok counts →
  mapM (fun n => Py.truediv n total) counts = Ok shares →
  mapM (fun row =>
          cell ← Py.getitem row index;
          n ← Py.int cell;
          share ← Py.truediv n total;
          Ok (Py.insert index (share_text include_sign share) row)) data
  = Ok (zip_with (fun row share => Py.insert index (share_text include_sign share) row)
          data shares).
Proof.
  revert counts shares. induction data as [|row data IH]; intros counts shares.
  - intros [= <-] [= <-]. done.
  - rewrite !mapM_cons.
    intros (n & Hn & (counts' & Hcounts & [= <-])%bind_Ok)%bind_Ok.
    rewrite mapM_cons.
    intros (share & Hshare & (shares' & Hshares & [= <-])%bind_Ok)%bind_Ok.
    apply bind_Ok in Hn as (cell & Hcell & Hn).
    rewrite Hcell. simpl. rewrite Hn. simpl. rewrite Hshare. simpl.
    by rewrite (IH _ _ Hcounts Hshares).
Qed.

(** C8.  [add_percentages] puts a column headed [percent] immediately
    before the column [download_count]; the cell it adds to a row is the
    text of that row's count divided by the sum of the counts.  With the
    sign, the counts 10, 30 and 60 give 10.00%, 30.00% and 60.00%. *)
Theorem add_percentages_inserts_shares :
  (∀ headers data include_sign index counts shares,
     Py.index headers "download_count" = Ok index →
     mapM (fun row => cell ← Py.getitem row index; Py.int cell) data = Ok counts →
     mapM (fun n => Py.truediv n (foldl Z.add 0 counts)) counts = Ok shares →
     let headers' := Py.insert index "percent" headers in
     add_percentages (headers :: data) include_sign
     = Ok (headers'
           :: zip_with (fun row share =>
                          Py.insert index (share_text include_sign share) row)
                data shares)
     ∧ headers' !! index = Some "percent"
     ∧ headers' !! S index = Some "download_count")
  ∧ add_percentages [["name"; "download_count"]; ["a"; "10"]; ["b"; "30"]; ["c"; "60"]] true
    = Ok [["name"; "percent"; "download_count"];
          ["a"; "10.00%"; "10"]; ["b"; "30.00%"; "30"]; ["c"; "60.00%"; "60"]].
Proof.
  split; [|by vm_compute].
  intros headers data include_sign index counts shares Hindex Hcounts Hshares headers'.
  apply index_Ok in Hindex as Hlookup. destruct Hlookup as [Hlookup _].
  pose proof (lookup_lt_Some _ _ _ Hlookup) as Hlt.
  destruct (insert_lookup headers index "percent") as (Hp & Hd & _); [lia|].
  subst headers'. split; [|split; [done|by rewrite Hd]].
  unfold add_percentages. rewrite Hindex. simpl. rewrite Hcounts. simpl.
  pose proof (add_percentages_rows _ _ include_sign _ _ _ Hcounts Hshares) as Hrows.
  destruct include_sign; unfold share_text in *; by rewrite Hrows.
Qed.

Lemma add_percentages_inserts_shares_witness :
  add_percentages [["project"; "download_count"]; ["x"; "1"]; ["y"; "3"]] false
  = Ok [["project"; "percent"; "download_count"]; ["x"; "0.25"; "1"]; ["y"; "0.75"; "3"]].
Proof.
  destruct add_percentages_inserts_shares as [Hgeneral _].
  destruct (Hgeneral ["project"; "download_count"] [["x"; "1"]; ["y"; "3"]] false
              1%nat [1; 3]
              [S754_finite false 4503599627370496 (-54);
               S754_finite false 6755399441055744 (-53)])
    as (Hrows & _); [reflexivity|reflexivity|by vm_compute|exact Hrows].
Defined.

(** ** [tabulate]: the first loop nest *)

Lemma column_max_snoc measure (rows : Rows) row i :
  column_max measure (rows ++ [row]) i
  = Z.max (column_max measure rows i) (from_option measure 0 (row !! i)).
Proof.
  unfold column_max. induction rows as [|r rows IH]; simpl; [lia|].
  rewrite IH. lia.
Qed.

Lemma column_max_nonneg measure (rows : Rows) i : 0 ≤ column_max measure rows i.
Proof. unfold column_max. induction rows as [|r rows IH]; simpl; lia. Qed.

Lemma column_flag_snoc (rows : Rows) row i :
  column_flag (rows ++ [row]) i
  = column_flag rows i || from_option right_cell false (row !! i).
Proof.
  unfold column_flag. rewrite existsb_app. simpl. by rewrite orb_false_r.
Qed.

Lemma display_digit item n :
  Py.isdigit item = true → Py.int item = Ok n → display item = Py.format_thousands n.
Proof.
  unfold display, Py.int. intros ->. by destruct (Py.int_literal item); intros [= ->].
Qed.

Lemma display_other item : Py.isdigit item = false → display item = item.
Proof. unfold display. by intros ->. Qed.

Lemma set_cell_middle (l1 l2 : Rows) r1 r2 x v i j :
  i = length l1 → j = length r1 →
  set_cell (l1 ++ (r1 ++ x :: r2) :: l2) i j v = Ok (l1 ++ (r1 ++ v :: r2) :: l2).
Proof.
  intros -> ->. unfold set_cell, Py.getitem, Py.setitem.
  rewrite list_lookup_middle by done. simpl.
  rewrite decide_True by (rewrite length_app; simpl; lia). simpl.
  rewrite decide_True by (rewrite length_app; simpl; lia).
  by rewrite !insert_middle.
Qed.

Lemma measure_cell_measured n rows done pre x post later right_align st st' :
  rows = done ++ (pre ++ x :: post) :: later →
  right_align !! length done = Some 0%nat →
  measured n rows done pre st →
  measure_cell right_align (length done) (length pre) x st = Ok st' →
  measured n rows done (pre ++ [x]) st'.
Proof.
  intros Hrows Hra [Hst Hwl Hw Hf] Hcell.
  destruct Hst as (post' & later' & Hrows' & Hst).
  assert (post' = x :: post ∧ later' = later) as [-> ->].
  { rewrite Hrows in Hrows'. apply app_inv_head in Hrows'.
    injection Hrows' as Hrow ->. by apply app_inv_head in Hrow as ->. }
  destruct Hf as (flags & Hfl & Hfn & Hf).
  unfold measure_cell in Hcell.
  apply bind_Ok in Hcell as (st1 & Hfirst & Hcell).
  apply bind_Ok in Hcell as (width & Hwidth%getitem_Ok & Hcell).
  (* the first statement: the rewriting and the flag *)
  assert (Hst1 :
    state_rows st1 = (map display <$> done) ++ ((display <$> pre ++ [x]) ++ post) :: later
    ∧ column_widths st1 = column_widths st
    ∧ flag_lists st1
      = [if right_cell x then <[length pre := true]> flags else flags]
    ∧ (right_cell x = true → length pre < length flags)%nat).
  { assert (Hset : ∀ fl', set_flag right_align (flag_lists st) (length done) (length pre)
                          = Ok fl' →
              fl' = [<[length pre := true]> flags] ∧ (length pre < length flags)%nat).
    { unfold set_flag. rewrite Hfl. intros fl' Hgo.
      apply bind_Ok in Hgo as (a & Ha%getitem_Ok & Hgo). rewrite Hra in Ha.
      injection Ha as <-. simpl in Hgo.
      apply bind_Ok in Hgo as (fl2 & (? & ->)%setitem_Ok & Hgo).
      by apply setitem_Ok in Hgo as (_ & ->). }
    unfold right_cell. destruct (Py.isdigit x) eqn:Hdig; simpl.
    - apply bind_Ok in Hfirst as (v & Hv & Hfirst).
      apply bind_Ok in Hfirst as (rows1 & Hrows1 & Hfirst).
      apply bind_Ok in Hfirst as (fl1 & Hfl1 & Hfirst).
      injection Hfirst as <-. simpl.
      destruct (Hset _ Hfl1) as [-> Hlt]. split; [|done].
      unfold set_cell in Hrows1. rewrite Hst in Hrows1.
      apply bind_Ok in Hrows1 as (row & Hrow%getitem_Ok & Hrows1).
      rewrite list_lookup_middle in Hrow by (by rewrite length_fmap).
      injection Hrow as <-.
      apply bind_Ok in Hrows1 as (row1 & (_ & ->)%setitem_Ok & Hrows1).
      apply setitem_Ok in Hrows1 as (_ & ->).
      rewrite (insert_middle (display <$> pre)) by (by rewrite length_fmap).
      rewrite insert_middle by (by rewrite length_fmap).
      rewrite fmap_app, <- app_assoc. simpl.
      by rewrite (display_digit x v).
    - rewrite fmap_app, <- app_assoc. simpl. rewrite (display_other x Hdig).
      destruct (Py.endswith_char x "%") eqn:Hpct.
      + apply bind_Ok in Hfirst as (fl1 & Hfl1 & Hfirst).
        injection Hfirst as <-. simpl. by destruct (Hset _ Hfl1) as [-> Hlt].
      + injection Hfirst as <-. by rewrite Hfl. }
  destruct Hst1 as (Hrows1 & Hw1 & Hfl1 & Hflt).
  rewrite Hw1 in Hwidth. rewrite Hw1 in Hcell.
  pose proof (lookup_lt_Some _ _ _ Hwidth) as Hlt. rewrite Hwl in Hlt.
  assert (Hwidths :
    length (column_widths st') = n
    ∧ state_rows st' = state_rows st1 ∧ flag_lists st' = flag_lists st1
    ∧ column_widths st'
      = if Py.len x >? width then <[length pre := Py.len x]> (column_widths st)
        else column_widths st).
  { destruct (Py.len x >? width).
    - apply bind_Ok in Hcell as (ws & (_ & ->)%setitem_Ok & Hcell).
      injection Hcell as <-. simpl. by rewrite length_insert.
    - injection Hcell as <-. by rewrite Hw1. }
  destruct Hwidths as (Hwl' & Hrows2 & Hfl' & Hw').
  split.
  - exists post, later. split; [by rewrite <- app_assoc|]. by rewrite Hrows2, Hrows1.
  - done.
  - intros j Hj. rewrite column_max_snoc, lookup_snoc_cell.
    rewrite Hw'.
    pose proof (Hw j Hj) as Hwj. rewrite column_max_snoc in Hwj.
    case_decide as Hjp.
    + subst j. rewrite (lookup_ge_None_2 pre) in Hwj by lia. simpl in *.
      rewrite Hwj in Hwidth. injection Hwidth as <-.
      destruct (Z.gtb_spec (Py.len x) (column_max Py.len done (length pre) `max` 0)).
      * rewrite list_lookup_insert_eq by lia. f_equal. lia.
      * rewrite Hwj. f_equal. pose proof (column_max_nonneg Py.len done (length pre)). lia.
    + destruct (Py.len x >? width); [rewrite list_lookup_insert_ne by done|]; done.
  - exists (if right_cell x then <[length pre := true]> flags else flags).
    split; [by rewrite Hfl', Hfl1|]. split.
    { destruct (right_cell x); [by rewrite length_insert|done]. }
    intros j Hj. rewrite column_flag_snoc, lookup_snoc_cell.
    rewrite <- Hfn in Hj. pose proof (Hf j ltac:(lia)) as Hfj.
    rewrite column_flag_snoc in Hfj.
    case_decide as Hjp.
    + subst j. rewrite (lookup_ge_None_2 pre) in Hfj by lia. simpl in *.
      rewrite orb_false_r in Hfj.
      destruct (right_cell x).
      * rewrite list_lookup_insert_eq by lia. by rewrite orb_true_r.
      * by rewrite orb_false_r.
    + destruct (right_cell x); [rewrite list_lookup_insert_ne by done|]; done.
Qed.

Lemma measure_cell_succeeds n rows done pre x post later right_align st :
  rows = done ++ (pre ++ x :: post) :: later →
  right_align !! length done = Some 0%nat →
  measured n rows done pre st →
  (length pre < n)%nat → readable_cell x →
  ∃ st', measure_cell right_align (length done) (length pre) x st = Ok st'.
Proof.
  intros Hrows Hra [Hst Hwl Hw Hf] Hlt Hread.
  destruct Hst as (post' & later' & Hrows' & Hst).
  assert (post' = x :: post ∧ later' = later) as [-> ->].
  { rewrite Hrows in Hrows'. apply app_inv_head in Hrows'.
    injection Hrows' as Hrow ->. by apply app_inv_head in Hrow as ->. }
  destruct Hf as (flags & Hfl & Hfn & Hf).
  assert (Hset : set_flag right_align (flag_lists st) (length done) (length pre)
                 = Ok [<[length pre := true]> flags]).
  { unfold set_flag, Py.getitem, Py.setitem. rewrite Hra, Hfl. simpl.
    by rewrite decide_True by lia. }
  assert (Hwidths : ∀ rows1 flags1,
            ∃ st',
              (width ← Py.getitem (column_widths st) (length pre);
               if Py.len x >? width then
                 column_widths ← Py.setitem (column_widths st) (length pre) (Py.len x);
                 Ok (TabulateState rows1 column_widths flags1)
               else Ok (TabulateState rows1 (column_widths st) flags1)) = Ok st').
  { intros rows1 flags1. unfold Py.getitem, Py.setitem.
    rewrite Hw by done. simpl. rewrite decide_True by lia.
    destruct (_ >? _); simpl; eauto. }
  unfold measure_cell. destruct (Py.isdigit x) eqn:Hdig.
  - destruct (Hread Hdig) as [v Hv]. unfold Py.int. rewrite Hv. simpl.
    rewrite Hst, set_cell_middle by (by rewrite length_fmap). simpl.
    rewrite Hset. simpl. apply Hwidths.
  - destruct (Py.endswith_char x "%").
    + rewrite Hset. simpl. apply Hwidths.
    + simpl. destruct st as [rows0 ws0 fl0]. apply Hwidths.
Qed.

Lemma measured_start n rows done row later st :
  rows = done ++ row :: later →
  measured_rows_done n rows done st → measured n rows done [] st.
Proof.
  intros Hrows [(later' & Hl & Hst) Hwl Hw (flags & Hfl & Hfn & Hf)].
  assert (later' = row :: later) as -> by (by rewrite Hrows in Hl; apply app_inv_head in Hl).
  split; [by exists row, later|done| |].
  - intros j Hj. rewrite column_max_snoc, Hw by done. simpl.
    f_equal. pose proof (column_max_nonneg Py.len done j). lia.
  - exists flags. split; [done|]. split; [done|]. intros j Hj.
    rewrite column_flag_snoc, Hf by done. simpl. by rewrite orb_false_r.
Qed.

Lemma measured_finish n rows done row later st :
  rows = done ++ row :: later →
  measured n rows done row st → measured_rows_done n rows (done ++ [row]) st.
Proof.
  intros Hrows [(post & later' & Hrows' & Hst) Hwl Hw Hf].
  assert (post = [] ∧ later' = later) as [-> ->].
  { rewrite Hrows in Hrows'. apply app_inv_head in Hrows'.
    injection Hrows' as Hrow ->. split; [|done].
    rewrite <- (app_nil_r row) in Hrow at 1. by apply app_inv_head in Hrow. }
  rewrite app_nil_r in Hst.
  split; [|done|done|done].
  exists later. rewrite <- app_assoc. split; [done|]. by rewrite fmap_app, <- app_assoc.
Qed.

Lemma measure_row n rows done row later right_align st st' :
  rows = done ++ row :: later →
  right_align !! length done = Some 0%nat →
  measured_rows_done n rows done st →
  for_each (measure_cell right_align (length done)) 0 row st = Ok st' →
  measured_rows_done n rows (done ++ [row]) st'.
Proof.
  intros Hrows Hra Hdone Hrun. eapply measured_finish; [done|].
  eapply (for_each_invariant _ (measured n rows done)); [|by eapply measured_start|done].
  intros pre x post st1 st2 Hrow Hpre Hcell.
  eapply measure_cell_measured; [|done|done|done]. by rewrite Hrows, Hrow.
Qed.

(** The state after the first loop nest: every cell rewritten for
    display; per column, the longest cell as it was passed in and whether
    some cell asked for right alignment. *)
Lemma measure_Ok rows st :
  measure rows = Ok st →
  ∃ header flags,
    rows !! 0%nat = Some header
    ∧ state_rows st = map display <$> rows
    ∧ flag_lists st = [flags]
    ∧ length (column_widths st) = length header
    ∧ ∀ j, (j < length header)%nat →
        column_widths st !! j = Some (column_max Py.len rows j)
        ∧ flags !! j = Some (column_flag rows j).
Proof.
  unfold measure. intros (header & Hheader%getitem_Ok & Hrun)%bind_Ok.
  exists header.
  assert (Hend : measured_rows_done (length header) rows rows st).
  { eapply (for_each_invariant _ (measured_rows_done (length header) rows)); [| |done].
    - intros done row later st1 st2 Hrows Hdone Hrow.
      eapply measure_row; [done| |done|exact Hrow].
      apply lookup_replicate_2. rewrite Hrows, length_app. simpl. lia.
    - split; simpl.
      + by exists rows.
      + by rewrite length_replicate.
      + intros j Hj. by rewrite lookup_replicate_2.
      + eexists. split; [done|]. split; [by rewrite length_replicate|].
        intros j Hj. by rewrite lookup_replicate_2. }
  destruct Hend as [(later & Hl & Hst) Hwl Hw (flags & Hfl & Hfn & Hf)].
  assert (later = []) as ->.
  { rewrite <- (app_nil_r rows) in Hl at 1. by apply app_inv_head in Hl. }
  rewrite app_nil_r in Hst. exists flags. repeat split; auto.
Qed.

Lemma measure_total rows header :
  rows !! 0%nat = Some header →
  Forall (fun row => (length row ≤ length header)%nat) rows →
  Forall (Forall readable_cell) rows →
  ∃ st, measure rows = Ok st.
Proof.
  intros Hhead Hlen Hread. unfold measure, Py.getitem. rewrite Hhead. simpl.
  edestruct (for_each_total
    (fun r row => for_each (measure_cell (replicate (length rows) 0%nat) r) 0 row)
    (measured_rows_done (length header) rows) rows) as (st & Hst & _); [| |by eauto].
  - intros done row later st Hrows Hdone.
    assert (Hra : replicate (length rows) 0%nat !! length done = Some 0%nat).
    { apply lookup_replicate_2. rewrite Hrows, length_app. simpl. lia. }
    edestruct (for_each_total (measure_cell (replicate (length rows) 0%nat) (length done))
                 (measured (length header) rows done) row) as (st' & Hrun & Hst');
      [|by eapply measured_start|].
    + intros pre x post st1 Hrow Hpre.
      edestruct (measure_cell_succeeds (length header) rows done pre x post later)
        as (st2 & Hst2); [by rewrite Hrows, Hrow|done|done| | |].
      * rewrite Forall_forall in Hlen. specialize (Hlen row).
        rewrite Hrows in Hlen. rewrite Hrow, length_app in Hlen. simpl in Hlen.
        specialize (Hlen ltac:(set_solver)). lia.
      * rewrite Forall_forall in Hread. specialize (Hread row).
        rewrite Hrows in Hread. specialize (Hread ltac:(set_solver)).
        rewrite Forall_forall in Hread. apply Hread. rewrite Hrow. set_solver.
      * exists st2. split; [done|].
        eapply measure_cell_measured; [|done|done|done]. by rewrite Hrows, Hrow.
    + exists st'. split; [done|]. by eapply measured_finish.
  - split; simpl.
    + by exists rows.
    + by rewrite length_replicate.
    + intros j Hj. by rewrite lookup_replicate_2.
    + eexists. split; [done|]. split; [by rewrite length_replicate|].
      intros j Hj. by rewrite lookup_replicate_2.
Qed.

(** ** [tabulate]: the rendering *)

Lemma for_each_append {A} (body : nat → A → string → result string)
    (f : nat → A → string) l t t' :
  (∀ pre x post t t',
     l = pre ++ x :: post → body (length pre) x t = Ok t' →
     t' = t +:+ f (length pre) x) →
  for_each body 0 l t = Ok t' → t' = t +:+ concat_text (imap f l).
Proof.
  intros Hbody.
  apply (for_each_invariant body (fun pre s => s = t +:+ concat_text (imap f pre))).
  - intros pre x post s s' Hl -> Hs. rewrite (Hbody _ _ _ _ _ Hl Hs).
    rewrite imap_app, concat_text_app, app_assoc_string. simpl.
    by rewrite Nat.add_0_r, app_nil_r_string.
  - simpl. by rewrite app_nil_r_string.
Qed.

Lemma get_flag_Ok m flags r i b :
  get_flag (replicate m 0%nat) [flags] r i = Ok b → flags !! i = Some b.
Proof.
  unfold get_flag. intros (a & Ha%getitem_Ok & Hgo)%bind_Ok.
  apply lookup_replicate in Ha as [-> _].
  apply bind_Ok in Hgo as (fl & Hfl%getitem_Ok & Hgo). injection Hfl as <-.
  by apply getitem_Ok.
Qed.

(** The text [tabulate] returns: data cells are aligned by the flag of
    their column. *)
Lemma tabulate_Ok_text rows markdown out :
  tabulate rows markdown = Ok out →
  ∃ headers data,
    map display <$> rows = headers :: data
    ∧ data ≠ []
    ∧ out = tabulate_text rows markdown headers data.
Proof.
  unfold tabulate. intros (st & Hm & Hout)%bind_Ok.
  apply measure_Ok in Hm as (header & flags & Hhead & Hrows & Hflags & Hwl & Hcols).
  rewrite Hrows, Hflags in Hout.
  destruct rows as [|header' rest]; [done|]. injection Hhead as ->.
  rewrite fmap_cons in Hout.
  exists (display <$> header), (map display <$> rest). split; [done|].
  apply bind_Ok in Hout as (t1 & Ht1 & Hout).
  apply bind_Ok in Hout as (first & Hfirst%getitem_Ok & Hout).
  apply bind_Ok in Hout as (t2 & Ht2 & Hout).
  split; [by destruct rest|].
  assert (Hwidth : ∀ i w, column_widths st !! i = Some w →
            (i < length header)%nat ∧ w = column_max Py.len (header :: rest) i).
  { intros i w Hi. pose proof (lookup_lt_Some _ _ _ Hi) as Hlt. rewrite Hwl in Hlt.
    destruct (Hcols i Hlt) as [Hw _]. rewrite Hw in Hi. by injection Hi as <-. }
  assert (Hflag : ∀ r i b,
            (i < length header)%nat →
            get_flag (replicate (length (header :: rest)) 0%nat) [flags] r i = Ok b →
            b = column_flag (header :: rest) i).
  { intros r i b Hi Hb%get_flag_Ok. destruct (Hcols i Hi) as [_ Hf].
    rewrite Hf in Hb. by injection Hb as <-. }
  apply (for_each_append _
           (fun i => header_cell_text (column_max Py.len (header :: rest) i))) in Ht1.
  2:{ intros pre x post t t' _ (w & Hw%getitem_Ok & Ht)%bind_Ok.
      apply Hwidth in Hw as [_ ->]. by injection Ht as <-. }
  apply (for_each_append _
           (fun (_ : nat) i =>
              separator_cell_text (column_max Py.len (header :: rest) i)
                (column_flag (header :: rest) i) markdown)) in Ht2.
  2:{ intros pre i post t t' _ (w & Hw%getitem_Ok & Ht)%bind_Ok.
      apply Hwidth in Hw as [Hi ->].
      apply bind_Ok in Ht as (b & Hb & Ht). apply Hflag in Hb as ->; [|done].
      unfold separator_cell_text.
      destruct (column_flag (header :: rest) i && markdown);
        injection Ht as <-; by rewrite app_assoc_string. }
  apply (for_each_append _
           (fun (_ : nat) row =>
              concat_text (imap (fun i => data_cell_text
                                   (column_max Py.len (header :: rest) i)
                                   (column_flag (header :: rest) i)) row)
              +:+ "|" +:+ Py.nl)) in Hout.
  2:{ intros pre row post t t' _ (t3 & Ht3 & Ht)%bind_Ok. injection Ht as <-.
      apply (for_each_append _
               (fun i => data_cell_text (column_max Py.len (header :: rest) i)
                           (column_flag (header :: rest) i))) in Ht3.
      { rewrite Ht3. by rewrite app_assoc_string. }
      intros pre' x post' s s' _ (w & Hw%getitem_Ok & Hs)%bind_Ok.
      apply Hwidth in Hw as [Hi ->].
      apply bind_Ok in Hs as (b & Hb & Hs). apply Hflag in Hb as ->; [|done].
      unfold data_cell_text.
      destruct (column_flag (header :: rest) (length pre'));
        injection Hs as <-; by rewrite !app_assoc_string. }
  rewrite imap_ignore_index in Ht2. rewrite imap_ignore_index in Hout.
  unfold tabulate_text. subst out t2 t1.
  assert (Hd : default [] (head (map display <$> rest)) = first).
  { destruct rest; [done|]. simpl in *. by injection Hfirst as <-. }
  rewrite Hd. by rewrite !app_assoc_string.
Qed.

(** [tabulate] returns a text for every renderable table. *)
Lemma tabulate_total rows markdown :
  renderable rows → ∃ out, tabulate rows markdown = Ok out.
Proof.
  intros (header & first & data & -> & Hlen & Hread).
  destruct (measure_total (header :: first :: data) header) as (st & Hst); [done..|].
  unfold tabulate. rewrite Hst. cbn [mbind result_bind].
  apply measure_Ok in Hst as (header' & flags & [= <-] & Hrows & Hflags & Hwl & Hcols).
  rewrite Hrows, Hflags. rewrite !fmap_cons.
  assert (Hwidth : ∀ i, (i < length header)%nat →
            ∃ w, Py.getitem (column_widths st) i = Ok w).
  { intros i Hi. destruct (Hcols i Hi) as [Hw _]. unfold Py.getitem. rewrite Hw. eauto. }
  assert (Hflag : ∀ r i, (r < length (header :: first :: data))%nat → (i < length header)%nat →
            ∃ b, get_flag (replicate (length (header :: first :: data)) 0%nat) [flags] r i = Ok b).
  { intros r i Hr Hi. destruct (Hcols i Hi) as [_ Hf].
    unfold get_flag, Py.getitem. rewrite lookup_replicate_2 by done.
    cbn [mbind result_bind lookup list_lookup]. rewrite Hf. eauto. }
  apply Forall_cons in Hlen as [_ Hlen]. apply Forall_cons in Hlen as [Hfirst Hdata].
  edestruct (for_each_cells_total (render_header_cell (column_widths st))
               (display <$> header)) as (t1 & ->).
  { intros i x t Hi%lookup_lt_Some. rewrite length_fmap in Hi.
    unfold render_header_cell. destruct (Hwidth i Hi) as (w & ->).
    cbn [mbind result_bind]. eauto. }
  cbn [mbind result_bind Py.getitem lookup list_lookup].
  edestruct (for_each_cells_total
               (render_separator (column_widths st)
                  (replicate (length (header :: first :: data)) 0%nat) [flags] markdown)
               (seq 0 (length (display <$> first)))) as (t2 & ->).
  { intros i x t Hi. apply lookup_seq in Hi as [Hx Hi]. simpl in Hx. subst x.
    rewrite length_fmap in Hi.
    unfold render_separator. destruct (Hwidth i ltac:(lia)) as (w & ->).
    cbn [mbind result_bind].
    destruct (Hflag 0%nat i ltac:(simpl; lia) ltac:(lia)) as (b & ->).
    cbn [mbind result_bind]. destruct (b && markdown); eauto. }
  cbn [mbind result_bind].
  apply for_each_cells_total. intros r row t Hr.
  assert (Hrow : (length row ≤ length header)%nat ∧ (r < length (header :: first :: data))%nat).
  { pose proof (lookup_lt_Some _ _ _ Hr) as Hlt. simpl in Hlt.
    rewrite length_fmap in Hlt. split; [|simpl; lia].
    change (map display first :: (map display <$> data))
      with (map display <$> (first :: data)) in Hr.
    apply list_lookup_fmap_Some in Hr as (row0 & -> & Hr0). rewrite length_map.
    assert (Hin : row0 ∈ first :: data) by (by eapply list_elem_of_lookup_2).
    apply elem_of_cons in Hin as [->|Hin]; [done|].
    rewrite Forall_forall in Hdata. by apply Hdata. }
  destruct Hrow as [Hrowlen Hrlt].
  edestruct (for_each_cells_total
               (render_cell (column_widths st)
                  (replicate (length (header :: first :: data)) 0%nat) [flags] r) row) as (t3 & ->).
  { intros i x s Hi%lookup_lt_Some. unfold render_cell.
    destruct (Hwidth i ltac:(lia)) as (w & ->). cbn [mbind result_bind].
    destruct (Hflag r i ltac:(lia) ltac:(lia)) as (b & ->). cbn [mbind result_bind].
    destruct b; eauto. }
  cbn [mbind result_bind]. eauto.
Qed.

(** C10. In [tabulate] the alignment belongs to the column, not to the
    cell.  Whenever [tabulate] returns a text, every data cell of column
    [i] is rendered with the flag [column_flag rows i], which is set as
    soon as some cell of that column, in any row and the header included,
    is digit-only or ends in a percent sign; with the flag set, the cell
    is padded on the left, whatever its own text.  [tabulate] does return
    a text for every renderable table. *)
Theorem tabulate_aligns_by_column rows markdown :
  (renderable rows → ∃ out, tabulate rows markdown = Ok out)
  ∧ (∀ out,
       tabulate rows markdown = Ok out →
       ∃ headers data,
         map display <$> rows = headers :: data
         ∧ data ≠ []
         ∧ out = tabulate_text rows markdown headers data)
  ∧ (∀ i width item,
       column_flag rows i = true →
       data_cell_text width (column_flag rows i) item
       = "| " +:+ Py.repeat " " (width - Py.len item) +:+ item +:+ " ").
Proof.
  split; [apply tabulate_total|]. split; [apply tabulate_Ok_text|].
  intros i width item Hflag. unfold data_cell_text. by rewrite Hflag.
Qed.

Lemma tabulate_aligns_by_column_witness :
  (∃ out, tabulate [["name"; "count"]; ["a"; "12"]; ["b"; "n/a"]] false = Ok out)
  ∧ (∃ headers data,
       map display <$> [["name"; "count"]; ["a"; "12"]; ["b"; "n/a"]] = headers :: data
       ∧ data ≠ []
       ∧ Sample.lines
           ["| name | count |"; "| ---- | ----- |"; "| a    |    12 |";
            "| b    |   n/a |"; EmptyString]
         = tabulate_text [["name"; "count"]; ["a"; "12"]; ["b"; "n/a"]] false headers data)
  ∧ data_cell_text 5 (column_flag [["name"; "count"]; ["a"; "12"]; ["b"; "n/a"]] 1) "n/a"
    = "|   n/a ".
Proof.
  destruct (tabulate_aligns_by_column [["name"; "count"]; ["a"; "12"]; ["b"; "n/a"]] false)
    as (Htotal & Htext & Hright).
  split; [|split].
  - apply Htotal. exists ["name"; "count"], ["a"; "12"], [["b"; "n/a"]].
    split; [reflexivity|]. split.
    + repeat constructor.
    + repeat constructor; intros Hdigit; vm_compute in Hdigit;
        first [discriminate | by eexists].
  - apply Htext. by vm_compute.
  - apply Hright. by vm_compute.
Defined.

(** C2 (the code departs from the claim).  For the table with header [n]
    and the one cell [1234567], the column is measured at 7, the length
    of the cell as it was passed in, while the cell is shown as
    [1,234,567], of length 9: the width is taken from the text before
    the thousands separators are inserted, and the row overflows. *)
Theorem tabulate_width_before_separators :
  measure [["n"]; ["1234567"]]
  = Ok (TabulateState [["n"]; ["1,234,567"]] [7] [[true]])
  ∧ column_max (fun item => Py.len (display item)) [["n"]; ["1234567"]] 0 = 9
  ∧ tabulate [["n"]; ["1234567"]] false
    = Ok (Sample.lines ["| n       |"; "| ------- |"; "| 1,234,567 |"; EmptyString]).
Proof. by vm_compute. Qed.

(** ** The date functions, further *)

Lemma int_raises s e : Py.int s = Raise e → e = Py.invalid_literal.
Proof. unfold Py.int. destruct (Py.int_literal s); congruence. Qed.

Lemma mapM_int_raises l e : mapM Py.int l = Raise e → e = Py.invalid_literal.
Proof.
  induction l as [|s l IH]; [done|]. rewrite mapM_cons.
  intros [He|(n & _ & [He|(k & _ & He)]%bind_Raise)]%bind_Raise; [|by apply IH|done].
  by eapply int_raises.
Qed.

Lemma mapM_length {A B} (f : A → result B) l k : mapM f l = Ok k → length k = length l.
Proof.
  revert k. induction l as [|x l IH]; intros k; [by intros [= <-]|].
  rewrite mapM_cons. intros (y & _ & (k' & Hk' & [= <-])%bind_Ok)%bind_Ok.
  simpl. by rewrite (IH k').
Qed.

Lemma new_date_raises y m d e :
  Calendar.new_date y m d = Raise e → (∃ msg, e = ValueError msg) ∨ e = OverflowError.
Proof. unfold Calendar.new_date. repeat case_match; intros; simplify_eq; eauto. Qed.

Lemma monthrange_ndays_raises y m e :
  Calendar.monthrange_ndays y m = Raise e → ∃ msg, e = ValueError msg.
Proof. unfold Calendar.monthrange_ndays. case_match; intros; simplify_eq; eauto. Qed.

Lemma month_ends_raises s e :
  month_ends s = Raise e → (∃ msg, e = ValueError msg) ∨ e = OverflowError.
Proof.
  unfold month_ends. intros [He|(ints & _ & He)]%bind_Raise.
  { apply mapM_int_raises in He as ->. left. by eexists. }
  destruct ints as [|y [|m [|]]]; try (simplify_eq; left; by eexists).
  apply bind_Raise in He as [He|(first & _ & He)]; [by eapply new_date_raises|].
  apply bind_Raise in He as [He|(n & _ & He)].
  { left. by eapply monthrange_ndays_raises. }
  apply bind_Raise in He as [He|(last & _ & He)]; [by eapply new_date_raises|done].
Qed.

Lemma try_except_raises {A} (body : result A) classes handler e :
  try_except body classes handler = Raise e →
  (body = Raise e ∧ existsb (instance_of e) classes = false) ∨ handler = Raise e.
Proof.
  unfold try_except. destruct body as [a|e']; [done|].
  destruct (existsb (instance_of e') classes) eqn:Hex; [by right|].
  intros [= ->]. by left.
Qed.

Lemma normalize_dates_raises_overflow start_date end_date e :
  normalize_dates start_date end_date = Raise e → e = OverflowError.
Proof.
  unfold normalize_dates. intros [He|(s & _ & He)]%bind_Raise.
  - apply try_except_raises in He as [[He Hex]|He]; [|done].
    destruct (month_ends start_date) as [[a b]|e'] eqn:Hm; [done|].
    injection He as ->. by apply month_ends_raises in Hm as [[msg ->]| ->].
  - apply bind_Raise in He as [He|(x & _ & He)]; [|done].
    apply try_except_raises in He as [[He Hex]|He]; [|done].
    destruct (month_ends end_date) as [[a b]|e'] eqn:Hm; [done|].
    injection He as ->. by apply month_ends_raises in Hm as [[msg ->]| ->].
Qed.

Lemma decimal_value_bounds c d : Py.decimal_value c = Some d → 0 ≤ d ≤ 9.
Proof.
  unfold Py.decimal_value. case_match eqn:E; [|done]. intros [= <-].
  apply andb_true_iff in E as [?%Z.leb_le ?%Z.leb_le]. lia.
Qed.

Lemma int_digits_nonneg s acc n : Py.int_digits acc s = Some n → 0 ≤ acc → 0 ≤ n.
Proof.
  revert acc n. induction s as [s IH] using (induction_ltof1 _ String.length).
  unfold ltof in IH. intros acc n. destruct s as [|c s]; simpl.
  { intros [= <-]. done. }
  destruct (Py.decimal_value c) as [d|] eqn:Hc.
  { apply decimal_value_bounds in Hc. intros Hn Hacc.
    apply (IH s ltac:(simpl; lia) _ _ Hn). lia. }
  destruct (Ascii.eqb c "_").
  - destruct s as [|c2 s]; [done|]. destruct (Py.decimal_value c2) as [d|] eqn:Hc2; [|done].
    apply decimal_value_bounds in Hc2. intros Hn Hacc.
    apply (IH s ltac:(simpl; lia) _ _ Hn). lia.
  - case_match; [|done]. by intros [= <-].
Qed.

Lemma int_unsigned_nonneg s n : Py.int_unsigned s = Some n → 0 ≤ n.
Proof.
  destruct s as [|c s]; [done|]. simpl.
  destruct (Py.decimal_value c) as [d|] eqn:Hc; [|done].
  apply decimal_value_bounds in Hc. intros Hn.
  apply (int_digits_nonneg _ _ _ Hn). lia.
Qed.

Lemma lstrip_int_split s :
  ∃ ws, s = ws +:+ Py.lstrip_int s ∧ Py.all_chars Py.int_space ws = true.
Proof.
  induction s as [|c s (ws & Hs & Hws)]; [by exists EmptyString|].
  simpl. destruct (Py.int_space c) eqn:Hc.
  - exists (String c ws). simpl. rewrite Hc, Hws. split; [by f_equal|done].
  - by exists EmptyString.
Qed.

(** The text of a negative integer: white space, then the sign. *)
Lemma int_literal_negative s n :
  Py.int_literal s = Some n → n < 0 →
  ∃ ws t, s = ws +:+ String "-" t ∧ Py.all_chars Py.int_space ws = true.
Proof.
  unfold Py.int_literal. destruct (lstrip_int_split s) as (ws & Hs & Hws).
  destruct (Py.lstrip_int s) as [|c r]; [done|].
  destruct (Ascii.eqb_spec c "-") as [->|Hc].
  { intros _ _. by exists ws, r. }
  intros Hn Hneg. exfalso.
  destruct c as [[] [] [] [] [] [] [] []]; try done;
    apply int_unsigned_nonneg in Hn; lia.
Qed.

Lemma int_space_not_hyphen c : Py.int_space c = true → negb (Ascii.eqb c "-") = true.
Proof. by destruct c as [[] [] [] [] [] [] [] []]. Qed.

Lemma lstrip_int_spaces ws :
  Py.all_chars Py.int_space ws = true → Py.lstrip_int ws = EmptyString.
Proof.
  induction ws as [|c ws IH]; [done|]. simpl. intros [Hc Hws]%andb_true_iff.
  rewrite Hc. by apply IH.
Qed.

Lemma int_spaces ws :
  Py.all_chars Py.int_space ws = true → Py.int ws = Raise Py.invalid_literal.
Proof. intros Hws. unfold Py.int, Py.int_literal. by rewrite lstrip_int_spaces. Qed.

Lemma split_nonempty sep s : ∃ p ps, Py.split sep s = p :: ps.
Proof.
  induction s as [|c s (p & ps & IH)]; simpl; [by eexists _, _|].
  destruct (Ascii.eqb c sep); [by eexists _, _|]. rewrite IH. by eexists _, _.
Qed.

(** A text that [int] reads as a negative number is not the text of a
    month: the part before the sign is not a number. *)
Lemma month_ends_negative_literal s n :
  Py.int_literal s = Some n → n < 0 → month_ends s = Raise Py.invalid_literal.
Proof.
  intros Hn Hneg. destruct (int_literal_negative s n Hn Hneg) as (ws & t & -> & Hws).
  unfold month_ends. rewrite split_app by (eapply all_chars_impl, Hws; apply int_space_not_hyphen).
  cbn [take]. rewrite mapM_cons, int_spaces by done. done.
Qed.

Lemma month_ends_three_parts s p1 p2 p3 rest :
  Py.split "-" s = p1 :: p2 :: p3 :: rest → ∃ msg, month_ends s = Raise (ValueError msg).
Proof.
  intros Hs. unfold month_ends. rewrite Hs. cbn [take]. rewrite !mapM_cons.
  destruct (int_cases p1) as [[n1 ->]| ->]; [|by eexists].
  destruct (int_cases p2) as [[n2 ->]| ->]; [|by eexists].
  destruct (int_cases p3) as [[n3 ->]| ->]; [|by eexists].
  by eexists.
Qed.

Lemma not_hyphen c : Py.ord c ≠ 45 → Ascii.eqb c "-" = false.
Proof. destruct (Ascii.eqb_spec c "-") as [->|]; [|done]. by intros []. Qed.

Lemma in_range_not_hyphen lo hi c :
  48 ≤ Py.ord lo → Calendar.in_range lo hi c = true → Ascii.eqb c "-" = false.
Proof.
  unfold Calendar.in_range. intros Hlo [?%Z.leb_le _]%andb_true_iff.
  apply not_hyphen. lia.
Qed.

Lemma eqb_digit_not_hyphen d c :
  Ascii.eqb d "-" = false → Ascii.eqb c d = true → Ascii.eqb c "-" = false.
Proof. by intros Hd ->%Ascii.eqb_eq. Qed.

Lemma match_month_hyphen s m s2 :
  (m, String "-" s2) ∈ Calendar.match_month s →
  ∃ a, s = a +:+ String "-" s2
       ∧ Py.all_chars (fun c => negb (Ascii.eqb c "-")) a = true.
Proof.
  unfold Calendar.match_month.
  destruct s as [|a [|b rest]]; [by intros ?%elem_of_nil| |].
  { case_match; intros Hin; set_unfold; by destruct_or?; simplify_eq. }
  intros Hin. rewrite !elem_of_app in Hin. destruct Hin as [Hin|[Hin|Hin]].
  - case_match eqn:E; [|by apply elem_of_nil in Hin].
    apply list_elem_of_singleton in Hin. simplify_eq.
    apply andb_true_iff in E as [Ha Hb].
    exists (String a (String b EmptyString)). split; [done|]. simpl.
    rewrite (eqb_digit_not_hyphen "1" a), (in_range_not_hyphen "0" "2" b); done.
  - case_match eqn:E; [|by apply elem_of_nil in Hin].
    apply list_elem_of_singleton in Hin. simplify_eq.
    apply andb_true_iff in E as [Ha Hb].
    exists (String a (String b EmptyString)). split; [done|]. simpl.
    rewrite (eqb_digit_not_hyphen "0" a), (in_range_not_hyphen "1" "9" b); done.
  - case_match eqn:E; [|by apply elem_of_nil in Hin].
    apply list_elem_of_singleton in Hin. simplify_eq.
    exists (String a EmptyString). split; [done|]. simpl.
    rewrite (in_range_not_hyphen "1" "9" a); done.
Qed.

Lemma match_month_day_hyphen s m d r :
  Calendar.match_month_day s = Some (m, d, r) →
  ∃ a s2, s = a +:+ String "-" s2
          ∧ Py.all_chars (fun c => negb (Ascii.eqb c "-")) a = true.
Proof.
  unfold Calendar.match_month_day. intros Hh%head_Some_elem_of.
  apply list_elem_of_omap in Hh as ([m' s1] & Hm & Hd).
  destruct s1 as [|c s2]; [done|].
  destruct (Ascii.eqb_spec c "-") as [->|]; [|done].
  apply match_month_hyphen in Hm as (a & -> & Ha). by exists a, s2.
Qed.

(** The form of a text [strptime] accepts. *)
Lemma strptime_Ymd_Ok s d :
  Calendar.strptime_Ymd s = Ok d →
  ∃ y1 y2 y3 y4 s1 m dd,
    s = String y1 (String y2 (String y3 (String y4 (String "-" s1))))
    ∧ Py.isdecimal_char y1 = true ∧ Py.isdecimal_char y2 = true
    ∧ Py.isdecimal_char y3 = true ∧ Py.isdecimal_char y4 = true
    ∧ Calendar.match_month_day s1 = Some (m, dd, EmptyString).
Proof.
  unfold Calendar.strptime_Ymd.
  destruct s as [|y1 [|y2 [|y3 [|y4 [|c s1]]]]]; try done.
  case_match eqn:E; [|done].
  rewrite !andb_true_iff in E. destruct E as ((((H1 & H2) & H3) & H4) & ->%Ascii.eqb_eq).
  destruct (Calendar.match_month_day s1) as [[[m dd] r]|] eqn:Hmd; [|done].
  destruct r; [|done]. intros _. by exists y1, y2, y3, y4, s1, m, dd.
Qed.

Lemma decimal_not_hyphen c :
  Py.isdecimal_char c = true → negb (Ascii.eqb c "-") = true.
Proof. intros Hc. by destruct (decimal_char_facts c Hc) as (_ & -> & _). Qed.

(** A date in the form [%Y-%m-%d] is not the text of a month either: it
    has three parts. *)
Lemma month_ends_date s d :
  Calendar.strptime_Ymd s = Ok d → ∃ msg, month_ends s = Raise (ValueError msg).
Proof.
  intros (y1 & y2 & y3 & y4 & s1 & m & dd & -> & H1 & H2 & H3 & H4 & Hmd)%strptime_Ymd_Ok.
  apply match_month_day_hyphen in Hmd as (a & s2 & -> & Ha).
  destruct (split_nonempty "-" s2) as (p & ps & Hs2).
  apply (month_ends_three_parts _ (String y1 (String y2 (String y3 (String y4 EmptyString))))
           a p ps).
  change (String y1 (String y2 (String y3 (String y4 (String "-" (a +:+ String "-" s2))))))
    with (String y1 (String y2 (String y3 (String y4 EmptyString)))
          +:+ String "-" (a +:+ String "-" s2)).
  rewrite split_app by (simpl; by rewrite !decimal_not_hyphen).
  by rewrite split_app, Hs2.
Qed.

Lemma int_literal_digit_first c s :
  Py.isdecimal_char c = true → Py.int_literal (String c s) = Py.int_digits (Calendar.digit c) s.
Proof.
  intros Hc. destruct (decimal_char_facts c Hc) as (Hsp & _ & _ & Hv).
  unfold Py.int_literal. cbn [Py.lstrip_int]. rewrite Hsp.
  transitivity (Py.int_unsigned (String c s)).
  - destruct c as [[] [] [] [] [] [] [] []]; done.
  - cbn [Py.int_unsigned]. by rewrite Hv.
Qed.

Lemma int_digits_hyphen t acc s1 :
  Py.all_chars Py.isdecimal_char t = true →
  Py.int_digits acc (t +:+ String "-" s1) = None.
Proof.
  revert acc. induction t as [|c t IH]; intros acc; [done|].
  intros [Hc Ht]%andb_true_iff. destruct (decimal_char_facts c Hc) as (_ & _ & _ & Hv).
  cbn [String.append Py.int_digits]. rewrite Hv. by apply IH.
Qed.

(** A date in the form [%Y-%m-%d] is not an integer literal. *)
Lemma int_literal_date s d : Calendar.strptime_Ymd s = Ok d → Py.int_literal s = None.
Proof.
  intros (y1 & y2 & y3 & y4 & s1 & m & dd & -> & H1 & H2 & H3 & H4 & _)%strptime_Ymd_Ok.
  rewrite int_literal_digit_first by done.
  apply (int_digits_hyphen (String y2 (String y3 (String y4 EmptyString)))).
  simpl. by rewrite H2, H3, H4.
Qed.

Lemma validate_date_Ok s b :
  validate_date s = Ok b →
  b = true ∧ ((∃ n, Py.int_literal s = Some n ∧ n < 0) ∨ ∃ d, Calendar.strptime_Ymd s = Ok d).
Proof.
  rewrite validate_date_eq. cbn zeta.
  destruct (Py.int_literal s) as [n|] eqn:Hn.
  - destruct (Z.ltb_spec n 0).
    + intros [= <-]. split; [done|]. left. eauto.
    + destruct (Calendar.strptime_Ymd s) eqn:Hd; [|done]. intros [= <-]. eauto.
  - destruct (Calendar.strptime_Ymd s) eqn:Hd; [|done]. intros [= <-]. eauto.
Qed.

Lemma month_ends_validated s b :
  validate_date s = Ok b → ∃ msg, month_ends s = Raise (ValueError msg).
Proof.
  intros [_ [(n & Hn & Hneg)|(d & Hd)]]%validate_date_Ok.
  - eexists. by eapply month_ends_negative_literal.
  - by eapply month_ends_date.
Qed.

Lemma normalize_dates_validated start_date end_date b1 b2 :
  validate_date start_date = Ok b1 → validate_date end_date = Ok b2 →
  normalize_dates start_date end_date = Ok (start_date, end_date).
Proof.
  intros (m1 & H1)%month_ends_validated (m2 & H2)%month_ends_validated.
  unfold normalize_dates. by rewrite H1, H2.
Qed.

Lemma in_digits10 d : 0 ≤ d ≤ 9 → In d digits10.
Proof.
  intros Hd.
  assert (d = 0 ∨ d = 1 ∨ d = 2 ∨ d = 3 ∨ d = 4 ∨ d = 5 ∨ d = 6 ∨ d = 7 ∨ d = 8 ∨ d = 9)
    as Hcases by lia.
  destruct_or!; subst; simpl; tauto.
Qed.

Lemma digits2 n :
  0 ≤ n ≤ 99 → ∃ d1 d2, In d1 digits10 ∧ In d2 digits10 ∧ n = 10 * d1 + d2.
Proof.
  intros Hn. exists (n / 10), (n mod 10).
  split; [|split]; [apply in_digits10|apply in_digits10|];
    Z.to_euclidean_division_equations; lia.
Qed.

Lemma digits4 n :
  0 ≤ n ≤ 9999 →
  ∃ d1 d2 d3 d4, In d1 digits10 ∧ In d2 digits10 ∧ In d3 digits10 ∧ In d4 digits10
                 ∧ n = 1000 * d1 + 100 * d2 + 10 * d3 + d4.
Proof.
  intros Hn. exists (n / 1000), (n / 100 mod 10), (n / 10 mod 10), (n mod 10).
  repeat split; try apply in_digits10; Z.to_euclidean_division_equations; lia.
Qed.

Lemma digit_char_facts d :
  In d digits10 →
  Py.isdecimal_char (digit_char d) = true ∧ Calendar.digit (digit_char d) = d.
Proof. simpl. intros Hd. destruct_or!; subst; try done; by vm_compute. Qed.

Lemma month_day_text_all :
  forallb (fun m1 => forallb (fun m2 => forallb (fun d1 => forallb (fun d2 =>
    month_day_text_ok m1 m2 d1 d2) digits10) digits10) digits10) digits10 = true.
Proof. by vm_compute. Qed.

Lemma zero_pad_2 d1 d2 :
  In d1 digits10 → In d2 digits10 →
  Py.zero_pad 2 (10 * d1 + d2) = String (digit_char d1) (String (digit_char d2) EmptyString).
Proof.
  intros H1 H2. pose proof month_text_all as Hall.
  rewrite forallb_forall in Hall. specialize (Hall _ H1).
  rewrite forallb_forall in Hall. specialize (Hall _ H2).
  by apply String.eqb_eq in Hall.
Qed.

Lemma zero_pad_4 d1 d2 d3 d4 :
  In d1 digits10 → In d2 digits10 → In d3 digits10 → In d4 digits10 →
  Py.zero_pad 4 (1000 * d1 + 100 * d2 + 10 * d3 + d4)
  = String (digit_char d1) (String (digit_char d2)
      (String (digit_char d3) (String (digit_char d4) EmptyString))).
Proof.
  intros H1 H2 H3 H4. pose proof year_text_all as Hall.
  rewrite forallb_forall in Hall. specialize (Hall _ H1).
  rewrite forallb_forall in Hall. specialize (Hall _ H2).
  rewrite forallb_forall in Hall. specialize (Hall _ H3).
  rewrite forallb_forall in Hall. specialize (Hall _ H4).
  by apply String.eqb_eq in Hall.
Qed.

Lemma new_date_Ok y m d r :
  Calendar.new_date y m d = Ok r →
  1 ≤ y ≤ 9999 ∧ 1 ≤ m ≤ 12 ∧ 1 ≤ d ≤ month_length y m ∧ r = Calendar.Date y m d.
Proof.
  unfold Calendar.new_date. repeat case_match; try done. intros [= <-].
  repeat match goal with
    | H : negb _ = false |- _ => apply negb_false_iff in H
    | H : _ && _ = true |- _ => apply andb_true_iff in H as [? ?]
    | H : (_ <=? _) = true |- _ => apply Z.leb_le in H
    end.
  rewrite days_in_month_length in * by lia. split_and!; [lia..|done].
Qed.

Lemma real_day_spec y m d :
  real_day y m d = true ↔ 1 ≤ y ∧ 1 ≤ m ≤ 12 ∧ 1 ≤ d ≤ month_length y m.
Proof. unfold real_day. rewrite !andb_true_iff, !Z.leb_le. lia. Qed.

(** [strptime] on the text [%04d-%02d-%02d] of three numbers. *)
Lemma strptime_Ymd_date_text y m d :
  0 ≤ y ≤ 9999 → 0 ≤ m ≤ 99 → 0 ≤ d ≤ 99 →
  (real_day y m d = true → Calendar.strptime_Ymd (date_text y m d) = Ok (Calendar.Date y m d))
  ∧ (real_day y m d = false → ∃ e, Calendar.strptime_Ymd (date_text y m d) = Raise e)
  ∧ Py.int_literal (date_text y m d) = None.
Proof.
  intros Hyr Hmr Hdr.
  destruct (digits4 y Hyr) as (y1 & y2 & y3 & y4 & Hy1 & Hy2 & Hy3 & Hy4 & Hy).
  destruct (digits2 m Hmr) as (m1 & m2 & Hm1 & Hm2 & Hm).
  destruct (digits2 d Hdr) as (d1 & d2 & Hd1 & Hd2 & Hd).
  assert (Htext : date_text y m d
    = String (digit_char y1) (String (digit_char y2) (String (digit_char y3)
        (String (digit_char y4) (String "-" (month_day_text m1 m2 d1 d2)))))).
  { unfold date_text. rewrite Hy, Hm, Hd. by rewrite zero_pad_4, !zero_pad_2. }
  rewrite Htext. clear Htext.
  destruct (digit_char_facts y1 Hy1) as [Dy1 Vy1].
  destruct (digit_char_facts y2 Hy2) as [Dy2 Vy2].
  destruct (digit_char_facts y3 Hy3) as [Dy3 Vy3].
  destruct (digit_char_facts y4 Hy4) as [Dy4 Vy4].
  assert (Hint : Py.int_literal (String (digit_char y1) (String (digit_char y2)
            (String (digit_char y3) (String (digit_char y4)
               (String "-" (month_day_text m1 m2 d1 d2)))))) = None).
  { rewrite int_literal_digit_first by done.
    apply (int_digits_hyphen (String (digit_char y2) (String (digit_char y3)
             (String (digit_char y4) EmptyString)))).
    simpl. by rewrite Dy2, Dy3, Dy4. }
  cbn [Calendar.strptime_Ymd]. rewrite Dy1, Dy2, Dy3, Dy4, Vy1, Vy2, Vy3, Vy4, <- Hy.
  cbn [andb Ascii.eqb Bool.eqb].
  pose proof month_day_text_all as Hall.
  rewrite forallb_forall in Hall. specialize (Hall _ Hm1).
  rewrite forallb_forall in Hall. specialize (Hall _ Hm2).
  rewrite forallb_forall in Hall. specialize (Hall _ Hd1).
  rewrite forallb_forall in Hall. specialize (Hall _ Hd2).
  unfold month_day_text_ok in Hall. cbn zeta in Hall. rewrite <- Hm, <- Hd in Hall.
  assert (Hplausible : real_day y m d = true →
            (1 <=? m) && (m <=? 12) && (1 <=? d) && (d <=? 31) = true).
  { intros (? & ? & ?)%real_day_spec. pose proof (month_length_bounds y m).
    rewrite !andb_true_iff, !Z.leb_le. lia. }
  split; [|split; [|done]].
  - intros Hreal. specialize (Hplausible Hreal). rewrite Hplausible in Hall.
    apply real_day_spec in Hreal.
    destruct (Calendar.match_month_day (month_day_text m1 m2 d1 d2))
      as [[[m' d'] [|]]|]; try done.
    apply andb_true_iff in Hall as [Hm'%Z.eqb_eq Hd'%Z.eqb_eq]. subst m' d'.
    apply new_date_valid; lia.
  - intros Hreal.
    destruct (Calendar.match_month_day (month_day_text m1 m2 d1 d2))
      as [[[m' d'] [|]]|]; try by eexists.
    apply andb_true_iff in Hall as [[_ Hm'%Z.eqb_eq]%andb_true_iff Hd'%Z.eqb_eq]. subst m' d'.
    destruct (Calendar.new_date y m d) as [r|e] eqn:Hnew; [|by eexists].
    apply new_date_Ok in Hnew as (? & ? & ? & _).
    assert (real_day y m d = true) by (apply real_day_spec; lia). congruence.
Qed.

Lemma validate_date_date_text y m d :
  0 ≤ y ≤ 9999 → 0 ≤ m ≤ 99 → 0 ≤ d ≤ 99 →
  validate_date (date_text y m d)
  = if real_day y m d then Ok true else Raise invalid_date.
Proof.
  intros Hy Hm Hd. destruct (strptime_Ymd_date_text y m d Hy Hm Hd) as (Hyes & Hno & Hint).
  rewrite validate_date_eq, Hint. cbn zeta.
  destruct (real_day y m d).
  - by rewrite Hyes.
  - by destruct Hno as [e ->].
Qed.

Lemma date_text_first y m : yyyy_mm y m +:+ "-01" = date_text y m 1.
Proof. unfold yyyy_mm, date_text. by rewrite !app_assoc_string. Qed.

Lemma date_text_last y m d :
  yyyy_mm y m +:+ "-" +:+ Py.zero_pad 2 d = date_text y m d.
Proof. unfold yyyy_mm, date_text. by rewrite !app_assoc_string. Qed.

Lemma month_ends_integers s a b y m :
  Py.split "-" s = [a; b] → Py.int a = Ok y → Py.int b = Ok m →
  1 ≤ y ≤ 9999 → 1 ≤ m ≤ 12 →
  month_ends s = Ok (date_text y m 1, date_text y m (month_length y m)).
Proof.
  intros Hs Ha Hb Hy Hm. pose proof (month_length_bounds y m Hm).
  unfold month_ends. rewrite Hs. cbn [take mapM]. rewrite Ha, Hb.
  cbn [mbind result_bind mret result_ret].
  rewrite new_date_valid, monthrange_month_length by lia. cbn [mbind result_bind].
  by rewrite new_date_valid by lia.
Qed.

(** X1.  [month_ends] returns exactly for the texts with two parts around
    one hyphen that [int] reads as a year from 1 to 9999 and a month from
    1 to 12, in whatever form they are written; what it returns is the
    first and the last day of that month in the form [%04d-%02d-%02d]. *)
Theorem month_ends_returns_iff s r :
  month_ends s = Ok r ↔
  ∃ a b y m,
    Py.split "-" s = [a; b] ∧ Py.int a = Ok y ∧ Py.int b = Ok m
    ∧ 1 ≤ y ≤ 9999 ∧ 1 ≤ m ≤ 12
    ∧ r = (date_text y m 1, date_text y m (month_length y m)).
Proof.
  split.
  - intros Hr. pose proof Hr as Hrun. unfold month_ends in Hrun.
    destruct (Py.split "-" s) as [|a [|b [|c rest]]] eqn:Hs; cbn [take mapM] in Hrun.
    + done.
    + by destruct (Py.int a).
    + destruct (Py.int a) as [y|] eqn:Ha; [|done].
      destruct (Py.int b) as [m|] eqn:Hb; [|done].
      cbn [mbind result_bind mret result_ret] in Hrun.
      apply bind_Ok in Hrun as (first & (Hy & Hm & _)%new_date_Ok & _).
      exists a, b, y, m. split_and!; try done; try lia.
      rewrite (month_ends_integers s a b y m) in Hr by done. congruence.
    + destruct (Py.int a) as [y|]; [|done]. destruct (Py.int b) as [m|]; [|done].
      by destruct (Py.int c).
  - intros (a & b & y & m & Hs & Ha & Hb & Hy & Hm & ->).
    by apply (month_ends_integers s a b y m).
Qed.

Lemma month_ends_returns_iff_witness :
  month_ends " 2024-2" = Ok ("2024-02-01", "2024-02-29")%string.
Proof.
  apply month_ends_returns_iff. exists " 2024"%string, "2"%string, 2024, 2.
  split_and!; try reflexivity; lia.
Defined.

(** X2.  [normalize_dates] returns both bounds as they are when each is
    one [validate_date] accepts: a negative offset or a date in the form
    [%Y-%m-%d]. *)
Theorem normalize_dates_keeps_valid_bounds start_date end_date :
  validate_date start_date = Ok true → validate_date end_date = Ok true →
  normalize_dates start_date end_date = Ok (start_date, end_date).
Proof. apply normalize_dates_validated. Qed.

Lemma normalize_dates_keeps_valid_bounds_witness :
  normalize_dates "2020-01-31" "-7" = Ok ("2020-01-31", "-7")%string.
Proof. apply normalize_dates_keeps_valid_bounds; reflexivity. Defined.

(** X3.  The only exception that leaves [normalize_dates] is
    [OverflowError], and it does leave it: a start bound with a year that
    does not fit a C int and a month is passed to [date], whose
    [OverflowError] the clause [except (AttributeError, ValueError)]
    does not catch. *)
Theorem normalize_dates_overflow :
  (∀ start_date end_date e,
     normalize_dates start_date end_date = Raise e → e = OverflowError)
  ∧ (∀ y m end_date,
       2 ^ 31 ≤ y → 0 ≤ m →
       normalize_dates (Py.str y +:+ "-" +:+ Py.str m) end_date = Raise OverflowError).
Proof.
  split; [apply normalize_dates_raises_overflow|].
  intros y m end_date Hy Hm.
  assert (Hends : month_ends (Py.str y +:+ "-" +:+ Py.str m) = Raise OverflowError).
  { unfold month_ends.
    change (Py.str y +:+ "-" +:+ Py.str m)
      with (Py.zero_pad 0 y +:+ String "-" (Py.zero_pad 0 m)).
    rewrite split_app by (apply no_hyphen_zero_pad; lia).
    rewrite split_no_sep by (apply no_hyphen_zero_pad; lia).
    cbn [take mapM]. rewrite !int_zero_pad by lia. cbn [mbind result_bind mret result_ret].
    unfold Calendar.new_date, Calendar.c_int.
    destruct (Z.ltb_spec y (2 ^ 31)) as [|_]; [lia|].
    by rewrite andb_false_r. }
  unfold normalize_dates. by rewrite Hends.
Qed.

Lemma normalize_dates_overflow_witness :
  normalize_dates (Py.str 4294967296 +:+ "-" +:+ Py.str 1) "-1" = Raise OverflowError.
Proof. apply (proj2 normalize_dates_overflow); lia. Defined.

(** X4.  On the text [%04d-%02d-%02d] of a year, a month and a day,
    [validate_date] returns [True] exactly when the day exists in the
    calendar (year from 1, month from 1 to 12, day within the length of
    the month, 29 February in leap years only) and raises its
    [ValueError] otherwise; it does not ask whether the day is in the
    past. *)
Theorem validate_date_calendar_days y m d :
  0 ≤ y ≤ 9999 → 0 ≤ m ≤ 99 → 0 ≤ d ≤ 99 →
  validate_date (date_text y m d)
  = if real_day y m d then Ok true
    else Raise (ValueError "Dates must be negative integers or YYYY-MM[-DD] in the past.").
Proof. apply validate_date_date_text. Qed.

Lemma validate_date_calendar_days_witness :
  validate_date "2023-02-29"
  = Raise (ValueError "Dates must be negative integers or YYYY-MM[-DD] in the past.")
  ∧ validate_date "9999-12-31" = Ok true.
Proof.
  split.
  - apply (validate_date_calendar_days 2023 2 29); lia.
  - apply (validate_date_calendar_days 9999 12 31); lia.
Defined.

Lemma normalize_dates_month_texts s e y m y' m' :
  valid_yyyy_mm s = Some (y, m) → valid_yyyy_mm e = Some (y', m') →
  normalize_dates s e = Ok (date_text y m 1, date_text y' m' (month_length y' m'))
  ∧ s +:+ "-01" = date_text y m 1
  ∧ e +:+ "-" +:+ Py.zero_pad 2 (month_length y' m') = date_text y' m' (month_length y' m')
  ∧ validate_date (date_text y m 1) = Ok true
  ∧ validate_date (date_text y' m' (month_length y' m')) = Ok true.
Proof.
  intros (-> & Hy & Hm)%valid_yyyy_mm_text (-> & Hy' & Hm')%valid_yyyy_mm_text.
  pose proof (month_length_bounds y m Hm). pose proof (month_length_bounds y' m' Hm').
  split_and!.
  - unfold normalize_dates.
    destruct (month_ends_canonical y m Hy Hm) as (-> & _).
    destruct (month_ends_canonical y' m' Hy' Hm') as (-> & _).
    cbn [mbind result_bind try_except].
    by rewrite date_text_first, date_text_last.
  - apply date_text_first.
  - apply date_text_last.
  - rewrite validate_date_date_text by lia.
    by rewrite (proj2 (real_day_spec y m 1)) by lia.
  - rewrite validate_date_date_text by lia.
    by rewrite (proj2 (real_day_spec y' m' _)) by lia.
Qed.

(** X5.  For two valid texts YYYY-MM, [normalize_dates] returns the first
    day of the start month and the last day of the end month, and
    [validate_date] accepts both. *)
Theorem normalize_dates_months s e y m y' m' :
  valid_yyyy_mm s = Some (y, m) → valid_yyyy_mm e = Some (y', m') →
  let first := s +:+ "-01" in
  let last := e +:+ "-" +:+ Py.zero_pad 2 (month_length y' m') in
  normalize_dates s e = Ok (first, last)
  ∧ validate_date first = Ok true
  ∧ validate_date last = Ok true.
Proof.
  intros Hs He first last.
  destruct (normalize_dates_month_texts s e y m y' m' Hs He) as (Hn & Hf & Hl & Hvf & Hvl).
  subst first last. by rewrite Hf, Hl.
Qed.

Lemma normalize_dates_months_witness :
  normalize_dates "2023-12" "2024-02" = Ok ("2023-12-01", "2024-02-29")%string
  ∧ validate_date "2023-12-01" = Ok true
  ∧ validate_date "2024-02-29" = Ok true.
Proof. apply (normalize_dates_months "2023-12" "2024-02" 2023 12 2024 2); reflexivity. Defined.

(** ** The query builder, further *)

Lemma Ok_inj {A} (a b : A) : Ok a = Ok b → a = b.
Proof. congruence. Qed.

Lemma format1_start s :
  Py.format1 START_TIMESTAMP s
  = "TIMESTAMP(" +:+ Py.dquote +:+ s +:+ " 00:00:00" +:+ Py.dquote +:+ ")".
Proof. reflexivity. Qed.

Lemma format1_end s :
  Py.format1 END_TIMESTAMP s
  = "TIMESTAMP(" +:+ Py.dquote +:+ s +:+ " 23:59:59" +:+ Py.dquote +:+ ")".
Proof. reflexivity. Qed.

Lemma format1_date_add s :
  Py.format1 DATE_ADD s = "TIMESTAMP_ADD(CURRENT_TIMESTAMP(), INTERVAL " +:+ s +:+ " DAY)".
Proof. reflexivity. Qed.

Lemma absolute_range_eq first last :
  "WHERE timestamp BETWEEN " +:+ Py.format1 START_TIMESTAMP first +:+ " AND "
  +:+ Py.format1 END_TIMESTAMP last
  = absolute_range first last.
Proof.
  rewrite format1_start, format1_end. unfold absolute_range.
  by rewrite !app_assoc_string.
Qed.

Lemma relative_range_eq s e :
  "WHERE timestamp BETWEEN " +:+ Py.format1 DATE_ADD s +:+ " AND " +:+ Py.format1 DATE_ADD e
  = relative_range s e.
Proof.
  rewrite !format1_date_add. unfold relative_range. by rewrite !app_assoc_string.
Qed.

Lemma format_date_Ok date timestamp_format :
  format_date date timestamp_format
  = Ok (match Py.int_literal date with
        | Some n => Py.format1 DATE_ADD (Py.str n)
        | None => Py.format1 timestamp_format date
        end).
Proof. unfold format_date, Py.int. by destruct (Py.int_literal date). Qed.

Lemma validate_date_date s d : Calendar.strptime_Ymd s = Ok d → validate_date s = Ok true.
Proof.
  intros Hd. rewrite validate_date_eq, (int_literal_date s d Hd). cbn zeta. by rewrite Hd.
Qed.

Lemma truthy_str_date s d : Calendar.strptime_Ymd s = Ok d → truthy_str (Some s) = Some s.
Proof. by intros (y1 & y2 & y3 & y4 & s1 & m & dd & -> & _)%strptime_Ymd_Ok. Qed.

(** Two calendar days: the range check does not apply. *)
Lemma query_dates_absolute s e ds de :
  Calendar.strptime_Ymd s = Ok ds → Calendar.strptime_Ymd e = Ok de →
  query_dates (Some s) (Some e) None
  = Ok (Py.format1 START_TIMESTAMP s, Py.format1 END_TIMESTAMP e).
Proof.
  intros Hs He. unfold query_dates, or_str.
  rewrite (truthy_str_date s ds), (truthy_str_date e de) by done.
  cbn [truthy_int mbind result_bind].
  rewrite (normalize_dates_validated s e true true) by (by eapply validate_date_date).
  cbn [mbind result_bind].
  rewrite (validate_date_date s ds), (validate_date_date e de) by done.
  cbn [mbind result_bind].
  rewrite !format_date_Ok, (int_literal_date s ds), (int_literal_date e de) by done.
  unfold Py.int. by rewrite (int_literal_date s ds) by done.
Qed.

Lemma all_decimal_not_date s :
  Py.all_chars Py.isdecimal_char s = true → ∃ e, Calendar.strptime_Ymd s = Raise e.
Proof.
  intros Hs. destruct (Calendar.strptime_Ymd s) as [d|e] eqn:Hd; [|by eexists].
  apply strptime_Ymd_Ok in Hd as (y1 & y2 & y3 & y4 & s1 & m & dd & -> & _).
  cbn [Py.all_chars] in Hs.
  apply andb_true_iff in Hs as [_ Hs]. apply andb_true_iff in Hs as [_ Hs].
  apply andb_true_iff in Hs as [_ Hs]. apply andb_true_iff in Hs as [_ Hs].
  by apply andb_true_iff in Hs as [? _].
Qed.

Lemma str_all_decimal n : 0 ≤ n → Py.all_chars Py.isdecimal_char (Py.str n) = true.
Proof. intros Hn. apply (all_chars_zero_pad 0 n Hn). Qed.

Lemma str_no_hyphen n :
  0 ≤ n → Py.all_chars (fun c => negb (Ascii.eqb c "-")) (Py.str n) = true.
Proof. intros Hn. apply (no_hyphen_zero_pad 0 n Hn). Qed.

(** An offset that is not negative is no valid bound. *)
Lemma validate_date_nonneg n : 0 ≤ n → validate_date (Py.str n) = Raise invalid_date.
Proof.
  intros Hn. rewrite validate_date_eq. cbn zeta.
  pose proof (int_str n) as Hint. unfold Py.int in Hint.
  destruct (Py.int_literal (Py.str n)) as [n'|]; [|done]. injection Hint as ->.
  destruct (Z.ltb_spec n 0); [lia|].
  by destruct (all_decimal_not_date (Py.str n) (str_all_decimal n Hn)) as [e ->].
Qed.

Lemma month_ends_nonneg n :
  0 ≤ n → ∃ msg, month_ends (Py.str n) = Raise (ValueError msg).
Proof.
  intros Hn. unfold month_ends. rewrite split_no_sep by (by apply str_no_hyphen).
  cbn [take mapM]. rewrite int_str. by eexists.
Qed.

Lemma month_ends_str n : ∃ msg, month_ends (Py.str n) = Raise (ValueError msg).
Proof.
  destruct (Z.lt_ge_cases n 0).
  - eexists. by apply month_ends_negative.
  - by apply month_ends_nonneg.
Qed.

Lemma normalize_dates_str s e : normalize_dates (Py.str s) (Py.str e) = Ok (Py.str s, Py.str e).
Proof.
  destruct (month_ends_str s) as [m1 H1]. destruct (month_ends_str e) as [m2 H2].
  unfold normalize_dates. by rewrite H1, H2.
Qed.

Lemma query_dates_days start_date e d :
  d ≠ 0 → e < 0 →
  query_dates start_date (Some (Py.str e)) (Some d)
  = if e - d <? 0
    then Ok (Py.format1 DATE_ADD (Py.str (e - d)), Py.format1 DATE_ADD (Py.str e))
    else Raise invalid_date.
Proof.
  intros Hd He. unfold query_dates, or_str. rewrite truthy_str_negative by done.
  unfold truthy_int. destruct (Z.eqb_spec d 0) as [|_]; [done|].
  rewrite int_str. cbn [mbind result_bind]. rewrite normalize_dates_str.
  cbn [mbind result_bind].
  destruct (Z.ltb_spec (e - d) 0).
  - rewrite !validate_date_negative by done. cbn [mbind result_bind].
    rewrite !int_str. cbn [mbind result_bind]. rewrite !format_date_int.
    by destruct (e - d >=? e).
  - by rewrite (validate_date_nonneg (e - d)).
Qed.

Section Queries.

Context {Field : Type} `{Countable Field}.
Context (name data : Field → string) (Downloads : Field) (AGGREGATES : gset Field).
Context (canonicalize_name : string → string).

Lemma where_clause_range sd ed project where_ pip :
  ∃ filters,
    where_clause sd ed project where_ pip
    = Py.nl +:+ "WHERE timestamp BETWEEN " +:+ sd +:+ " AND " +:+ ed +:+ Py.nl +:+ filters.
Proof.
  unfold where_clause. destruct (truthy_str where_) as [w|].
  - eexists. by rewrite !app_assoc_string.
  - destruct (negb (String.eqb project EmptyString)), pip; cbn [app];
      eexists; rewrite ?app_assoc_string; reflexivity.
Qed.

(** The head of a query: the SELECT clause, FROM, and the range. *)
Lemma build_query_head project all_fields start_date end_date days limit where_ order pip
    sd ed :
  query_dates start_date end_date days = Ok (sd, ed) →
  ∃ rest,
    build_query name data Downloads AGGREGATES canonicalize_name
      project all_fields start_date end_date days limit where_ order pip
    = Ok (select_lines name data (first_occurrences all_fields ++ [Downloads])
          +:+ FROM +:+ Py.nl +:+ ("WHERE timestamp BETWEEN " +:+ sd +:+ " AND " +:+ ed)
          +:+ Py.nl +:+ rest).
Proof.
  intros Hdates. unfold build_query. rewrite Hdates. cbn [mbind result_bind].
  rewrite (dedup_fields_first_occurrences name data Downloads canonicalize_name),
    select_clause_lines.
  destruct (where_clause_range sd ed (canonicalize_name project) where_ pip) as [filters ->].
  exists (filters
          +:+ group_by_clause name AGGREGATES (first_occurrences all_fields ++ [Downloads])
          +:+ "ORDER BY" +:+ Py.nl +:+ "  " +:+ or_str order (name Downloads)
          +:+ " DESC" +:+ Py.nl +:+ "LIMIT " +:+ Py.str (or_int limit DEFAULT_LIMIT)).
  cbn zeta. by rewrite !app_assoc_string.
Qed.

Lemma query_dates_months s e y m y' m' :
  valid_yyyy_mm s = Some (y, m) → valid_yyyy_mm e = Some (y', m') →
  query_dates (Some s) (Some e) None
  = Ok (Py.format1 START_TIMESTAMP (s +:+ "-01"),
        Py.format1 END_TIMESTAMP (e +:+ "-" +:+ Py.zero_pad 2 (month_length y' m'))).
Proof.
  intros Hs He.
  destruct (normalize_dates_month_texts s e y m y' m' Hs He) as (Hn & -> & -> & Hvf & Hvl).
  pose proof Hs as (_ & Hy & Hm)%valid_yyyy_mm_text.
  pose proof He as (_ & Hy' & Hm')%valid_yyyy_mm_text.
  pose proof (month_length_bounds y m Hm). pose proof (month_length_bounds y' m' Hm').
  destruct (strptime_Ymd_date_text y m 1) as (_ & _ & Hif); [lia..|].
  destruct (strptime_Ymd_date_text y' m' (month_length y' m')) as (_ & _ & Hil); [lia..|].
  unfold query_dates, or_str.
  assert (Ht : ∀ t p, valid_yyyy_mm t = Some p → truthy_str (Some t) = Some t).
  { intros t p. by destruct t. }
  rewrite (Ht s _ Hs), (Ht e _ He). cbn [truthy_int mbind result_bind].
  rewrite Hn. cbn [mbind result_bind]. rewrite Hvf, Hvl. cbn [mbind result_bind].
  rewrite !format_date_Ok, Hif, Hil. unfold Py.int. by rewrite Hif.
Qed.

Lemma non_aggregate_names (fields : list Field) acc :
  foldl (fun acc field =>
           if decide (field ∉ AGGREGATES) then acc ++ [name field] else acc)
        acc fields
  = acc ++ (name <$> filter (fun f => f ∉ AGGREGATES) fields).
Proof.
  revert acc. induction fields as [|f fields IH]; intros acc; simpl.
  { by rewrite app_nil_r. }
  rewrite IH. rewrite filter_cons. destruct (decide (f ∉ AGGREGATES)); [|done].
  by rewrite fmap_cons, <- app_assoc.
Qed.

Lemma group_by_clause_requested (all_fields : list Field) :
  group_by_clause name AGGREGATES (first_occurrences all_fields ++ [Downloads])
  = match all_fields with
    | [] => EmptyString
    | _ => "GROUP BY" +:+ Py.nl +:+ "  "
           +:+ Py.join ", " (name <$> filter (fun f => f ∉ AGGREGATES)
                                        (first_occurrences all_fields))
           +:+ Py.nl
    end.
Proof.
  destruct all_fields as [|f l]; [done|].
  rewrite group_by_clause_emitted by (rewrite length_app; simpl; lia).
  unfold non_aggregate_fields. by rewrite removelast_last, non_aggregate_names.
Qed.

Lemma range_check_passes start_date end_date :
  try_except (s ← Py.int start_date;
              e ← Py.int end_date;
              if s >=? e then Raise invalid_range else Ok ())
             [ValueError_] (Ok ()) = Ok ().
Proof.
  unfold Py.int. destruct (Py.int_literal start_date) as [s|]; [|done].
  destruct (Py.int_literal end_date) as [e|]; [|done].
  cbn [mbind result_bind]. by destruct (s >=? e).
Qed.

Lemma query_dates_errors start_date end_date days e :
  query_dates start_date end_date days = Raise e →
  (e = Py.invalid_literal ∧ is_Some (truthy_int days)
   ∧ Py.int_literal (or_str end_date END_DATE) = None)
  ∨ e = invalid_date ∨ e = OverflowError.
Proof.
  unfold query_dates. intros [He|(sd & _ & He)]%bind_Raise.
  { left. destruct (truthy_int days); [|done].
    apply bind_Raise in He as [He|(? & _ & ?)]; [|done].
    unfold Py.int in He.
    destruct (Py.int_literal (or_str end_date END_DATE)); simplify_eq. eauto. }
  apply bind_Raise in He as [He|([sd' ed'] & _ & He)].
  { right; right. by eapply normalize_dates_raises_overflow. }
  apply bind_Raise in He as [He|(? & _ & He)].
  { right; left. by eapply validate_date_raises. }
  apply bind_Raise in He as [He|(? & _ & He)].
  { right; left. by eapply validate_date_raises. }
  rewrite range_check_passes, !format_date_Ok in He. done.
Qed.

(** X6.  With two calendar days as bounds, [build_query] returns a query
    whose range runs from the first instant of the start day to the last
    second of the end day; the order of the two days is not checked. *)
Theorem build_query_calendar_range project all_fields s e ds de limit where_ order pip :
  Calendar.strptime_Ymd s = Ok ds → Calendar.strptime_Ymd e = Ok de →
  ∃ rest,
    build_query name data Downloads AGGREGATES canonicalize_name
      project all_fields (Some s) (Some e) None limit where_ order pip
    = Ok (select_lines name data (first_occurrences all_fields ++ [Downloads])
          +:+ FROM +:+ Py.nl +:+ absolute_range s e +:+ Py.nl +:+ rest).
Proof.
  intros Hs He. rewrite <- absolute_range_eq.
  apply build_query_head. by eapply query_dates_absolute.
Qed.

(** X7.  With two valid texts YYYY-MM as bounds, the range of the query
    runs from the first day of the start month to the last day of the
    end month. *)
Theorem build_query_month_range project all_fields s e y m y' m' limit where_ order pip :
  valid_yyyy_mm s = Some (y, m) → valid_yyyy_mm e = Some (y', m') →
  ∃ rest,
    build_query name data Downloads AGGREGATES canonicalize_name
      project all_fields (Some s) (Some e) None limit where_ order pip
    = Ok (select_lines name data (first_occurrences all_fields ++ [Downloads])
          +:+ FROM +:+ Py.nl
          +:+ absolute_range (s +:+ "-01")
                (e +:+ "-" +:+ Py.zero_pad 2 (month_length y' m'))
          +:+ Py.nl +:+ rest).
Proof.
  intros Hs He. rewrite <- absolute_range_eq.
  apply build_query_head. by eapply query_dates_months.
Qed.

(** X8.  With a day count [d] other than 0 and a relative end bound [e],
    the start bound is [e - d]: when that is negative the range of the
    query runs from [e - d] to [e] days from now, and when it is not,
    [build_query] raises the [ValueError] of [validate_date]. *)
Theorem build_query_days_offset project all_fields start_date e d limit where_ order pip :
  d ≠ 0 → e < 0 →
  (e - d < 0 →
   ∃ rest,
     build_query name data Downloads AGGREGATES canonicalize_name
       project all_fields start_date (Some (Py.str e)) (Some d) limit where_ order pip
     = Ok (select_lines name data (first_occurrences all_fields ++ [Downloads])
           +:+ FROM +:+ Py.nl
           +:+ relative_range (Py.str (e - d)) (Py.str e) +:+ Py.nl +:+ rest))
  ∧ (0 ≤ e - d →
     build_query name data Downloads AGGREGATES canonicalize_name
       project all_fields start_date (Some (Py.str e)) (Some d) limit where_ order pip
     = Raise (ValueError "Dates must be negative integers or YYYY-MM[-DD] in the past.")).
Proof.
  intros Hd He. pose proof (query_dates_days start_date e d Hd He) as Hdates. split.
  - intros Hneg. destruct (Z.ltb_spec (e - d) 0); [|lia].
    rewrite <- relative_range_eq. by apply build_query_head.
  - intros Hpos. destruct (Z.ltb_spec (e - d) 0); [lia|].
    unfold build_query. by rewrite Hdates.
Qed.

(** X9.  When a day count other than 0 is given, the start bound that was
    passed has no effect on what [build_query] returns or raises. *)
Theorem build_query_days_replace_start project all_fields start_date start_date' end_date
    days d limit where_ order pip :
  truthy_int days = Some d →
  build_query name data Downloads AGGREGATES canonicalize_name
    project all_fields start_date end_date days limit where_ order pip
  = build_query name data Downloads AGGREGATES canonicalize_name
      project all_fields start_date' end_date days limit where_ order pip.
Proof. intros Hd. unfold build_query, query_dates. by rewrite Hd. Qed.

(** X10.  When a condition [where] other than the empty text is given, it
    is the only filter of the query besides the range: the project and
    the flag [pip] have no effect on what [build_query] returns. *)
Theorem build_query_where_replaces_filters project project' all_fields start_date end_date
    days limit where_ w order pip pip' :
  truthy_str where_ = Some w →
  build_query name data Downloads AGGREGATES canonicalize_name
    project all_fields start_date end_date days limit where_ order pip
  = build_query name data Downloads AGGREGATES canonicalize_name
      project' all_fields start_date end_date days limit where_ order pip'
  ∧ ∀ sd ed,
      where_clause sd ed (canonicalize_name project) where_ pip
      = Py.nl +:+ "WHERE timestamp BETWEEN " +:+ sd +:+ " AND " +:+ ed +:+ Py.nl
        +:+ "  AND " +:+ w +:+ Py.nl.
Proof.
  intros Hw. split.
  - unfold build_query, where_clause. by rewrite Hw.
  - intros sd ed. unfold where_clause. rewrite Hw. by rewrite !app_assoc_string.
Qed.

(** X11.  The tail of every query [build_query] returns.  When fields are
    requested, a GROUP BY clause lists the names of the requested fields
    that are not aggregates, each once, in the order of their first
    occurrence; when none is requested there is no such clause.  Then
    come ORDER BY, on [order] or else on the name of [Downloads],
    descending, and LIMIT, with [limit] or else 10. *)
Theorem build_query_group_order_limit project all_fields start_date end_date days limit
    where_ order pip query :
  build_query name data Downloads AGGREGATES canonicalize_name
    project all_fields start_date end_date days limit where_ order pip
  = Ok query →
  let grouped := name <$> filter (fun f => f ∉ AGGREGATES) (first_occurrences all_fields) in
  let group_by :=
    match all_fields with
    | [] => EmptyString
    | _ => "GROUP BY" +:+ Py.nl +:+ "  " +:+ Py.join ", " grouped +:+ Py.nl
    end in
  ∃ sd ed,
    query_dates start_date end_date days = Ok (sd, ed)
    ∧ query
      = select_lines name data (first_occurrences all_fields ++ [Downloads]) +:+ FROM
        +:+ where_clause sd ed (canonicalize_name project) where_ pip
        +:+ group_by
        +:+ "ORDER BY" +:+ Py.nl +:+ "  " +:+ or_str order (name Downloads)
        +:+ " DESC" +:+ Py.nl
        +:+ "LIMIT " +:+ Py.str (or_int limit DEFAULT_LIMIT).
Proof.
  intros Hq grouped group_by. unfold build_query in Hq.
  apply bind_Ok in Hq as ([sd ed] & Hdates & Hq). exists sd, ed. split; [done|].
  apply Ok_inj in Hq as <-.
  rewrite (dedup_fields_first_occurrences name data Downloads canonicalize_name),
    select_clause_lines, group_by_clause_requested.
  subst group_by grouped. lazy zeta. by rewrite !app_assoc_string.
Qed.

(** X12.  [build_query] raises nothing but the [ValueError] of [int] (only
    when a day count is given and the end bound is not an integer
    literal), the [ValueError] of [validate_date], and [OverflowError]. *)
Theorem build_query_errors project all_fields start_date end_date days limit where_ order
    pip e :
  build_query name data Downloads AGGREGATES canonicalize_name
    project all_fields start_date end_date days limit where_ order pip
  = Raise e →
  (e = ValueError "invalid literal for int() with base 10"
   ∧ is_Some (truthy_int days)
   ∧ Py.int_literal (or_str end_date END_DATE) = None)
  ∨ e = ValueError "Dates must be negative integers or YYYY-MM[-DD] in the past."
  ∨ e = OverflowError.
Proof.
  unfold build_query. intros [He|([sd ed] & _ & He)]%bind_Raise; [|done].
  by apply (query_dates_errors start_date end_date days).
Qed.

End Queries.

Lemma build_query_calendar_range_witness :
  ∃ rest,
    Sample.build_query "requests" [Sample.Project] (Some "2020-01-01"%string)
      (Some "2020-01-31"%string) None None None None false
    = Ok (select_lines Sample.name Sample.data
            (first_occurrences [Sample.Project] ++ [Sample.Downloads])
          +:+ FROM +:+ Py.nl +:+ absolute_range "2020-01-01" "2020-01-31" +:+ Py.nl +:+ rest).
Proof.
  apply (build_query_calendar_range Sample.name Sample.data Sample.Downloads
           Sample.AGGREGATES Sample.canonicalize_name "requests" [Sample.Project]
           "2020-01-01" "2020-01-31" (Calendar.Date 2020 1 1) (Calendar.Date 2020 1 31));
    reflexivity.
Defined.

Lemma build_query_month_range_witness :
  ∃ rest,
    Sample.build_query "requests" [] (Some "2023-12"%string) (Some "2024-02"%string)
      None None None None false
    = Ok (select_lines Sample.name Sample.data (first_occurrences [] ++ [Sample.Downloads])
          +:+ FROM +:+ Py.nl
          +:+ absolute_range ("2023-12" +:+ "-01")
                ("2024-02" +:+ "-" +:+ Py.zero_pad 2 (month_length 2024 2))
          +:+ Py.nl +:+ rest).
Proof.
  apply (build_query_month_range Sample.name Sample.data Sample.Downloads
           Sample.AGGREGATES Sample.canonicalize_name "requests" []
           "2023-12" "2024-02" 2023 12 2024 2); reflexivity.
Defined.

Lemma build_query_days_offset_witness :
  ∃ rest,
    Sample.build_query "requests" [] None (Some (Py.str (-1))) (Some 30) None None None false
    = Ok (select_lines Sample.name Sample.data (first_occurrences [] ++ [Sample.Downloads])
          +:+ FROM +:+ Py.nl
          +:+ relative_range (Py.str (-1 - 30)) (Py.str (-1)) +:+ Py.nl +:+ rest).
Proof.
  apply (proj1 (build_query_days_offset Sample.name Sample.data Sample.Downloads
                  Sample.AGGREGATES Sample.canonicalize_name "requests" []
                  None (-1) 30 None None None false ltac:(lia) ltac:(lia))).
  lia.
Defined.

Lemma build_query_days_replace_start_witness :
  Sample.build_query "requests" [] (Some "2020-01-01"%string) None (Some 7) None None None
    false
  = Sample.build_query "requests" [] (Some "-3"%string) None (Some 7) None None None false.
Proof.
  apply (build_query_days_replace_start Sample.name Sample.data Sample.Downloads
           Sample.AGGREGATES Sample.canonicalize_name "requests" []
           (Some "2020-01-01"%string) (Some "-3"%string) None (Some 7) 7).
  reflexivity.
Defined.

Lemma build_query_where_replaces_filters_witness :
  Sample.build_query "requests" [] None None None None
    (Some "file.project LIKE 'django%'"%string) None true
  = Sample.build_query "flask" [] None None None None
      (Some "file.project LIKE 'django%'"%string) None false.
Proof.
  apply (build_query_where_replaces_filters Sample.name Sample.data Sample.Downloads
           Sample.AGGREGATES Sample.canonicalize_name "requests" "flask" []
           None None None None (Some "file.project LIKE 'django%'"%string)
           "file.project LIKE 'django%'" None true false).
  reflexivity.
Defined.

Lemma build_query_group_order_limit_witness :
  ∃ sd ed,
    query_dates None None None = Ok (sd, ed)
    ∧ Sample.lines
        ["SELECT";
         "  file.project as project,";
         "  ROUND(100 * COUNT(*) / SUM(COUNT(*)) OVER (), 1) as share,";
         "  file.version as version,";
         "  COUNT(*) as download_count,";
         FROM;
         relative_range "-31" "-1";
         "GROUP BY";
         "  project, version";
         "ORDER BY";
         "  download_count DESC";
         "LIMIT 10"]
      = select_lines Sample.name Sample.data
          (first_occurrences [Sample.Project; Sample.Share; Sample.Version; Sample.Project]
           ++ [Sample.Downloads]) +:+ FROM
        +:+ where_clause sd ed (Sample.canonicalize_name EmptyString) None false
        +:+ ("GROUP BY" +:+ Py.nl +:+ "  "
             +:+ Py.join ", "
                   (Sample.name <$> filter (fun f => f ∉ Sample.AGGREGATES)
                      (first_occurrences
                         [Sample.Project; Sample.Share; Sample.Version; Sample.Project]))
             +:+ Py.nl)
        +:+ "ORDER BY" +:+ Py.nl +:+ "  " +:+ or_str None (Sample.name Sample.Downloads)
        +:+ " DESC" +:+ Py.nl
        +:+ "LIMIT " +:+ Py.str (or_int None DEFAULT_LIMIT).
Proof.
  apply (build_query_group_order_limit Sample.name Sample.data Sample.Downloads
           Sample.AGGREGATES Sample.canonicalize_name EmptyString
           [Sample.Project; Sample.Share; Sample.Version; Sample.Project]
           None None None None None None false).
  by vm_compute.
Defined.

Lemma build_query_errors_witness :
  (ValueError "Dates must be negative integers or YYYY-MM[-DD] in the past."
   = ValueError "invalid literal for int() with base 10"
   ∧ is_Some (truthy_int None)
   ∧ Py.int_literal (or_str None END_DATE) = None)
  ∨ ValueError "Dates must be negative integers or YYYY-MM[-DD] in the past."
    = ValueError "Dates must be negative integers or YYYY-MM[-DD] in the past."
  ∨ ValueError "Dates must be negative integers or YYYY-MM[-DD] in the past."
    = OverflowError.
Proof.
  apply (build_query_errors Sample.name Sample.data Sample.Downloads
           Sample.AGGREGATES Sample.canonicalize_name "requests" []
           (Some "yesterday"%string) None None None None None false).
  reflexivity.
Defined.

(** ** [add_percentages], [get_download_total] and [add_download_total] *)

Lemma index_Ok_iff l x i :
  Py.index l x = Ok i ↔ l !! i = Some x ∧ ∀ j y, l !! j = Some y → (j < i)%nat → y ≠ x.
Proof.
  split; [apply index_Ok|]. intros [Hi Hbefore]. unfold Py.index.
  assert (Hfind : list_find (fun y => y = x) l = Some (i, x)).
  { apply list_find_Some. split; [done|]. split; [done|]. intros j y Hj Hlt. by eapply Hbefore. }
  by rewrite Hfind.
Qed.

Lemma index_missing l x :
  x ∉ l → Py.index l x = Raise (ValueError "x is not in list").
Proof.
  intros Hx. unfold Py.index.
  destruct (list_find (fun y => y = x) l) as [[i y]|] eqn:Hfind; [|done].
  apply list_find_Some in Hfind as (Hi & -> & _).
  destruct Hx. by eapply list_elem_of_lookup_2.
Qed.

Lemma index_lt l x i : Py.index l x = Ok i → (i < length l)%nat.
Proof. intros [Hi _]%index_Ok. by eapply lookup_lt_Some. Qed.

Lemma index_insert_before headers index x :
  x ≠ "download_count"%string →
  Py.index headers "download_count" = Ok index →
  Py.index (Py.insert index x headers) "download_count" = Ok (S index).
Proof.
  intros Hx Hindex. pose proof (index_lt _ _ _ Hindex) as Hlt.
  apply index_Ok in Hindex as [Hi Hbefore].
  destruct (insert_lookup headers index x) as (Hp & Hd & Hpre); [lia|].
  apply index_Ok_iff. split; [by rewrite Hd|].
  intros j y Hj Hjlt. destruct (decide (j = index)) as [->|Hne].
  - rewrite Hp in Hj. by injection Hj as <-.
  - rewrite Hpre in Hj by lia. apply (Hbefore j y Hj). lia.
Qed.

Lemma getitem_insert_after (row : list string) index x :
  (index < length row)%nat →
  Py.getitem (Py.insert index x row) (S index) = Py.getitem row index.
Proof.
  intros Hlt. destruct (insert_lookup row index x) as (_ & Hd & _); [lia|].
  unfold Py.getitem. by rewrite Hd.
Qed.

Lemma getitem_lt {A} (l : list A) i x : Py.getitem l i = Ok x → (i < length l)%nat.
Proof. intros Hx%getitem_Ok. by eapply lookup_lt_Some. Qed.

Lemma delete_insert (row : list string) index x :
  (index ≤ length row)%nat → delete index (Py.insert index x row) = row.
Proof.
  intros Hle. unfold Py.insert.
  pose proof (delete_middle (take index row) (drop index row) x) as Hd.
  rewrite length_take, Nat.min_l in Hd by lia. rewrite Hd. apply take_drop.
Qed.

Lemma length_py_insert (row : list string) index x :
  length (Py.insert index x row) = S (length row).
Proof.
  unfold Py.insert. rewrite length_app, length_cons.
  rewrite <- (take_drop index row) at 3. rewrite length_app. lia.
Qed.

Lemma Forall_py_insert (P : string → Prop) index x row :
  P x → Forall P row → Forall P (Py.insert index x row).
Proof.
  intros Hx Hrow. unfold Py.insert. apply Forall_app. split; [by apply Forall_take|].
  constructor; [done|by apply Forall_drop].
Qed.

Lemma mapM_app {A B} (f : A → result B) l1 l2 k1 k2 :
  mapM f l1 = Ok k1 → mapM f l2 = Ok k2 → mapM f (l1 ++ l2) = Ok (k1 ++ k2).
Proof.
  revert k1. induction l1 as [|x l1 IH]; intros k1.
  - by intros [= <-].
  - rewrite mapM_cons. intros (y & Hy & (k & Hk & [= <-])%bind_Ok)%bind_Ok H2.
    simpl app. rewrite mapM_cons, Hy. cbn [mbind result_bind].
    by rewrite (IH k Hk H2).
Qed.

Lemma foldl_add_snoc counts n : foldl Z.add 0 (counts ++ [n]) = foldl Z.add 0 counts + n.
Proof. by rewrite foldl_app. Qed.

(** The rows [add_percentages] returns, and what the later functions
    read in them. *)
Lemma add_percentages_rows_Ok index (share_of : Z → result string) data data' :
  mapM (fun row =>
          cell ← Py.getitem row index;
          n ← Py.int cell;
          share ← share_of n;
          Ok (Py.insert index share row)) data = Ok data' →
  ∃ counts,
    mapM (fun row => cell ← Py.getitem row index; Py.int cell) data = Ok counts
    ∧ mapM (fun row => cell ← Py.getitem row (S index); Py.int cell) data' = Ok counts
    ∧ delete index <$> data' = data
    ∧ Forall2 (fun row row' =>
                 ∃ share n, row' = Py.insert index share row ∧ share_of n = Ok share)
        data data'.
Proof.
  revert data'. induction data as [|row data IH]; intros data'.
  { intros [= <-]. exists []. by repeat split. }
  rewrite mapM_cons.
  intros (row' & Hrow & (rest & Hrest & [= <-])%bind_Ok)%bind_Ok.
  destruct (IH rest Hrest) as (counts & Hc & Hc' & Hdel & Hall).
  apply bind_Ok in Hrow as (cell & Hcell & Hrow).
  apply bind_Ok in Hrow as (n & Hn & Hrow).
  apply bind_Ok in Hrow as (share & Hshare & [= <-]).
  pose proof (getitem_lt _ _ _ Hcell) as Hlt.
  exists (n :: counts). split_and!.
  - rewrite mapM_cons, Hcell. cbn [mbind result_bind]. rewrite Hn. cbn [mbind result_bind].
    by rewrite Hc.
  - rewrite mapM_cons, getitem_insert_after, Hcell by done. cbn [mbind result_bind].
    rewrite Hn. cbn [mbind result_bind]. by rewrite Hc'.
  - rewrite fmap_cons, Hdel, delete_insert by lia. done.
  - constructor; [|done]. by exists share, n.
Qed.

Lemma add_percentages_Ok rows include_sign rows' :
  add_percentages rows include_sign = Ok rows' →
  ∃ headers data index counts data',
    rows = headers :: data
    ∧ rows' = Py.insert index "percent" headers :: data'
    ∧ Py.index headers "download_count" = Ok index
    ∧ mapM (fun row => cell ← Py.getitem row index; Py.int cell) data = Ok counts
    ∧ mapM (fun row => cell ← Py.getitem row (S index); Py.int cell) data' = Ok counts
    ∧ delete index <$> data' = data
    ∧ Forall2 (fun row row' =>
                 ∃ share n,
                   row' = Py.insert index (share_text include_sign share) row
                   ∧ Py.truediv n (foldl Z.add 0 counts) = Ok share) data data'.
Proof.
  unfold add_percentages. destruct rows as [|headers data]; [done|].
  intros (index & Hindex & Hrun)%bind_Ok.
  apply bind_Ok in Hrun as (counts & Hcounts & Hrun).
  apply bind_Ok in Hrun as (data' & Hdata' & [= <-]).
  exists headers, data, index, counts, data'.
  destruct (add_percentages_rows_Ok index
              (fun n => share ← Py.truediv n (foldl Z.add 0 counts);
                        Ok (share_text include_sign share)) data data')
    as (counts' & Hc & Hc' & Hdel & Hall).
  { rewrite <- Hdata'. clear. induction data as [|row data IH]; [done|].
    rewrite !mapM_cons, IH. f_equal.
    destruct (Py.getitem row index) as [cell|]; [|done]. cbn [mbind result_bind].
    destruct (Py.int cell) as [n|]; [|done]. cbn [mbind result_bind].
    destruct (Py.truediv n (foldl Z.add 0 counts)) as [share|]; [|done].
    by destruct include_sign. }
  assert (counts' = counts) as -> by congruence.
  split_and!; try done.
  eapply Forall2_impl; [exact Hall|]. intros row row' (share & n & Hs & Hshare).
  apply bind_Ok in Hshare as (sh & Hsh & [= <-]). eauto.
Qed.

Lemma get_download_total_Ok headers data index counts :
  Py.index headers "download_count" = Ok index →
  mapM (fun row => cell ← Py.getitem row index; Py.int cell) data = Ok counts →
  get_download_total (headers :: data)
  = (headers :: data, Ok (foldl Z.add 0 counts, index)).
Proof. intros Hi Hc. unfold get_download_total. by rewrite Hi, Hc. Qed.

Lemma get_download_total_inv rows rows' total index :
  get_download_total rows = (rows', Ok (total, index)) →
  ∃ headers data counts,
    rows = headers :: data ∧ rows' = rows
    ∧ Py.index headers "download_count" = Ok index
    ∧ mapM (fun row => cell ← Py.getitem row index; Py.int cell) data = Ok counts
    ∧ total = foldl Z.add 0 counts.
Proof.
  unfold get_download_total. destruct rows as [|headers data]; [done|].
  destruct (Py.index headers "download_count") as [i|] eqn:Hi; [|done].
  destruct (mapM _ data) as [counts|] eqn:Hc; [|done].
  intros [= <- <- <-]. by exists headers, data, counts.
Qed.

Lemma setitem_lt {A} (l : list A) i x :
  (i < length l)%nat → Py.setitem l i x = Ok (<[i := x]> l).
Proof. intros Hi. unfold Py.setitem. by rewrite decide_True. Qed.

Lemma total_row_lookup width index total j :
  (j < width)%nat →
  total_row width index total !! j
  = Some (if decide (j = index) then Py.str total
          else if decide (j = 0%nat) then "Total"%string else EmptyString).
Proof.
  intros Hj. unfold total_row. destruct (decide (j = index)) as [->|Hne].
  { rewrite list_lookup_insert_eq; [done|]. by rewrite length_insert, length_replicate. }
  rewrite list_lookup_insert_ne by done.
  destruct (decide (j = 0%nat)) as [->|Hne0].
  { rewrite list_lookup_insert_eq; [done|]. by rewrite length_replicate. }
  rewrite list_lookup_insert_ne by done. by rewrite lookup_replicate_2.
Qed.

Lemma add_download_total_Ok headers data index counts :
  Py.index headers "download_count" = Ok index →
  mapM (fun row => cell ← Py.getitem row index; Py.int cell) data = Ok counts →
  let rows' :=
    headers :: data ++ [total_row (length headers) index (foldl Z.add 0 counts)] in
  add_download_total (headers :: data) = (rows', Ok rows').
Proof.
  intros Hi Hc rows'. pose proof (index_lt _ _ _ Hi) as Hlt.
  unfold add_download_total. cbn [Py.getitem lookup list_lookup].
  rewrite (setitem_lt (replicate (length headers) EmptyString) 0)
    by (rewrite length_replicate; lia).
  rewrite (get_download_total_Ok headers data index counts) by done.
  rewrite setitem_lt by (rewrite length_insert, length_replicate; lia).
  done.
Qed.

(** X13.  [add_percentages] on a table whose counts add up to 0 raises
    [ZeroDivisionError] as soon as there is a data row; on a table with
    the header row alone it returns the header with the new column. *)
Theorem add_percentages_zero_total headers include_sign index :
  Py.index headers "download_count" = Ok index →
  (∀ data counts,
     data ≠ [] →
     mapM (fun row => cell ← Py.getitem row index; Py.int cell) data = Ok counts →
     foldl Z.add 0 counts = 0 →
     add_percentages (headers :: data) include_sign = Raise ZeroDivisionError)
  ∧ add_percentages [headers] include_sign = Ok [Py.insert index "percent" headers].
Proof.
  intros Hi. split.
  - intros data counts Hne Hc Htotal. unfold add_percentages.
    rewrite Hi. cbn [mbind result_bind]. rewrite Hc. cbn [mbind result_bind].
    rewrite Htotal. destruct data as [|row data]; [done|].
    rewrite mapM_cons in Hc. apply bind_Ok in Hc as (n & Hn & _).
    apply bind_Ok in Hn as (cell & Hcell & Hn).
    rewrite mapM_cons, Hcell. cbn [mbind result_bind]. rewrite Hn. done.
  - unfold add_percentages. rewrite Hi. done.
Qed.

Lemma add_percentages_zero_total_witness :
  add_percentages [["project"; "download_count"]; ["a"; "0"]; ["b"; "0"]] true
  = Raise ZeroDivisionError.
Proof.
  apply (proj1 (add_percentages_zero_total ["project"; "download_count"] true 1%nat
                  eq_refl) [["a"; "0"]; ["b"; "0"]] [0; 0]); done.
Defined.

(** X14.  [add_percentages] on the empty table raises [IndexError], and on
    a table whose header has no column [download_count] it raises the
    [ValueError] of [list.index]. *)
Theorem add_percentages_needs_count_column headers data include_sign :
  "download_count"%string ∉ headers →
  add_percentages (headers :: data) include_sign = Raise (ValueError "x is not in list")
  ∧ add_percentages [] include_sign = Raise IndexError.
Proof.
  intros Hx. split; [|done]. unfold add_percentages. by rewrite index_missing.
Qed.

Lemma add_percentages_needs_count_column_witness :
  add_percentages [["project"; "downloads"]; ["a"; "3"]] true
  = Raise (ValueError "x is not in list").
Proof.
  apply (add_percentages_needs_count_column ["project"; "downloads"] [["a"; "3"]] true).
  rewrite !elem_of_cons, elem_of_nil. intros [?|[?|?]]; done.
Defined.

(** X15.  Every table [add_percentages] returns has the rows of the table
    it was given, each one cell longer: deleting the cell at the position
    of the new column from every row gives the table back. *)
Theorem add_percentages_keeps_cells rows include_sign rows' :
  add_percentages rows include_sign = Ok rows' →
  ∃ headers index,
    rows !! 0%nat = Some headers
    ∧ Py.index headers "download_count" = Ok index
    ∧ delete index <$> rows' = rows
    ∧ Forall2 (fun row row' => length row' = S (length row)) rows rows'.
Proof.
  intros (headers & data & index & counts & data' & -> & -> & Hi & _ & _ & Hdel & Hall)
    %add_percentages_Ok.
  pose proof (index_lt _ _ _ Hi) as Hlt.
  exists headers, index. split_and!; try done.
  - by rewrite fmap_cons, Hdel, delete_insert by lia.
  - constructor; [apply length_py_insert|].
    eapply Forall2_impl; [exact Hall|]. intros row row' (share & n & -> & _).
    apply length_py_insert.
Qed.

Lemma add_percentages_keeps_cells_witness :
  ∃ headers index,
    [["project"; "download_count"]; ["x"; "1"]; ["y"; "3"]] !! 0%nat = Some headers
    ∧ Py.index headers "download_count" = Ok index
    ∧ delete index <$> [["project"; "percent"; "download_count"];
                        ["x"; "25.00%"; "1"]; ["y"; "75.00%"; "3"]]
      = [["project"; "download_count"]; ["x"; "1"]; ["y"; "3"]]
    ∧ Forall2 (fun row row' => length row' = S (length row))
        [["project"; "download_count"]; ["x"; "1"]; ["y"; "3"]]
        [["project"; "percent"; "download_count"];
         ["x"; "25.00%"; "1"]; ["y"; "75.00%"; "3"]].
Proof.
  apply (add_percentages_keeps_cells _ true). by vm_compute.
Defined.

(** X16.  After [add_percentages], [get_download_total] finds the same
    total as before, in the column one further to the right, and leaves
    the table as it is. *)
Theorem get_download_total_after_percentages rows include_sign rows' :
  add_percentages rows include_sign = Ok rows' →
  ∃ total index,
    get_download_total rows = (rows, Ok (total, index))
    ∧ get_download_total rows' = (rows', Ok (total, S index)).
Proof.
  intros (headers & data & index & counts & data' & -> & -> & Hi & Hc & Hc' & _)
    %add_percentages_Ok.
  exists (foldl Z.add 0 counts), index. split.
  - by apply get_download_total_Ok.
  - apply get_download_total_Ok; [|done]. by apply index_insert_before.
Qed.

Lemma get_download_total_after_percentages_witness :
  ∃ total index,
    get_download_total [["project"; "download_count"]; ["x"; "1"]; ["y"; "3"]]
    = ([["project"; "download_count"]; ["x"; "1"]; ["y"; "3"]], Ok (total, index))
    ∧ get_download_total [["project"; "percent"; "download_count"];
                          ["x"; "25.00%"; "1"]; ["y"; "75.00%"; "3"]]
      = ([["project"; "percent"; "download_count"];
          ["x"; "25.00%"; "1"]; ["y"; "75.00%"; "3"]], Ok (total, S index)).
Proof.
  apply (get_download_total_after_percentages _ true). by vm_compute.
Defined.

(** X17.  [get_download_total] returns the table to its caller as it was
    when it returns, and without its header row when it raises: the
    header is taken off first and put back only at the end. *)
Theorem get_download_total_restores_header rows :
  match get_download_total rows with
  | (rows', Ok _) => rows' = rows
  | (rows', Raise _) => rows' = tail rows
  end.
Proof.
  unfold get_download_total. destruct rows as [|headers data]; [done|].
  destruct (Py.index headers "download_count"); [|done].
  by destruct (mapM _ data).
Qed.

(** X18.  For a table with a column [download_count] whose cells [int]
    reads, [add_download_total] appends one row as long as the header:
    the total in the column of the counts, [Total] in the first column
    unless the counts are there, and the empty text elsewhere. *)
Theorem add_download_total_appends rows total index :
  (get_download_total rows).2 = Ok (total, index) →
  ∃ headers last_row,
    rows !! 0%nat = Some headers
    ∧ add_download_total rows = (rows ++ [last_row], Ok (rows ++ [last_row]))
    ∧ length last_row = length headers
    ∧ ∀ j, (j < length headers)%nat →
        last_row !! j
        = Some (if decide (j = index) then Py.str total
                else if decide (j = 0%nat) then "Total"%string else EmptyString).
Proof.
  destruct (get_download_total rows) as [rows' r] eqn:Hget. simpl. intros ->.
  apply get_download_total_inv in Hget as (headers & data & counts & -> & _ & Hi & Hc & ->).
  exists headers, (total_row (length headers) index (foldl Z.add 0 counts)).
  split_and!.
  - done.
  - by rewrite (add_download_total_Ok headers data index counts).
  - unfold total_row. by rewrite !length_insert, length_replicate.
  - intros j Hj. by apply total_row_lookup.
Qed.

Lemma add_download_total_appends_witness :
  ∃ headers last_row,
    [["download_count"; "project"]; ["7"; "x"]; ["5"; "y"]] !! 0%nat = Some headers
    ∧ add_download_total [["download_count"; "project"]; ["7"; "x"]; ["5"; "y"]]
      = ([["download_count"; "project"]; ["7"; "x"]; ["5"; "y"]] ++ [last_row],
         Ok ([["download_count"; "project"]; ["7"; "x"]; ["5"; "y"]] ++ [last_row]))
    ∧ length last_row = length headers
    ∧ ∀ j, (j < length headers)%nat →
        last_row !! j
        = Some (if decide (j = 0%nat) then Py.str 12
                else if decide (j = 0%nat) then "Total"%string else EmptyString).
Proof.
  apply (add_download_total_appends
           [["download_count"; "project"]; ["7"; "x"]; ["5"; "y"]] 12 0%nat).
  reflexivity.
Defined.

(** X19.  When the header has cells but no column [download_count],
    [add_download_total] raises the [ValueError] of [list.index] and
    leaves the caller's table without its header row. *)
Theorem add_download_total_missing_column header_cell headers data :
  "download_count"%string ∉ header_cell :: headers →
  add_download_total ((header_cell :: headers) :: data)
  = (data, Raise (ValueError "x is not in list")).
Proof.
  intros Hx. unfold add_download_total, get_download_total.
  cbn [Py.getitem lookup list_lookup].
  rewrite setitem_lt by (rewrite length_replicate; simpl; lia). by rewrite index_missing.
Qed.

Lemma add_download_total_missing_column_witness :
  add_download_total [["project"; "downloads"]; ["a"; "3"]]
  = ([["a"; "3"]], Raise (ValueError "x is not in list")).
Proof.
  apply (add_download_total_missing_column "project" ["downloads"] [["a"; "3"]]).
  rewrite !elem_of_cons, elem_of_nil. intros [?|[?|?]]; done.
Defined.

(** X20.  A second call of [add_download_total] counts the row the first
    call appended: after one call, [get_download_total] finds twice the
    total, in the same column. *)
Theorem add_download_total_counts_total_row rows total index :
  (get_download_total rows).2 = Ok (total, index) →
  ∃ rows',
    add_download_total rows = (rows', Ok rows')
    ∧ get_download_total rows' = (rows', Ok (2 * total, index)).
Proof.
  destruct (get_download_total rows) as [rows0 r] eqn:Hget. simpl. intros ->.
  apply get_download_total_inv in Hget as (headers & data & counts & -> & _ & Hi & Hc & ->).
  pose proof (index_lt _ _ _ Hi) as Hlt.
  eexists. split; [by apply (add_download_total_Ok headers data index counts)|].
  rewrite (get_download_total_Ok headers _ index (counts ++ [foldl Z.add 0 counts])); [|done|].
  - rewrite foldl_add_snoc. do 2 f_equal. f_equal. lia.
  - apply mapM_app; [done|]. rewrite mapM_cons. unfold Py.getitem.
    rewrite total_row_lookup by done. rewrite decide_True by done.
    cbn [mbind result_bind]. by rewrite int_str.
Qed.

Lemma add_download_total_counts_total_row_witness :
  ∃ rows',
    add_download_total [["project"; "download_count"]; ["x"; "7"]; ["y"; "5"]]
    = (rows', Ok rows')
    ∧ get_download_total rows' = (rows', Ok (2 * 12, 1%nat)).
Proof.
  apply (add_download_total_counts_total_row
           [["project"; "download_count"]; ["x"; "7"]; ["y"; "5"]] 12 1%nat).
  reflexivity.
Defined.

(** ** [tabulate]: which tables it renders *)

Lemma measure_cell_Ok_cell right_align r i item st st' :
  measure_cell right_align r i item st = Ok st' →
  readable_cell item ∧ (i < length (column_widths st))%nat.
Proof.
  unfold measure_cell. intros (st1 & Hfirst & Hrest)%bind_Ok.
  apply bind_Ok in Hrest as (width & Hwidth%getitem_lt & _).
  unfold readable_cell.
  destruct (Py.isdigit item) eqn:Hd.
  - apply bind_Ok in Hfirst as (n & Hn & Hfirst).
    apply bind_Ok in Hfirst as (rows' & _ & Hfirst).
    apply bind_Ok in Hfirst as (fl & _ & [= <-]). simpl in Hwidth.
    split; [|done]. intros _. unfold Py.int in Hn.
    destruct (Py.int_literal item); [eauto|done].
  - split; [done|]. destruct (Py.endswith_char item "%").
    + by apply bind_Ok in Hfirst as (fl & _ & [= <-]).
    + by injection Hfirst as <-.
Qed.

Lemma measure_row_cells n rows done row later right_align st st' :
  rows = done ++ row :: later →
  right_align !! length done = Some 0%nat →
  measured_rows_done n rows done st →
  for_each (measure_cell right_align (length done)) 0 row st = Ok st' →
  (length row ≤ n)%nat ∧ Forall readable_cell row.
Proof.
  intros Hrows Hra Hdone Hrun.
  apply (for_each_invariant _
           (fun pre s => measured n rows done pre s
                         ∧ (length pre ≤ n)%nat ∧ Forall readable_cell pre)) in Hrun.
  - by destruct Hrun as (_ & ? & ?).
  - intros pre x post s s' Hrow (Hm & Hlen & Hread) Hcell.
    destruct (measure_cell_Ok_cell _ _ _ _ _ _ Hcell) as [Hx Hlt].
    rewrite (measured_widths_length _ _ _ _ _ Hm) in Hlt.
    split_and!.
    + eapply measure_cell_measured; [|done|done|done]. by rewrite Hrows, Hrow.
    + rewrite length_app. simpl. lia.
    + apply Forall_app. by split; [|constructor].
  - split_and!; [by eapply measured_start|simpl; lia|constructor].
Qed.

(** What a table has to be for the first loop nest to finish. *)
Lemma measure_Ok_cells rows st :
  measure rows = Ok st →
  ∃ header,
    rows !! 0%nat = Some header
    ∧ Forall (fun row => (length row ≤ length header)%nat) rows
    ∧ Forall (Forall readable_cell) rows.
Proof.
  unfold measure. intros (header & Hheader%getitem_Ok & Hrun)%bind_Ok.
  exists header. split; [done|].
  apply (for_each_invariant _
           (fun done s => measured_rows_done (length header) rows done s
                          ∧ Forall (fun row => (length row ≤ length header)%nat) done
                          ∧ Forall (Forall readable_cell) done)) in Hrun.
  - by destruct Hrun as (_ & ? & ?).
  - intros done row later s s' Hrows (Hdone & Hlen & Hread) Hrow.
    assert (Hra : replicate (length rows) 0%nat !! length done = Some 0%nat).
    { apply lookup_replicate_2. rewrite Hrows, length_app. simpl. lia. }
    destruct (measure_row_cells _ _ _ _ _ _ _ _ Hrows Hra Hdone Hrow) as [Hl Hr].
    split_and!.
    + by eapply measure_row.
    + apply Forall_app. by split; [|constructor].
    + apply Forall_app. by split; [|constructor].
  - split_and!; [|constructor|constructor].
    split; simpl.
    + by exists rows.
    + by rewrite length_replicate.
    + intros j Hj. by rewrite lookup_replicate_2.
    + eexists. split; [done|]. split; [by rewrite length_replicate|].
      intros j Hj. by rewrite lookup_replicate_2.
Qed.

Lemma tabulate_Ok_renderable rows markdown out :
  tabulate rows markdown = Ok out → renderable rows.
Proof.
  intros Hout. pose proof Hout as (headers & data & Hrows & Hdata & _)%tabulate_Ok_text.
  unfold tabulate in Hout. apply bind_Ok in Hout as (st & Hst & _).
  apply measure_Ok_cells in Hst as (header & Hhead & Hlen & Hread).
  destruct rows as [|header' [|first rest]]; [done| |].
  - injection Hrows as _ <-. done.
  - injection Hhead as ->. by exists header, first, rest.
Qed.

(** X21.  [tabulate] returns a text exactly for the renderable tables: a
    header row and at least one more row, no row longer than the header,
    and no digit-only cell that [int] does not read.  On every other
    table it raises. *)
Theorem tabulate_returns_iff_renderable rows markdown :
  (∃ out, tabulate rows markdown = Ok out) ↔ renderable rows.
Proof.
  split.
  - intros [out Hout]. by eapply tabulate_Ok_renderable.
  - apply tabulate_total.
Qed.

Lemma tabulate_returns_iff_renderable_witness :
  renderable [["project"; "download_count"]; ["x"; "1234"]].
Proof.
  apply (tabulate_returns_iff_renderable _ false). eexists. by vm_compute.
Defined.

(** X22.  A table with the header row alone, whose digit-only cells
    [int] reads, or with no row at all, makes [tabulate] raise
    [IndexError]: after the header is taken off, the separator line is
    sized by the first remaining row. *)
Theorem tabulate_needs_data_row header markdown :
  Forall readable_cell header →
  tabulate [header] markdown = Raise IndexError
  ∧ tabulate [] markdown = Raise IndexError.
Proof.
  intros Hread. split; [|done].
  destruct (measure_total [header] header) as (st & Hst); [done|by repeat constructor..|].
  unfold tabulate. rewrite Hst. cbn [mbind result_bind].
  apply measure_Ok in Hst as (header' & flags & [= <-] & Hrows & Hflags & Hwl & Hcols).
  rewrite Hrows. cbn [fmap list_fmap].
  edestruct (for_each_cells_total (render_header_cell (column_widths st))
               (display <$> header)) as (t1 & Ht1).
  { intros i x t Hi%lookup_lt_Some. rewrite length_fmap in Hi.
    unfold render_header_cell. destruct (Hcols i Hi) as [Hw _].
    unfold Py.getitem. rewrite Hw. cbn [mbind result_bind]. eauto. }
  change (map display header) with (display <$> header). by rewrite Ht1.
Qed.

Lemma tabulate_needs_data_row_witness :
  tabulate [["project"; "download_count"]] true = Raise IndexError.
Proof.
  apply (tabulate_needs_data_row ["project"; "download_count"] true).
  repeat constructor; intros Hd; vm_compute in Hd; discriminate.
Defined.

Lemma isdigit_all_chars s : Py.isdigit s = true → Py.all_chars Py.isdigit_char s = true.
Proof. by destruct s. Qed.

Lemma readable_percent s : readable_cell (s +:+ "%").
Proof.
  intros Hd%isdigit_all_chars. rewrite all_chars_app in Hd.
  by apply andb_true_iff in Hd as [_ Hd].
Qed.

Lemma readable_str n : readable_cell (Py.str n).
Proof.
  intros _. pose proof (int_str n) as Hn. unfold Py.int in Hn.
  by destruct (Py.int_literal (Py.str n)).
Qed.

Lemma readable_total_row width index total :
  Forall readable_cell (total_row width index total).
Proof.
  apply Forall_lookup_2. intros j x Hj.
  assert (Hlt : (j < width)%nat).
  { apply lookup_lt_Some in Hj. unfold total_row in Hj.
    by rewrite !length_insert, length_replicate in Hj. }
  rewrite total_row_lookup in Hj by done. injection Hj as <-.
  repeat case_decide; [apply readable_str|by intros ?|by intros ?].
Qed.

(** X23.  A renderable table is still renderable after [add_percentages]
    with the percent sign: [tabulate] returns a text for the table with
    the new column. *)
Theorem tabulate_after_percentages rows rows' markdown :
  renderable rows →
  add_percentages rows true = Ok rows' →
  ∃ out, tabulate rows' markdown = Ok out.
Proof.
  intros (header & first & data & -> & Hlen & Hread) Hadd.
  apply add_percentages_Ok in Hadd
    as (headers & data0 & index & counts & data' & [= <- <-] & -> & Hi & _ & _ & _ & Hall).
  apply tabulate_total.
  apply Forall_cons in Hlen as [_ Hlen]. apply Forall_cons in Hread as [Hhead Hread].
  apply Forall2_cons_inv_l in Hall as (first' & rest' & Hfirst & Hrest & ->).
  exists (Py.insert index "percent" header), first', rest'. split; [done|].
  assert (Hrows : Forall2 (fun row row' =>
            (length row' ≤ length (Py.insert index "percent" header))%nat
            ∧ Forall readable_cell row') (first :: data) (first' :: rest')).
  { assert (Hall : Forall2 (fun row row' => ∃ share n,
              row' = Py.insert index (share_text true share) row
              ∧ Py.truediv n (foldl Z.add 0 counts) = Ok share)
              (first :: data) (first' :: rest')) by (by constructor).
    clear Hfirst Hrest. revert Hlen Hread.
    induction Hall as [|row row' l l' (share & n & -> & _) _ IH]; [constructor|].
    intros [Hl Hlen]%Forall_cons [Hr Hread]%Forall_cons.
    constructor; [|by apply IH]. split.
    - rewrite !length_py_insert. lia.
    - apply Forall_py_insert; [|done]. apply readable_percent. }
  split.
  - constructor; [done|]. eapply Forall2_Forall_r; [exact Hrows|].
    apply Forall_true. by intros row row' [? _].
  - constructor.
    + apply Forall_py_insert; [by intros ?|done].
    + eapply Forall2_Forall_r; [exact Hrows|]. apply Forall_true. by intros row row' [_ ?].
Qed.

Lemma tabulate_after_percentages_witness :
  ∃ out,
    tabulate [["project"; "percent"; "download_count"];
              ["x"; "25.00%"; "1"]; ["y"; "75.00%"; "3"]] false = Ok out.
Proof.
  apply (tabulate_after_percentages
           [["project"; "download_count"]; ["x"; "1"]; ["y"; "3"]]).
  - exists ["project"; "download_count"], ["x"; "1"], [["y"; "3"]].
    split; [reflexivity|]. split.
    + repeat constructor.
    + repeat constructor; intros Hdigit; vm_compute in Hdigit;
        first [discriminate | by eexists].
  - by vm_compute.
Defined.

(** X24.  A renderable table with a column [download_count] of integers is
    still renderable after [add_download_total]: [tabulate] returns a
    text for the table with the row of the total. *)
Theorem tabulate_after_total rows total index markdown :
  renderable rows →
  (get_download_total rows).2 = Ok (total, index) →
  ∃ rows' out,
    add_download_total rows = (rows', Ok rows')
    ∧ tabulate rows' markdown = Ok out.
Proof.
  intros (header & first & data & -> & Hlen & Hread).
  destruct (get_download_total (header :: first :: data)) as [rows0 r] eqn:Hget.
  simpl. intros ->.
  apply get_download_total_inv in Hget
    as (headers & data0 & counts & [= <- <-] & _ & Hi & Hc & ->).
  set (last_row := total_row (length header) index (foldl Z.add 0 counts)).
  destruct (tabulate_total ((header :: first :: data) ++ [last_row]) markdown)
    as [out Hout].
  { exists header, first, (data ++ [last_row]). split; [done|]. split.
    - apply Forall_app. split; [done|]. constructor; [|constructor].
      unfold last_row, total_row. by rewrite !length_insert, length_replicate.
    - apply Forall_app. split; [done|]. constructor; [|constructor].
      apply readable_total_row. }
  exists ((header :: first :: data) ++ [last_row]), out. split; [|exact Hout].
  by apply (add_download_total_Ok header (first :: data) index counts).
Qed.

Lemma tabulate_after_total_witness :
  ∃ rows' out,
    add_download_total [["project"; "download_count"]; ["x"; "7"]; ["y"; "5"]]
    = (rows', Ok rows')
    ∧ tabulate rows' true = Ok out.
Proof.
  apply (tabulate_after_total [["project"; "download_count"]; ["x"; "7"]; ["y"; "5"]]
           12 1%nat).
  - exists ["project"; "download_count"], ["x"; "7"], [["y"; "5"]].
    split; [reflexivity|]. split.
    + repeat constructor.
    + repeat constructor; intros Hdigit; vm_compute in Hdigit;
        first [discriminate | by eexists].
  - reflexivity.
Defined.

(** ** The query builder: every form of bound *)

Lemma validate_date_nonempty s b : validate_date s = Ok b → truthy_str (Some s) = Some s.
Proof. by destruct s. Qed.

(** Two valid bounds and no day count: each bound is written on its own. *)
Lemma query_dates_valid s e :
  validate_date s = Ok true → validate_date e = Ok true →
  query_dates (Some s) (Some e) None
  = (sd ← format_date s START_TIMESTAMP; ed ← format_date e END_TIMESTAMP; Ok (sd, ed)).
Proof.
  intros Hs He. unfold query_dates, or_str.
  rewrite (validate_date_nonempty s true), (validate_date_nonempty e true) by done.
  cbn [truthy_int mbind result_bind].
  rewrite (normalize_dates_validated s e true true) by done.
  cbn [mbind result_bind]. rewrite Hs, He. cbn [mbind result_bind].
  by rewrite range_check_passes.
Qed.

Section Bounds.

Context {Field : Type} `{Countable Field}.
Context (name data : Field → string) (Downloads : Field) (AGGREGATES : gset Field).
Context (canonicalize_name : string → string).

(** X25.  [build_query] accepts every pair of bounds that [validate_date]
    accepts, relative or calendar days, mixed or not and in either order:
    the range of the query is made of what [format_date] gives for each
    bound. *)
Theorem build_query_accepts_valid_bounds project all_fields s e limit where_ order pip :
  validate_date s = Ok true → validate_date e = Ok true →
  ∃ sd ed rest,
    format_date s START_TIMESTAMP = Ok sd
    ∧ format_date e END_TIMESTAMP = Ok ed
    ∧ build_query name data Downloads AGGREGATES canonicalize_name
        project all_fields (Some s) (Some e) None limit where_ order pip
      = Ok (select_lines name data (first_occurrences all_fields ++ [Downloads])
            +:+ FROM +:+ Py.nl +:+ ("WHERE timestamp BETWEEN " +:+ sd +:+ " AND " +:+ ed)
            +:+ Py.nl +:+ rest).
Proof.
  intros Hs He. pose proof (query_dates_valid s e Hs He) as Hdates.
  rewrite !format_date_Ok in Hdates. cbn [mbind result_bind] in Hdates.
  destruct (build_query_head name data Downloads AGGREGATES canonicalize_name
              project all_fields (Some s) (Some e) None limit where_ order pip _ _ Hdates)
    as [rest Hq].
  eexists _, _, rest. split; [apply format_date_Ok|]. split; [apply format_date_Ok|].
  exact Hq.
Qed.

(** X26.  With two relative bounds the range of the query runs between the
    two offsets in days from now; bounds that are absent or empty stand
    for 31 days and 1 day ago. *)
Theorem build_query_relative_range project all_fields limit where_ order pip :
  (∀ s e,
     s < 0 → e < 0 →
     ∃ rest,
       build_query name data Downloads AGGREGATES canonicalize_name
         project all_fields (Some (Py.str s)) (Some (Py.str e)) None limit where_ order pip
       = Ok (select_lines name data (first_occurrences all_fields ++ [Downloads])
             +:+ FROM +:+ Py.nl +:+ relative_range (Py.str s) (Py.str e) +:+ Py.nl +:+ rest))
  ∧ (∀ start_date end_date,
       truthy_str start_date = None → truthy_str end_date = None →
       ∃ rest,
         build_query name data Downloads AGGREGATES canonicalize_name
           project all_fields start_date end_date None limit where_ order pip
         = Ok (select_lines name data (first_occurrences all_fields ++ [Downloads])
               +:+ FROM +:+ Py.nl +:+ relative_range "-31" "-1" +:+ Py.nl +:+ rest)).
Proof.
  split.
  - intros s e Hs He. rewrite <- relative_range_eq.
    apply build_query_head. by apply query_dates_relative.
  - intros start_date end_date Hs He. rewrite <- relative_range_eq.
    apply build_query_head. unfold query_dates, or_str. by rewrite Hs, He.
Qed.

End Bounds.

Lemma build_query_accepts_valid_bounds_witness :
  ∃ sd ed rest,
    format_date "2020-01-31" START_TIMESTAMP = Ok sd
    ∧ format_date "-7" END_TIMESTAMP = Ok ed
    ∧ Sample.build_query "requests" [] (Some "2020-01-31"%string) (Some "-7"%string)
        None None None None false
      = Ok (select_lines Sample.name Sample.data (first_occurrences [] ++ [Sample.Downloads])
            +:+ FROM +:+ Py.nl +:+ ("WHERE timestamp BETWEEN " +:+ sd +:+ " AND " +:+ ed)
            +:+ Py.nl +:+ rest).
Proof.
  apply (build_query_accepts_valid_bounds Sample.name Sample.data Sample.Downloads
           Sample.AGGREGATES Sample.canonicalize_name "requests" []
           "2020-01-31" "-7"); reflexivity.
Defined.

Lemma build_query_relative_range_witness :
  ∃ rest,
    Sample.build_query "requests" [] (Some (Py.str (-14))) (Some (Py.str (-7)))
      None None None None false
    = Ok (select_lines Sample.name Sample.data (first_occurrences [] ++ [Sample.Downloads])
          +:+ FROM +:+ Py.nl +:+ relative_range (Py.str (-14)) (Py.str (-7))
          +:+ Py.nl +:+ rest).
Proof.
  apply (proj1 (build_query_relative_range Sample.name Sample.data Sample.Downloads
                  Sample.AGGREGATES Sample.canonicalize_name "requests" []
                  None None None false)); lia.
Defined.

(** ** [tabulate]: the shape of the text *)

Lemma len_repeat_nat c k : Py.len (Py.repeat_nat (String c EmptyString) k) = Z.of_nat k.
Proof.
  induction k as [|k IH]; [done|]. cbn [Py.repeat_nat]. rewrite len_app, IH.
  change (Py.len (String c EmptyString)) with 1. lia.
Qed.

Lemma len_repeat c n : Py.len (Py.repeat (String c EmptyString) n) = Z.max 0 n.
Proof. unfold Py.repeat. rewrite len_repeat_nat. lia. Qed.

Lemma len_concat_text l : Py.len (concat_text l) = sum_list (Py.len <$> l).
Proof.
  induction l as [|x l IH]; [done|]. cbn [concat_text foldr fmap list_fmap sum_list].
  fold (concat_text l). rewrite len_app, IH. done.
Qed.

Lemma len_imap_cells (f : nat → string → string) (g : nat → Z) (row : list string) :
  (∀ i x, row !! i = Some x → Py.len (f i x) = g i) →
  Py.len <$> imap f row = g <$> seq 0 (length row).
Proof.
  intros Hf. apply list_eq. intros i.
  rewrite list_lookup_fmap, list_lookup_imap, list_lookup_fmap.
  destruct (row !! i) as [x|] eqn:Hi.
  - rewrite (lookup_seq_lt _ _ _ (lookup_lt_Some _ _ _ Hi)). simpl. by rewrite (Hf i x).
  - rewrite lookup_seq_ge; [done|]. by apply lookup_ge_None.
Qed.

Lemma len_seq_cells (f : nat → string) (g : nat → Z) n :
  (∀ i, (i < n)%nat → Py.len (f i) = g i) →
  Py.len <$> (f <$> seq 0 n) = g <$> seq 0 n.
Proof.
  intros Hf. rewrite <- list_fmap_compose. apply list_fmap_ext.
  intros i x [-> ?]%lookup_seq. simpl. by apply Hf.
Qed.

Lemma rstrip_app s t : Py.rstrip t ≠ EmptyString → Py.rstrip (s +:+ t) = s +:+ Py.rstrip t.
Proof.
  intros Ht. induction s as [|c s IH]; [done|].
  cbn [String.append Py.rstrip]. rewrite IH.
  destruct (s +:+ Py.rstrip t) eqn:Hs; [|done].
  by destruct (string_app_nonempty s _ Ht).
Qed.

(** A text that ends with a bar and a blank loses the blank. *)
Lemma rstrip_bar p : Py.rstrip (p +:+ "| ") = p +:+ "|".
Proof. by rewrite rstrip_app. Qed.

Lemma concat_text_ends (l : list string) suffix :
  l ≠ [] → Forall (fun x => ∃ p, x = p +:+ suffix) l →
  ∃ p, concat_text l = p +:+ suffix.
Proof.
  induction l as [|x l IH]; [done|]. intros _ [[p ->] Hl]%Forall_cons.
  destruct l as [|y l].
  - exists p. simpl. by rewrite app_nil_r_string.
  - destruct IH as [q Hq]; [done|done|].
    exists ((p +:+ suffix) +:+ q).
    change (concat_text ((p +:+ suffix) :: y :: l))
      with ((p +:+ suffix) +:+ concat_text (y :: l)).
    rewrite Hq. by rewrite !app_assoc_string.
Qed.

Lemma column_max_ge (rows : Rows) row i item :
  row ∈ rows → row !! i = Some item → Py.len item ≤ column_max Py.len rows i.
Proof.
  intros Hrow Hitem. unfold column_max.
  induction rows as [|r rows IH]; [by apply elem_of_nil in Hrow|].
  cbn [foldr]. apply elem_of_cons in Hrow as [<-|Hrow].
  - rewrite Hitem. simpl. lia.
  - specialize (IH Hrow). lia.
Qed.

Lemma len_header_cell w item :
  Py.len item ≤ w → Py.len (header_cell_text w item) = w + 3.
Proof.
  intros Hw. unfold header_cell_text. rewrite !len_app, len_repeat.
  change (Py.len "| ") with 2. lia.
Qed.

Lemma len_separator_cell w right markdown :
  1 ≤ w → Py.len (separator_cell_text w right markdown) = w + 3.
Proof.
  intros Hw. unfold separator_cell_text. rewrite len_app, len_repeat.
  destruct (right && markdown); change (Py.len _) with 4; lia.
Qed.

Lemma len_data_cell w right item :
  Py.len item ≤ w → Py.len (data_cell_text w right item) = w + 3.
Proof.
  intros Hw. unfold data_cell_text. pose proof (len_nonneg item).
  destruct right; rewrite !len_app, len_repeat; change (Py.len "| ") with 2;
    try change (Py.len " ") with 1; lia.
Qed.

Lemma rstrip_cells prefix cells :
  (∃ p, cells = p +:+ "| ") →
  ∃ line,
    Py.rstrip (prefix +:+ "| " +:+ cells) = prefix +:+ line
    ∧ Py.len line = Py.len cells + 1.
Proof.
  intros [p ->]. exists ("| " +:+ p +:+ "|"). split.
  - rewrite <- !app_assoc_string. rewrite rstrip_bar. by rewrite !app_assoc_string.
  - rewrite !len_app. change (Py.len "| ") with 2. change (Py.len "|") with 1. lia.
Qed.

Lemma unlines_cons line lines : unlines (line :: lines) = line +:+ Py.nl +:+ unlines lines.
Proof. unfold unlines. rewrite fmap_cons. cbn [concat_text foldr]. by rewrite app_assoc_string. Qed.

Lemma unlines_bars (f : list string → string) (data : list (list string)) :
  concat_text ((fun row => f row +:+ "|" +:+ Py.nl) <$> data)
  = unlines ((fun row => f row +:+ "|") <$> data).
Proof.
  unfold unlines. rewrite <- list_fmap_compose. f_equal. apply list_fmap_ext.
  intros i row _. simpl. by rewrite app_assoc_string.
Qed.

Lemma rstrip_cells_first cells :
  (∃ p, cells = p +:+ "| ") →
  ∃ line, Py.rstrip ("| " +:+ cells) = line ∧ Py.len line = Py.len cells + 1.
Proof. intros Hcells. exact (rstrip_cells EmptyString cells Hcells). Qed.

Lemma header_cells_end (width : nat → Z) (headers : list string) :
  headers ≠ [] →
  ∃ p, concat_text (imap (fun i => header_cell_text (width i)) headers) = p +:+ "| ".
Proof.
  intros Hne. apply concat_text_ends.
  - intros Himap. apply (f_equal length) in Himap. rewrite length_imap in Himap.
    by destruct headers.
  - apply Forall_forall. intros x (i & item & -> & _)%elem_of_lookup_imap.
    eexists. unfold header_cell_text. by rewrite <- app_assoc_string.
Qed.

Lemma separator_cells_end (width : nat → Z) (right : nat → bool) markdown n :
  (0 < n)%nat →
  ∃ p, concat_text ((fun i => separator_cell_text (width i) (right i) markdown)
                      <$> seq 0 n) = p +:+ "| ".
Proof.
  intros Hn. apply concat_text_ends.
  - destruct n; [lia|done].
  - apply Forall_fmap, Forall_forall. intros i _. simpl.
    unfold separator_cell_text.
    destruct (right i && markdown).
    + exists (Py.repeat "-" (width i - 1) +:+ ": "). by rewrite app_assoc_string.
    + exists (Py.repeat "-" (width i - 1) +:+ "- "). by rewrite app_assoc_string.
Qed.

(** X27.  On a table [tabulate] renders whose rows all have [n] cells,
    [n] positive, whose columns are all at least one character wide and
    whose cells are shown with the length they came with (no digit-only
    cell gains a thousands separator), the text is rectangular: one line
    for the header, one for the separators and one for each data row,
    all of the same width. *)
Theorem tabulate_rectangular rows markdown out n :
  tabulate rows markdown = Ok out →
  (0 < n)%nat →
  Forall (fun row => length row = n) rows →
  (∀ i, (i < n)%nat → 1 ≤ column_max Py.len rows i) →
  Forall (Forall (fun item => Py.len (display item) = Py.len item)) rows →
  ∃ lines,
    out = unlines lines
    ∧ length lines = S (length rows)
    ∧ Forall (fun line => Py.len line = line_width rows n) lines.
Proof.
  intros Hout Hn Hlen Hwidth Hshown.
  apply tabulate_Ok_text in Hout as (headers & data & Hrows & Hdata & ->).
  destruct rows as [|header [|first rest]]; [done|by injection Hrows as _ <-|].
  rewrite !fmap_cons in Hrows. injection Hrows as <- <-.
  set (rows := header :: first :: rest) in *.
  set (width := fun i => column_max Py.len rows i).
  set (right := fun i => column_flag rows i).
  (* every shown cell fits its column *)
  assert (Hfit : ∀ row i item,
            row ∈ rows → (display <$> row) !! i = Some item → Py.len item ≤ width i).
  { intros row i item Hrow Hitem.
    apply list_lookup_fmap_Some in Hitem as (x & -> & Hx).
    rewrite Forall_forall in Hshown. specialize (Hshown row Hrow).
    rewrite Forall_forall in Hshown. rewrite Hshown by (by eapply list_elem_of_lookup_2).
    by eapply column_max_ge. }
  assert (Hcount : ∀ row, row ∈ rows → length (display <$> row) = n).
  { intros row Hrow. rewrite length_fmap. rewrite Forall_forall in Hlen. by apply Hlen. }
  assert (Hheader : header ∈ rows) by apply list_elem_of_here.
  assert (Hfirst : first ∈ rows) by (apply list_elem_of_further, list_elem_of_here).
  (* the cells of a line add up to the width *)
  assert (Hsum_header :
            Py.len (concat_text (imap (fun i => header_cell_text (width i)) (display <$> header)))
            = line_width rows n - 1).
  { rewrite len_concat_text.
    rewrite (len_imap_cells _ (fun i => width i + 3))
      by (intros i x Hx; apply len_header_cell; by apply (Hfit header)).
    rewrite Hcount by done. unfold line_width, width. lia. }
  assert (Hsum_separator :
            Py.len (concat_text ((fun i => separator_cell_text (width i) (right i) markdown)
                                   <$> seq 0 n))
            = line_width rows n - 1).
  { rewrite len_concat_text.
    rewrite (len_seq_cells _ (fun i => width i + 3)) by
      (intros i Hi; apply len_separator_cell; by apply Hwidth).
    unfold line_width, width. lia. }
  assert (Hsum_data : ∀ row, row ∈ rows →
            Py.len (concat_text (imap (fun i => data_cell_text (width i) (right i))
                                   (display <$> row)) +:+ "|")
            = line_width rows n).
  { intros row Hrow. rewrite len_app, len_concat_text.
    rewrite (len_imap_cells _ (fun i => width i + 3))
      by (intros i x Hx; apply len_data_cell; by apply (Hfit row)).
    rewrite Hcount by done. unfold line_width, width. change (Py.len "|") with 1. lia. }
  (* the first two lines *)
  destruct (rstrip_cells_first
              (concat_text (imap (fun i => header_cell_text (width i)) (display <$> header))))
    as (line1 & Hline1 & Hlen1).
  { apply header_cells_end. destruct header; [|done]. specialize (Hcount [] Hheader).
    simpl in Hcount. lia. }
  destruct (rstrip_cells (line1 +:+ Py.nl)
              (concat_text ((fun i => separator_cell_text (width i) (right i) markdown)
                              <$> seq 0 n)))
    as (line2 & Hline2 & Hlen2).
  { by apply separator_cells_end. }
  exists (line1 :: line2
          :: ((fun row => concat_text (imap (fun i => data_cell_text (width i) (right i)) row)
                          +:+ "|") <$> (map display first :: (map display <$> rest)))).
  split; [|split].
  - subst width right. cbv beta in *. unfold tabulate_text. cbv zeta.
    change (map display header) with (display <$> header).
    rewrite Hline1.
    change (default [] (head (map display first :: (map display <$> rest))))
      with (display <$> first).
    rewrite (Hcount first Hfirst).
    rewrite <- (app_assoc_string line1 Py.nl), Hline2.
    rewrite unlines_bars, !unlines_cons. by rewrite !app_assoc_string.
  - simpl. by rewrite !length_fmap.
  - constructor; [lia|]. constructor; [lia|].
    change (map display first :: (map display <$> rest))
      with (map display <$> (first :: rest)).
    rewrite <- list_fmap_compose. apply Forall_fmap, Forall_forall.
    intros row Hrow. simpl. apply Hsum_data. by apply list_elem_of_further.
Qed.

Lemma tabulate_rectangular_witness :
  ∃ lines,
    Sample.lines
      ["| name | count |"; "| ---- | ----- |"; "| a    |    12 |"; "| b    |   n/a |";
       EmptyString]
    = unlines lines
    ∧ length lines = S (length [["name"; "count"]; ["a"; "12"]; ["b"; "n/a"]])
    ∧ Forall (fun line =>
                Py.len line = line_width [["name"; "count"]; ["a"; "12"]; ["b"; "n/a"]] 2)
        lines.
Proof.
  apply (tabulate_rectangular [["name"; "count"]; ["a"; "12"]; ["b"; "n/a"]] false _ 2).
  - by vm_compute.
  - lia.
  - repeat constructor.
  - intros i Hi. destruct i as [|[|i]]; [by vm_compute..|lia].
  - repeat constructor.
Defined.

(** ** [format_json] *)

Lemma json_cell_Ok headers d k i item item' :
  json_cell headers d k i item = Ok item' ↔
  ∃ cell header,
    d !! i = Some cell ∧ headers !! i = Some header ∧ readable_cell cell
    ∧ item' = <[header := cell_value cell]> item.
Proof.
  unfold json_cell, readable_cell, cell_value, Py.getitem, Py.int. split.
  - destruct (d !! i) as [cell|]; [|done]. cbn [mbind result_bind].
    destruct (headers !! i) as [header|].
    + destruct (Py.isdigit cell) eqn:Hdigit.
      * destruct (Py.int_literal cell) as [n|] eqn:Hn; [|done]. cbn [mbind result_bind].
        intros [= <-]. exists cell, header. rewrite Hdigit, Hn.
        split_and!; [done|done|by eexists|done].
      * cbn [mbind result_bind]. intros [= <-]. exists cell, header. rewrite Hdigit.
        split_and!; [done|done|by intros ?|done].
    + destruct (Py.isdigit cell); [|done].
      by destruct (Py.int_literal cell).
  - intros (cell & header & -> & -> & Hread & ->). cbn [mbind result_bind].
    destruct (Py.isdigit cell); [|done].
    by destruct (Hread eq_refl) as [n ->].
Qed.

Lemma for_each_snoc {A St} (body : nat → A → St → result St) i l x st :
  for_each body i (l ++ [x]) st
  = st' ← for_each body i l st; body (i + length l)%nat x st'.
Proof.
  revert i st. induction l as [|y l IH]; intros i st; simpl.
  - rewrite Nat.add_0_r. by destruct (body i x st).
  - destruct (body i y st) as [st1|]; [|done]. simpl. rewrite IH.
    by rewrite Nat.add_succ_r.
Qed.

Lemma zip_take_snoc (headers d : list string) k header cell :
  headers !! k = Some header → d !! k = Some cell →
  zip (take (S k) headers) (take (S k) d)
  = zip (take k headers) (take k d) ++ [(header, cell)].
Proof.
  intros Hh Hd. rewrite (take_S_r _ _ _ Hh), (take_S_r _ _ _ Hd).
  rewrite zip_with_app; [done|].
  rewrite !length_take. apply lookup_lt_Some in Hh, Hd. lia.
Qed.

Lemma zip_take_r (l k : list string) : zip l (take (length l) k) = zip l k.
Proof.
  revert k. induction l as [|x l IH]; intros k; [done|].
  destruct k as [|y k]; [done|]. simpl. by rewrite IH.
Qed.

(** The loop over the columns of one row. *)
Lemma json_item_Ok headers d item :
  json_item headers d = Ok item ↔ json_row headers d ∧ item = row_item headers d.
Proof.
  unfold json_item, json_row, row_item.
  assert (Hgen : ∀ k, (k ≤ length headers)%nat →
    ∀ item,
      for_each (json_cell headers d) 0 (seq 0 k) ∅ = Ok item ↔
      ((k ≤ length d)%nat ∧ Forall readable_cell (take k d))
      ∧ item = foldl (fun item p => <[p.1 := cell_value p.2]> item) ∅
                 (zip (take k headers) (take k d))).
  { induction k as [|k IH]; intros Hk item0.
    - simpl. split; [intros [= <-]|intros [_ ->]]; [|done].
      split; [|done]. split; [lia|constructor].
    - rewrite seq_S. cbn [Nat.add]. rewrite for_each_snoc, length_seq. cbn [Nat.add]. split.
      + intros (item1 & Hrun & Hcell)%bind_Ok.
        apply IH in Hrun as ((Hlen & Hread) & ->); [|lia].
        apply json_cell_Ok in Hcell as (cell & header & Hd & Hh & Hcell & ->).
        split; [split|].
        * apply lookup_lt_Some in Hd. lia.
        * rewrite (take_S_r _ _ _ Hd). apply Forall_app. by split; [|repeat constructor].
        * by rewrite (zip_take_snoc _ _ _ _ _ Hh Hd), foldl_app.
      + intros ((Hlen & Hread) & ->).
        destruct (lookup_lt_is_Some_2 d k) as [cell Hd]; [lia|].
        destruct (lookup_lt_is_Some_2 headers k) as [header Hh]; [lia|].
        rewrite (take_S_r _ _ _ Hd) in Hread. apply Forall_app in Hread as [Hread Hcell].
        apply Forall_cons in Hcell as [Hcell _].
        assert (Hk' : (k ≤ length headers)%nat) by lia.
        assert (Hlen' : (k ≤ length d)%nat) by lia.
        rewrite (proj2 (IH Hk' _) (conj (conj Hlen' Hread) eq_refl)).
        cbn [mbind result_bind]. apply json_cell_Ok. exists cell, header.
        split_and!; try done.
        by rewrite (zip_take_snoc _ _ _ _ _ Hh Hd), foldl_app. }
  rewrite (Hgen (length headers)) by done.
  rewrite firstn_all.
  by rewrite zip_take_r.
Qed.

Lemma mapM_Ok_Forall2 {A B} (f : A → result B) l k :
  mapM f l = Ok k ↔ Forall2 (fun x y => f x = Ok y) l k.
Proof.
  revert k. induction l as [|x l IH]; intros k.
  - split; [intros [= <-]; constructor|by intros ->%Forall2_nil_inv_l].
  - rewrite mapM_cons. split.
    + intros (y & Hy & (k' & Hk' & [= <-])%bind_Ok)%bind_Ok.
      constructor; [done|by apply IH].
    + intros (y & k' & Hy & Hk' & ->)%Forall2_cons_inv_l.
      rewrite Hy. cbn [mbind result_bind]. apply IH in Hk'. by rewrite Hk'.
Qed.

Lemma mapM_json_items headers data items :
  mapM (json_item headers) data = Ok items ↔
  Forall (json_row headers) data ∧ items = row_item headers <$> data.
Proof.
  rewrite mapM_Ok_Forall2. split.
  - induction 1 as [|d item data items [Hrow ->]%json_item_Ok _ [IH ->]]; [done|].
    split; [by constructor|done].
  - intros [Hrows ->]. induction Hrows as [|d data Hrow _ IH]; [constructor|].
    rewrite fmap_cons. constructor; [by apply json_item_Ok|done].
Qed.

Lemma foldl_insert_other (l : list (string * string)) (item : gmap string value) header :
  Forall (fun p => p.1 ≠ header) l →
  foldl (fun item p => <[p.1 := cell_value p.2]> item) item l !! header = item !! header.
Proof.
  revert item. induction l as [|p l IH]; intros item; [done|].
  intros [Hp Hl]%Forall_cons. simpl. rewrite IH by done. by rewrite lookup_insert_ne.
Qed.

Lemma foldl_insert_lookup (l : list (string * string)) (item : gmap string value) i header
    cell :
  l !! i = Some (header, cell) →
  (∀ j p, l !! j = Some p → (i < j)%nat → p.1 ≠ header) →
  foldl (fun item p => <[p.1 := cell_value p.2]> item) item l !! header
  = Some (cell_value cell).
Proof.
  revert item i. induction l as [|p l IH]; intros item i; [done|].
  destruct i as [|i]; simpl.
  - intros [= ->] Hlater. rewrite foldl_insert_other.
    + by rewrite lookup_insert_eq.
    + apply Forall_lookup_2. intros j q Hq. apply (Hlater (S j) q Hq). lia.
  - intros Hi Hlater. apply (IH _ i Hi). intros j q Hq Hj. apply (Hlater (S j) q Hq). lia.
Qed.

(** What the dictionary of a row holds under a header: the cell of the
    last column of that name. *)
Lemma row_item_lookup headers d i header cell :
  headers !! i = Some header → d !! i = Some cell →
  (∀ j, (i < j)%nat → headers !! j ≠ Some header) →
  row_item headers d !! header = Some (cell_value cell).
Proof.
  intros Hh Hd Hlast. unfold row_item. apply (foldl_insert_lookup _ _ i).
  - apply lookup_zip_with_Some. by exists header, cell.
  - intros j [h c] (h' & c' & [= <- <-] & Hh' & _)%lookup_zip_with_Some Hj.
    simpl. intros ->. by apply (Hlast j Hj).
Qed.

Section JsonProperties.

Context {QueryInfo : Type}.
Context (utcnow : string).
Context (dumps : document QueryInfo → option Z → option (string * string) → bool → string).

(** X28.  [format_json] returns a text exactly for the tables with a
    header row whose other rows are each at least as long as the header
    and hold, under the header, no digit-only cell that [int] does not
    read.  A table with the header row alone is one of them. *)
Theorem format_json_returns_iff rows query_info indent :
  (∃ out, format_json utcnow dumps rows query_info indent = Ok out) ↔
  ∃ headers data, rows = headers :: data ∧ Forall (json_row headers) data.
Proof.
  unfold format_json. destruct rows as [|headers data].
  { split; [by intros [out ?]|by intros (? & ? & ? & _)]. }
  split.
  - intros [out (items & [Hrows _]%mapM_json_items & _)%bind_Ok]. by exists headers, data.
  - intros (? & ? & [= <- <-] & Hrows).
    rewrite (proj2 (mapM_json_items headers data _) (conj Hrows eq_refl)).
    cbn [mbind result_bind]. by eexists.
Qed.

(** X29.  The text [format_json] returns is what [json.dumps] gives, with
    sorted keys and with the separators [(',', ':')] when no indent is
    asked, for the dictionary of the time of the call, the query and one
    dictionary for each data row; that one maps every header to the cell
    under it, read as a number when the cell is digit-only, where of two
    columns with the same header the later one counts. *)
Theorem format_json_document rows query_info indent out :
  format_json utcnow dumps rows query_info indent = Ok out →
  ∃ headers data,
    rows = headers :: data
    ∧ out = dumps (Document utcnow (row_item headers <$> data) query_info) indent
              (match indent with
               | None => Some (",", ":")%string
               | Some _ => None
               end) true
    ∧ ∀ d i header cell,
        headers !! i = Some header → d !! i = Some cell →
        (∀ j, (i < j)%nat → headers !! j ≠ Some header) →
        row_item headers d !! header
        = Some (if Py.isdigit cell
                then match Py.int_literal cell with
                     | Some n => Number n
                     | None => Text cell
                     end
                else Text cell).
Proof.
  unfold format_json. destruct rows as [|headers data]; [done|].
  intros (items & [_ ->]%mapM_json_items & [= <-])%bind_Ok.
  exists headers, data. split; [done|]. split; [done|].
  intros d i header cell. apply row_item_lookup.
Qed.

End JsonProperties.

Lemma format_json_returns_iff_witness :
  ∃ headers data,
    [["project"; "download_count"]; ["x"; "12"; "extra"]] = headers :: data
    ∧ Forall (json_row headers) data.
Proof.
  apply (format_json_returns_iff sample_utcnow sample_dumps _ tt None).
  by eexists.
Defined.

Lemma format_json_document_witness :
  ∃ headers data,
    [["project"; "download_count"]; ["x"; "12"]] = headers :: data
    ∧ "2020-01-01 00:00:00 1"%string
      = sample_dumps (Document sample_utcnow (row_item headers <$> data) tt) None
          (Some (",", ":")%string) true
    ∧ ∀ d i header cell,
        headers !! i = Some header → d !! i = Some cell →
        (∀ j, (i < j)%nat → headers !! j ≠ Some header) →
        row_item headers d !! header
        = Some (if Py.isdigit cell
                then match Py.int_literal cell with
                     | Some n => Number n
                     | None => Text cell
                     end
                else Text cell).
Proof.
  apply (format_json_document sample_utcnow sample_dumps
           [["project"; "download_count"]; ["x"; "12"]] tt None).
  reflexivity.
Defined.
